(** * cortex-tutor: lesson cache, progress store and input validation

    A shallow embedding of [packages/cortex-tutor/sqlite_store.py],
    [packages/cortex-tutor/tools.py] and
    [packages/cortex-tutor/validators.py], followed by the properties
    claimed of them.

    Conventions of the embedding.
    - A table is the list of its rows in rowid order, together with the
      AUTOINCREMENT counter SQLite keeps in [sqlite_sequence].
    - Python [int] and SQLite INTEGER are [Z]; [float] and REAL are
      binary64 ([PrimFloat.float]); TEXT is [string] (its UTF-8 bytes),
      compared bytewise as SQLite's BINARY collation does.
    - Every reading of the clock is an explicit [datetime] argument.
    - A method that can raise returns a [result]; a method that writes
      returns the store it leaves behind. *)

From Stdlib Require Import ZArith List Bool Ascii String Floats Uint63 Lia.
From Stdlib Require Import DecimalString.
From Stdlib Require Import Sorted Permutation.
Import ListNotations.

Open Scope string_scope.
Open Scope Z_scope.

(** ** Exceptions *)

Inductive exn : Type :=
| OperationalError (msg : string)   (* sqlite3.OperationalError *)
| OverflowError (msg : string)      (* datetime arithmetic, sqlite3 binding *)
| TypeError (msg : string).

(** [str(e)] *)
Definition str_exn (e : exn) : string :=
  match e with
  | OperationalError m => m
  | OverflowError m => m
  | TypeError m => m
  end.

Inductive result (A : Type) : Type :=
| Ok (a : A)
| Raise (e : exn).

Arguments Ok {A} a.
Arguments Raise {A} e.

Definition bind {A B : Type} (m : result A) (k : A -> result B) : result B :=
  match m with
  | Ok a => k a
  | Raise e => Raise e
  end.

Notation "x <- m ;; k" := (bind m (fun x => k))
  (at level 61, m at next level, right associativity).
Notation "' p <- m ;; k" := (bind m (fun p => k))
  (at level 61, p pattern, m at next level, right associativity).

(** ** Python truthiness and [or] on optional values *)

Definition str_truthy (s : string) : bool :=
  match s with
  | EmptyString => false
  | String _ _ => true
  end.

(** [bool(x)] for [x : str | None] *)
Definition opt_str_truthy (o : option string) : bool :=
  match o with
  | Some s => str_truthy s
  | None => false
  end.

(** [str(n)] for an [int] *)
Definition str_int (n : Z) : string := NilZero.string_of_int (Z.to_int n).

(** ** The clock: [datetime] values in UTC *)

Module Datetime.

Record datetime : Type := mkDatetime {
  year : Z;
  month : Z;
  day : Z;
  hour : Z;
  minute : Z;
  second : Z;
  microsecond : Z
}.

Definition MINYEAR : Z := 1.
Definition MAXYEAR : Z := 9999.
Definition MAXORDINAL : Z := 3652059.
Definition DI4Y : Z := 1461.
Definition DI100Y : Z := 36524.
Definition DI400Y : Z := 146097.

Definition is_leap (y : Z) : bool :=
  (y mod 4 =? 0) && (negb (y mod 100 =? 0) || (y mod 400 =? 0)).

Definition days_in_month_tbl : list Z :=
  [0; 31; 28; 31; 30; 31; 30; 31; 31; 30; 31; 30; 31].

Definition days_before_month_tbl : list Z :=
  [0; 0; 31; 59; 90; 120; 151; 181; 212; 243; 273; 304; 334].

Definition days_in_month (y m : Z) : Z :=
  if (m =? 2) && is_leap y then 29
  else nth (Z.to_nat m) days_in_month_tbl 0.

Definition days_before_month (y m : Z) : Z :=
  nth (Z.to_nat m) days_before_month_tbl 0
  + (if (2 <? m) && is_leap y then 1 else 0).

Definition days_before_year (y : Z) : Z :=
  let y1 := y - 1 in
  y1 * 365 + y1 / 4 - y1 / 100 + y1 / 400.

Definition ymd_to_ord (y m d : Z) : Z :=
  days_before_year y + days_before_month y m + d.

Definition ord_to_ymd (ordinal : Z) : Z * Z * Z :=
  let ordinal := ordinal - 1 in
  let n400 := ordinal / DI400Y in
  let n := ordinal mod DI400Y in
  let n100 := n / DI100Y in
  let n := n mod DI100Y in
  let n4 := n / DI4Y in
  let n := n mod DI4Y in
  let n1 := n / 365 in
  let n := n mod 365 in
  let y := n400 * 400 + 1 + n100 * 100 + n4 * 4 + n1 in
  if (n1 =? 4) || (n100 =? 4) then (y - 1, 12, 31)
  else
    let leapyear := (n1 =? 3) && (negb (n4 =? 24) || (n100 =? 3)) in
    let m := Z.shiftr (n + 50) 5 in
    let preceding :=
      nth (Z.to_nat m) days_before_month_tbl 0
      + (if (2 <? m) && leapyear then 1 else 0) in
    if n <? preceding
    then (y, m - 1, n - (preceding - days_in_month y (m - 1)) + 1)
    else (y, m, n - preceding + 1).

(** The invariant of a [datetime] object. *)
Definition valid (d : datetime) : Prop :=
  MINYEAR <= year d <= MAXYEAR /\
  1 <= month d <= 12 /\
  1 <= day d <= days_in_month (year d) (month d) /\
  0 <= hour d < 24 /\
  0 <= minute d < 60 /\
  0 <= second d < 60 /\
  0 <= microsecond d < 1000000.

(** Comparison of two aware datetimes of the same zone: field by field. *)
Definition lexz (c : comparison) (k : comparison) : comparison :=
  match c with
  | Eq => k
  | _ => c
  end.

Definition compare (a b : datetime) : comparison :=
  lexz (year a ?= year b)
  (lexz (month a ?= month b)
  (lexz (day a ?= day b)
  (lexz (hour a ?= hour b)
  (lexz (minute a ?= minute b)
  (lexz (second a ?= second b)
        (microsecond a ?= microsecond b)))))).


(** [timedelta(hours=h)], normalised to (days, seconds, microseconds): the
    day count is first converted to a C [int], then checked against the
    range of a [timedelta]. *)
Definition timedelta_hours (h : Z) : result (Z * Z * Z) :=
  let s := h * 3600 in
  let days := s / 86400 in
  if (days <? -2147483648) || (2147483647 <? days)
  then Raise (OverflowError "Python int too large to convert to C int")
  else if (days <? -999999999) || (999999999 <? days)
  then Raise (OverflowError ("days=" ++ str_int days
                             ++ "; must have magnitude <= 999999999"))
  else Ok (days, s mod 86400, 0).

Definition normalize_pair (hi lo factor : Z) : Z * Z :=
  if (lo <? 0) || (factor <=? lo)
  then (hi + lo / factor, lo mod factor)
  else (hi, lo).

Definition date_out_of_range : exn :=
  OverflowError "date value out of range".

Definition normalize_y_m_d (y m d : Z) : result (Z * Z * Z) :=
  let dim := days_in_month y m in
  let check (r : Z * Z * Z) : result (Z * Z * Z) :=
    let '(y', _, _) := r in
    if (MINYEAR <=? y') && (y' <=? MAXYEAR) then Ok r
    else Raise date_out_of_range in
  if (d <? 1) || (dim <? d) then
    if d =? 0 then
      if 0 <? m - 1 then check (y, m - 1, days_in_month y (m - 1))
      else check (y - 1, 12, 31)
    else if d =? dim + 1 then
      if 12 <? m + 1 then check (y + 1, 1, 1)
      else check (y, m + 1, 1)
    else
      let ordinal := ymd_to_ord y m 1 + d - 1 in
      if (ordinal <? 1) || (MAXORDINAL <? ordinal)
      then Raise date_out_of_range
      else Ok (ord_to_ymd ordinal)
  else check (y, m, d).

(** [d + timedelta(days, seconds, microseconds)] *)
Definition add_timedelta (d : datetime) (td : Z * Z * Z) : result datetime :=
  let '(tdays, tsecs, tus) := td in
  let '(sec, us) := normalize_pair (second d + tsecs) (microsecond d + tus) 1000000 in
  let '(mi, sec) := normalize_pair (minute d) sec 60 in
  let '(ho, mi) := normalize_pair (hour d) mi 60 in
  let '(da, ho) := normalize_pair (day d + tdays) ho 24 in
  '(y, m, da) <- normalize_y_m_d (year d) (month d) da ;;
  Ok (mkDatetime y m da ho mi sec us).

(** [d + timedelta(hours=h)] *)
Definition add_hours (d : datetime) (h : Z) : result datetime :=
  td <- timedelta_hours h ;;
  add_timedelta d td.

(** Decimal rendering on exactly [w] digits, as [%0wd] prints a field that
    fits in [w] digits. *)
Definition digit (n : Z) : ascii := ascii_of_N (Z.to_N (48 + n mod 10)).

Fixpoint fixed_dec (w : nat) (n : Z) : string :=
  match w with
  | O => ""
  | S w' => String (digit (n / 10 ^ Z.of_nat w')) (fixed_dec w' n)
  end.

(** [d.isoformat()] for [d] in UTC: the fraction is printed only when the
    microsecond field is not zero. *)
Definition isoformat (d : datetime) : string :=
  fixed_dec 4 (year d) ++ "-" ++ fixed_dec 2 (month d) ++ "-" ++
  fixed_dec 2 (day d) ++ "T" ++ fixed_dec 2 (hour d) ++ ":" ++
  fixed_dec 2 (minute d) ++ ":" ++ fixed_dec 2 (second d) ++
  (if microsecond d =? 0 then "" else "." ++ fixed_dec 6 (microsecond d)) ++
  "+00:00".

(** SQLite's [CURRENT_TIMESTAMP]: seconds resolution, no zone suffix. *)
Definition current_timestamp (d : datetime) : string :=
  fixed_dec 4 (year d) ++ "-" ++ fixed_dec 2 (month d) ++ "-" ++
  fixed_dec 2 (day d) ++ " " ++ fixed_dec 2 (hour d) ++ ":" ++
  fixed_dec 2 (minute d) ++ ":" ++ fixed_dec 2 (second d).

End Datetime.

Import Datetime.

(** ** JSON values and the rows of the four tables *)

#[local] Set Warnings "-register-all,-inexact-float".

Inductive pyval : Type :=
| VNone
| VBool (b : bool)
| VInt (n : Z)
| VFloat (x : float)
| VStr (s : string)
| VList (l : list pyval)
| VDict (l : list (string * pyval)).

(** [bool(v)] *)
Definition truthy (v : pyval) : bool :=
  match v with
  | VNone => false
  | VBool b => b
  | VInt n => negb (n =? 0)
  | VFloat x => negb (PrimFloat.eqb x 0%float)
  | VStr s => str_truthy s
  | VList l => match l with [] => false | _ :: _ => true end
  | VDict l => match l with [] => false | _ :: _ => true end
  end.

(** A TEXT column that holds JSON is represented by the value it encodes:
    [json_loads (json_dumps v) = v], the round trip of Python's [json]
    module on the documents stored here. *)
Record json_text : Type := Json { json_loads : pyval }.

Definition json_dumps (v : pyval) : json_text := Json v.

Module LearningProgress.
Record t : Type := mk {
  id : option Z;
  package_name : string;
  topic : string;
  completed : bool;
  score : float;
  last_accessed : option string;
  total_time_seconds : Z
}.
End LearningProgress.

Module QuizResult.
Record t : Type := mk {
  id : option Z;
  package_name : string;
  question : string;
  user_answer : option string;
  correct : bool;
  timestamp : option string
}.
End QuizResult.

Module StudentProfile.
Record t : Type := mk {
  id : option Z;
  mastered_concepts : list string;
  weak_concepts : list string;
  learning_style : string;
  last_session : option string
}.

(** [StudentProfile()] *)
Definition default : t := mk None [] [] "reading" None.
End StudentProfile.

Module ProgressRow.
Record t : Type := mk {
  id : Z;
  package_name : string;
  topic : string;
  completed : bool;
  score : float;
  last_accessed : option string;
  total_time_seconds : Z
}.
End ProgressRow.

Module QuizRow.
Record t : Type := mk {
  id : Z;
  package_name : string;
  question : string;
  user_answer : option string;
  correct : bool;
  timestamp : string
}.
End QuizRow.

(** The two concept columns hold JSON arrays of strings; they are kept as
    the lists they encode. *)
Module ProfileRow.
Record t : Type := mk {
  id : Z;
  mastered_concepts : list string;
  weak_concepts : list string;
  learning_style : string;
  last_session : option string
}.
End ProfileRow.

Module CacheRow.
Record t : Type := mk {
  id : Z;
  package_name : string;
  content : json_text;
  created_at : string;
  expires_at : string
}.
End CacheRow.

Record table (R : Type) : Type := mkTable {
  rows : list R;
  seq : Z
}.

Arguments mkTable {R} rows seq.
Arguments rows {R} t.
Arguments seq {R} t.

Definition empty_table {R : Type} : table R := mkTable [] 0.

(** The rowid an AUTOINCREMENT table gives its next row: one more than the
    largest rowid it has ever held. *)
Definition next_rowid {R : Type} (rowid : R -> Z) (t : table R) : Z :=
  Z.max (seq t) (fold_right Z.max 0 (map rowid (rows t))) + 1.

Record database : Type := mkDatabase {
  learning_progress : table ProgressRow.t;
  quiz_results : table QuizRow.t;
  student_profile : table ProfileRow.t;
  lesson_cache : table CacheRow.t
}.

(** The state [SCHEMA] leaves in a fresh file. *)
Definition empty_database : database :=
  mkDatabase empty_table empty_table empty_table empty_table.

Definition set_learning_progress (d : database) (t : table ProgressRow.t) : database :=
  mkDatabase t (quiz_results d) (student_profile d) (lesson_cache d).

Definition set_quiz_results (d : database) (t : table QuizRow.t) : database :=
  mkDatabase (learning_progress d) t (student_profile d) (lesson_cache d).

Definition set_student_profile (d : database) (t : table ProfileRow.t) : database :=
  mkDatabase (learning_progress d) (quiz_results d) t (lesson_cache d).

Definition set_lesson_cache (d : database) (t : table CacheRow.t) : database :=
  mkDatabase (learning_progress d) (quiz_results d) (student_profile d) t.

(** ** Generic list helpers *)

(** [ORDER BY]: a stable insertion sort of the rows in rowid order. *)
Fixpoint insert_by {A : Type} (leb : A -> A -> bool) (x : A) (l : list A) : list A :=
  match l with
  | [] => [x]
  | y :: l' => if leb x y then x :: l else y :: insert_by leb x l'
  end.

Definition sort_by {A : Type} (leb : A -> A -> bool) (l : list A) : list A :=
  fold_right (insert_by leb) [] l.

(** [x in l] on a list of [str] *)
Definition str_in (x : string) (l : list string) : bool :=
  existsb (String.eqb x) l.

(** [l.remove(x)] when [x in l]: drops the first occurrence only. *)
Fixpoint remove_first (x : string) (l : list string) : list string :=
  match l with
  | [] => []
  | y :: l' => if String.eqb x y then l' else y :: remove_first x l'
  end.

(** What a statement stores for the Python values bound to it.  An [int]
    must fit a signed 64-bit INTEGER: [sqlite3] raises [OverflowError]
    otherwise, before the statement runs.  A [float] in a REAL column is kept
    as it is, except that a zero is stored as the integer 0 and read back as
    0.0, so that -0.0 comes back as 0.0.  A NaN is bound as NULL; the rows
    below hold a [float] in every REAL column, so a NULL score is outside
    what they describe: they describe the table for scores that are not
    NaN. *)
Definition INT64_MIN : Z := -9223372036854775808.
Definition INT64_MAX : Z := 9223372036854775807.

Definition fits_int64 (n : Z) : bool := (INT64_MIN <=? n) && (n <=? INT64_MAX).

Definition int_too_large : exn :=
  OverflowError "Python int too large to convert to SQLite INTEGER".

Definition is_nan (x : float) : bool := negb (PrimFloat.eqb x x).

Definition sql_real (x : float) : float :=
  if PrimFloat.eqb 0%float x then 0%float else x.

(** SQL aggregates over the selected rows; [SUM] and [AVG] of no row are
    NULL. *)
Definition sql_count {A : Type} (l : list A) : Z := Z.of_nat (List.length l).

Definition sql_sum (l : list Z) : option Z :=
  match l with
  | [] => None
  | _ :: _ => Some (fold_left Z.add l 0)
  end.

(** [SUM] over an INTEGER column adds the rows in the order it meets them
    (here the order of the table) and fails with "integer overflow" as soon
    as a partial sum leaves the signed 64-bit range. *)
Definition integer_overflow : exn := OperationalError "integer overflow".

Fixpoint sum_int64 (acc : Z) (l : list Z) : result Z :=
  match l with
  | [] => Ok acc
  | n :: l' =>
      if fits_int64 (acc + n) then sum_int64 (acc + n) l'
      else Raise integer_overflow
  end.

Definition sql_sum_int64 (l : list Z) : result (option Z) :=
  match l with
  | [] => Ok None
  | _ :: _ => n <- sum_int64 0 l ;; Ok (Some n)
  end.

Definition float_of_count (n : Z) : float :=
  PrimFloat.of_uint63 (Uint63.of_Z n).

Definition sql_avg (l : list float) : option float :=
  match l with
  | [] => None
  | _ :: _ =>
      Some (PrimFloat.div (fold_left PrimFloat.add l 0%float)
                          (float_of_count (sql_count l)))
  end.

(** SQLite 3.43 and later accumulate [AVG] over REAL values with a
    Kahan-Babuska-Neumaier correction term; earlier versions use the plain
    sum above. *)
Definition kbn_step (acc : float * float) (r : float) : float * float :=
  let '(s, err) := acc in
  let t := PrimFloat.add s r in
  if PrimFloat.ltb (PrimFloat.abs r) (PrimFloat.abs s)
  then (t, PrimFloat.add err (PrimFloat.add (PrimFloat.sub s t) r))
  else (t, PrimFloat.add err (PrimFloat.add (PrimFloat.sub r t) s)).

Definition sql_avg_compensated (l : list float) : option float :=
  match l with
  | [] => None
  | _ :: _ =>
      let '(s, err) := fold_left kbn_step l (0%float, 0%float) in
      Some (PrimFloat.div (PrimFloat.add s err) (float_of_count (sql_count l)))
  end.

(** [x or d] for an INTEGER or REAL result that may be NULL. *)
Definition int_or (o : option Z) (d : Z) : Z :=
  match o with
  | Some n => if n =? 0 then d else n
  | None => d
  end.

Definition float_or (o : option float) (d : float) : float :=
  match o with
  | Some x => if PrimFloat.eqb x 0%float then d else x
  | None => d
  end.

(** ** [sqlite_store.py]: class [SQLiteStore] *)

(** A store is the database file behind [db_path] together with the state
    of its environment: when [fault] is [Some e], opening a connection to
    the file raises [e].  The environment is the same for a whole call: a
    file that cannot be opened stays so, and once a connection is open its
    statements fail only for the reasons given with them (an [int] that does
    not fit, an overflowing [SUM], a date out of range). *)
Record SQLiteStore : Type := mkStore {
  file : database;
  fault : option exn
}.

Definition healthy (d : database) : SQLiteStore := mkStore d None.

(** [with self._get_connection() as conn] *)
Definition _get_connection (self : SQLiteStore) : result database :=
  match fault self with
  | Some e => Raise e
  | None => Ok (file self)
  end.

(** [conn.commit()]: the file now holds what the connection wrote. *)
Definition commit (self : SQLiteStore) (conn : database) : SQLiteStore :=
  mkStore conn (fault self).

Definition progress_of_row (row : ProgressRow.t) : LearningProgress.t :=
  LearningProgress.mk
    (Some (ProgressRow.id row))
    (ProgressRow.package_name row)
    (ProgressRow.topic row)
    (ProgressRow.completed row)
    (ProgressRow.score row)
    (ProgressRow.last_accessed row)
    (ProgressRow.total_time_seconds row).

(** [WHERE package_name = ? AND topic = ?] *)
Definition progress_key (package_name topic : string) (row : ProgressRow.t) : bool :=
  String.eqb (ProgressRow.package_name row) package_name
  && String.eqb (ProgressRow.topic row) topic.

(** [WHERE package_name = ?] *)
Definition progress_of_package (package_name : string) (row : ProgressRow.t) : bool :=
  String.eqb (ProgressRow.package_name row) package_name.

Definition get_progress (self : SQLiteStore) (package_name topic : string)
  : result (option LearningProgress.t) :=
  conn <- _get_connection self ;;
  match find (progress_key package_name topic) (rows (learning_progress conn)) with
  | Some row => Ok (Some (progress_of_row row))
  | None => Ok None
  end.

(** [ORDER BY topic] and [ORDER BY package_name, topic] *)
Definition by_topic (a b : ProgressRow.t) : bool :=
  String.leb (ProgressRow.topic a) (ProgressRow.topic b).

Definition by_package_topic (a b : ProgressRow.t) : bool :=
  match String.compare (ProgressRow.package_name a) (ProgressRow.package_name b) with
  | Lt => true
  | Eq => String.leb (ProgressRow.topic a) (ProgressRow.topic b)
  | Gt => false
  end.

Definition get_all_progress (self : SQLiteStore) (package_name : option string)
  : result (list LearningProgress.t) :=
  conn <- _get_connection self ;;
  let cursor :=
    match package_name with
    | Some p =>
        if str_truthy p
        then sort_by by_topic
               (filter (progress_of_package p) (rows (learning_progress conn)))
        else sort_by by_package_topic (rows (learning_progress conn))
    | None => sort_by by_package_topic (rows (learning_progress conn))
    end in
  Ok (map progress_of_row cursor).

(** [INSERT INTO learning_progress ... ON CONFLICT(package_name, topic)
    DO UPDATE SET completed, score, last_accessed, total_time_seconds];
    the second component is [cursor.lastrowid], which a connection that has
    inserted nothing reports as 0. The statement draws its rowid before it
    meets the conflict, so the counter advances on both paths. The score is
    stored as a REAL column stores it. *)
Definition insert_or_update_progress (t : table ProgressRow.t)
    (package_name topic : string) (completed : bool) (score : float)
    (last_accessed : string) (total_time_seconds : Z)
  : table ProgressRow.t * Z :=
  let i := next_rowid ProgressRow.id t in
  if existsb (progress_key package_name topic) (rows t) then
    (mkTable
       (map (fun row =>
               if progress_key package_name topic row
               then ProgressRow.mk (ProgressRow.id row)
                      (ProgressRow.package_name row) (ProgressRow.topic row)
                      completed (sql_real score) (Some last_accessed)
                      total_time_seconds
               else row)
            (rows t))
       i,
     0)
  else
    (mkTable
       (rows t ++ [ProgressRow.mk i package_name topic completed (sql_real score)
                     (Some last_accessed) total_time_seconds])
       i,
     i).

Definition upsert_progress (self : SQLiteStore) (progress : LearningProgress.t)
    (clock : datetime) : result (SQLiteStore * Z) :=
  let now := isoformat clock in
  conn <- _get_connection self ;;
  if negb (fits_int64 (LearningProgress.total_time_seconds progress)) then
    Raise int_too_large
  else
    let '(t, lastrowid) :=
      insert_or_update_progress (learning_progress conn)
        (LearningProgress.package_name progress)
        (LearningProgress.topic progress)
        (LearningProgress.completed progress)
        (LearningProgress.score progress)
        now
        (LearningProgress.total_time_seconds progress) in
    let conn := set_learning_progress conn t in
    if lastrowid =? 0 then
      match find (progress_key (LearningProgress.package_name progress)
                               (LearningProgress.topic progress))
                 (rows (learning_progress conn)) with
      | Some row => Ok (commit self conn, ProgressRow.id row)
      | None => Ok (commit self conn, 0)
      end
    else Ok (commit self conn, lastrowid).

Definition mark_topic_completed (self : SQLiteStore) (package_name topic : string)
    (score : float) (clock : datetime) : result SQLiteStore :=
  let progress :=
    LearningProgress.mk None package_name topic true score None 0 in
  '(self, _) <- upsert_progress self progress clock ;;
  Ok self.

Module Stats.
Record t : Type := mk {
  total : Z;
  completed : Z;
  avg_score : float;
  total_time_seconds : Z
}.
End Stats.

Definition get_completion_stats (self : SQLiteStore) (package_name : string)
  : result Stats.t :=
  conn <- _get_connection self ;;
  let selected :=
    filter (progress_of_package package_name) (rows (learning_progress conn)) in
  let total := sql_count selected in
  let completed :=
    sql_sum (map (fun row => if ProgressRow.completed row then 1 else 0) selected) in
  let avg_score := sql_avg (map ProgressRow.score selected) in
  total_time <- sql_sum_int64 (map ProgressRow.total_time_seconds selected) ;;
  Ok (Stats.mk (int_or (Some total) 0) (int_or completed 0)
               (float_or avg_score 0%float) (int_or total_time 0)).

(** *** Quiz results *)

Definition add_quiz_result (self : SQLiteStore) (quiz : QuizResult.t)
    (clock : datetime) : result (SQLiteStore * Z) :=
  conn <- _get_connection self ;;
  let t := quiz_results conn in
  let i := next_rowid QuizRow.id t in
  let row :=
    QuizRow.mk i (QuizResult.package_name quiz) (QuizResult.question quiz)
      (QuizResult.user_answer quiz) (QuizResult.correct quiz)
      (current_timestamp clock) in
  Ok (commit self (set_quiz_results conn (mkTable (rows t ++ [row]) i)), i).

Definition quiz_of_row (row : QuizRow.t) : QuizResult.t :=
  QuizResult.mk (Some (QuizRow.id row)) (QuizRow.package_name row)
    (QuizRow.question row) (QuizRow.user_answer row) (QuizRow.correct row)
    (Some (QuizRow.timestamp row)).

(** [ORDER BY timestamp DESC] *)
Definition by_timestamp_desc (a b : QuizRow.t) : bool :=
  String.leb (QuizRow.timestamp b) (QuizRow.timestamp a).

Definition get_quiz_results (self : SQLiteStore) (package_name : string)
  : result (list QuizResult.t) :=
  conn <- _get_connection self ;;
  Ok (map quiz_of_row
        (sort_by by_timestamp_desc
           (filter (fun row => String.eqb (QuizRow.package_name row) package_name)
                   (rows (quiz_results conn))))).

(** *** Student profile *)

Definition profile_of_row (row : ProfileRow.t) : StudentProfile.t :=
  StudentProfile.mk (Some (ProfileRow.id row))
    (ProfileRow.mastered_concepts row) (ProfileRow.weak_concepts row)
    (ProfileRow.learning_style row) (ProfileRow.last_session row).

(** [_SELECT_PROFILE]: [SELECT * FROM student_profile LIMIT 1] *)
Definition select_profile (conn : database) : option ProfileRow.t :=
  hd_error (rows (student_profile conn)).

(** [UPDATE student_profile SET ... WHERE id = ?] *)
Definition update_profile_where_id (t : table ProfileRow.t) (i : Z)
    (f : ProfileRow.t -> ProfileRow.t) : table ProfileRow.t :=
  mkTable (map (fun row => if ProfileRow.id row =? i then f row else row) (rows t))
          (seq t).

Definition _create_default_profile (self : SQLiteStore)
  : result (SQLiteStore * StudentProfile.t) :=
  let profile := StudentProfile.default in
  conn <- _get_connection self ;;
  let t := student_profile conn in
  let i := next_rowid ProfileRow.id t in
  let row :=
    ProfileRow.mk i (StudentProfile.mastered_concepts profile)
      (StudentProfile.weak_concepts profile)
      (StudentProfile.learning_style profile) None in
  let conn := set_student_profile conn (mkTable (rows t ++ [row]) i) in
  match select_profile conn with
  | Some row => Ok (commit self conn, profile_of_row row)
  | None => Ok (commit self conn, profile)
  end.

Definition get_student_profile (self : SQLiteStore)
  : result (SQLiteStore * StudentProfile.t) :=
  conn <- _get_connection self ;;
  match select_profile conn with
  | Some row => Ok (self, profile_of_row row)
  | None => _create_default_profile self
  end.

Definition update_student_profile (self : SQLiteStore) (profile : StudentProfile.t)
    (clock : datetime) : result SQLiteStore :=
  let now := isoformat clock in
  conn <- _get_connection self ;;
  let t := student_profile conn in
  let t :=
    match select_profile conn with
    | Some first =>
        update_profile_where_id t (ProfileRow.id first)
          (fun row =>
             ProfileRow.mk (ProfileRow.id row)
               (StudentProfile.mastered_concepts profile)
               (StudentProfile.weak_concepts profile)
               (StudentProfile.learning_style profile)
               (Some now))
    | None => t
    end in
  Ok (commit self (set_student_profile conn t)).

(** The first lines of both concept methods: read the profile row, creating
    the default one through a nested connection when the table is empty. *)
Definition profile_row_for_update (self : SQLiteStore)
  : result (SQLiteStore * database * ProfileRow.t) :=
  conn <- _get_connection self ;;
  match select_profile conn with
  | Some row => Ok (self, conn, row)
  | None =>
      '(self, _) <- _create_default_profile self ;;
      let conn := file self in
      match select_profile conn with
      | Some row => Ok (self, conn, row)
      | None => Raise (TypeError "'NoneType' object is not subscriptable")
      end
  end.

Definition add_mastered_concept (self : SQLiteStore) (concept : string)
    (clock : datetime) : result SQLiteStore :=
  let now := isoformat clock in
  '(self, conn, row) <- profile_row_for_update self ;;
  let mastered := ProfileRow.mastered_concepts row in
  let weak := ProfileRow.weak_concepts row in
  if negb (str_in concept mastered) then
    let mastered := (mastered ++ [concept])%list in
    let weak := if str_in concept weak then remove_first concept weak else weak in
    let t :=
      update_profile_where_id (student_profile conn) (ProfileRow.id row)
        (fun r =>
           ProfileRow.mk (ProfileRow.id r) mastered weak
             (ProfileRow.learning_style r) (Some now)) in
    Ok (commit self (set_student_profile conn t))
  else Ok self.

Definition add_weak_concept (self : SQLiteStore) (concept : string)
    (clock : datetime) : result SQLiteStore :=
  let now := isoformat clock in
  '(self, conn, row) <- profile_row_for_update self ;;
  let mastered := ProfileRow.mastered_concepts row in
  let weak := ProfileRow.weak_concepts row in
  if negb (str_in concept weak) && negb (str_in concept mastered) then
    let weak := (weak ++ [concept])%list in
    let t :=
      update_profile_where_id (student_profile conn) (ProfileRow.id row)
        (fun r =>
           ProfileRow.mk (ProfileRow.id r) (ProfileRow.mastered_concepts r) weak
             (ProfileRow.learning_style r) (Some now)) in
    Ok (commit self (set_student_profile conn t))
  else Ok self.

(** *** Lesson cache *)

Definition cache_of_package (package_name : string) (row : CacheRow.t) : bool :=
  String.eqb (CacheRow.package_name row) package_name.

(** [INSERT INTO lesson_cache ... ON CONFLICT(package_name) DO UPDATE SET
    content, created_at = CURRENT_TIMESTAMP, expires_at] *)
Definition insert_or_update_cache (t : table CacheRow.t) (package_name : string)
    (content : json_text) (expires_at : string) (current : string)
  : table CacheRow.t :=
  let i := next_rowid CacheRow.id t in
  if existsb (cache_of_package package_name) (rows t) then
    mkTable
      (map (fun row =>
              if cache_of_package package_name row
              then CacheRow.mk (CacheRow.id row) (CacheRow.package_name row)
                     content current expires_at
              else row)
           (rows t))
      i
  else
    mkTable (rows t ++ [CacheRow.mk i package_name content current expires_at]) i.

Definition cache_lesson (self : SQLiteStore) (package_name : string)
    (content : pyval) (ttl_hours : Z) (clock : datetime) : result SQLiteStore :=
  let now := clock in
  expiry <- add_hours now ttl_hours ;;
  let expires_at := isoformat expiry in
  conn <- _get_connection self ;;
  let t :=
    insert_or_update_cache (lesson_cache conn) package_name
      (json_dumps content) expires_at (current_timestamp clock) in
  Ok (commit self (set_lesson_cache conn t)).

(** [WHERE package_name = ? AND expires_at > ?] *)
Definition cache_live (package_name now : string) (row : CacheRow.t) : bool :=
  cache_of_package package_name row && String.ltb now (CacheRow.expires_at row).

Definition get_cached_lesson (self : SQLiteStore) (package_name : string)
    (clock : datetime) : result (option pyval) :=
  let now := isoformat clock in
  conn <- _get_connection self ;;
  match find (cache_live package_name now) (rows (lesson_cache conn)) with
  | Some row => Ok (Some (json_loads (CacheRow.content row)))
  | None => Ok None
  end.

(** [WHERE expires_at <= ?] *)
Definition cache_expired (now : string) (row : CacheRow.t) : bool :=
  String.leb (CacheRow.expires_at row) now.

Definition clear_expired_cache (self : SQLiteStore) (clock : datetime)
  : result (SQLiteStore * Z) :=
  let now := isoformat clock in
  conn <- _get_connection self ;;
  let t := lesson_cache conn in
  let rowcount := sql_count (filter (cache_expired now) (rows t)) in
  let t := mkTable (filter (fun row => negb (cache_expired now row)) (rows t)) (seq t) in
  Ok (commit self (set_lesson_cache conn t), rowcount).

(** *** Utility methods *)

Definition reset_progress (self : SQLiteStore) (package_name : option string)
  : result (SQLiteStore * Z) :=
  conn <- _get_connection self ;;
  let t := learning_progress conn in
  let doomed (row : ProgressRow.t) : bool :=
    match package_name with
    | Some p => if str_truthy p then progress_of_package p row else true
    | None => true
    end in
  let rowcount := sql_count (filter doomed (rows t)) in
  let t := mkTable (filter (fun row => negb (doomed row)) (rows t)) (seq t) in
  Ok (commit self (set_learning_progress conn t), rowcount).

(** [SELECT DISTINCT package_name ... ORDER BY package_name] *)
Definition get_packages_studied (self : SQLiteStore) : result (list string) :=
  conn <- _get_connection self ;;
  Ok (sort_by String.leb
        (nodup string_dec
           (map ProgressRow.package_name (rows (learning_progress conn))))).

(** ** [tools.py] *)

(** [str(n)] for an [int] *)
Definition VOptStr (o : option string) : pyval :=
  match o with
  | Some s => VStr s
  | None => VNone
  end.

Definition unwrap (o : option string) : string :=
  match o with
  | Some s => s
  | None => ""
  end.

Module LessonLoaderTool.

Record t : Type := mk { store : SQLiteStore }.

(** Every exit of [_run] is a [return]: the [except Exception] clause turns
    whatever the store raises into a dictionary. *)
Definition _run (self : t) (package_name : string) (force_fresh : bool)
    (clock : datetime) : result pyval :=
  if force_fresh then
    Ok (VDict [("success", VBool true); ("cache_hit", VBool false);
               ("lesson", VNone); ("reason", VStr "Force fresh requested")])
  else
    match get_cached_lesson (store self) package_name clock with
    | Ok cached =>
        if match cached with Some lesson => truthy lesson | None => false end then
          Ok (VDict [("success", VBool true); ("cache_hit", VBool true);
                     ("lesson", match cached with Some lesson => lesson | None => VNone end);
                     ("cost_saved_gbp", VFloat 0.02%float)])
        else
          Ok (VDict [("success", VBool true); ("cache_hit", VBool false);
                     ("lesson", VNone); ("reason", VStr "No valid cache found")])
    | Raise e =>
        Ok (VDict [("success", VBool false); ("cache_hit", VBool false);
                   ("lesson", VNone); ("error", VStr (str_exn e))])
    end.

End LessonLoaderTool.

Module ProgressTrackerTool.

Record t : Type := mk { store : SQLiteStore }.

Definition _ERR_PKG_TOPIC_REQUIRED : string := "package_name and topic required".

(** The keyword arguments some handler reads; any other is ignored by every
    handler. *)
Record Kwargs : Type := mkKwargs {
  completed : option bool;
  concept : option string;
  learning_style : option string
}.

Definition no_kwargs : Kwargs := mkKwargs None None None.

Definition failure (error : string) : pyval :=
  VDict [("success", VBool false); ("error", VStr error)].

Definition _get_progress (self : t) (package_name topic : option string)
  : result (t * pyval) :=
  if negb (opt_str_truthy package_name) || negb (opt_str_truthy topic) then
    Ok (self, failure _ERR_PKG_TOPIC_REQUIRED)
  else
    progress <- get_progress (store self) (unwrap package_name) (unwrap topic) ;;
    match progress with
    | Some progress =>
        Ok (self,
            VDict [("success", VBool true);
                   ("progress",
                    VDict [("package_name", VStr (LearningProgress.package_name progress));
                           ("topic", VStr (LearningProgress.topic progress));
                           ("completed", VBool (LearningProgress.completed progress));
                           ("score", VFloat (LearningProgress.score progress));
                           ("last_accessed", VOptStr (LearningProgress.last_accessed progress));
                           ("total_time_seconds",
                            VInt (LearningProgress.total_time_seconds progress))])])
    | None =>
        Ok (self,
            VDict [("success", VBool true); ("progress", VNone);
                   ("message", VStr "No progress found")])
    end.

Definition _get_all_progress (self : t) (package_name : option string)
  : result (t * pyval) :=
  progress_list <- get_all_progress (store self) package_name ;;
  Ok (self,
      VDict [("success", VBool true);
             ("progress",
              VList (map (fun p =>
                            VDict [("package_name", VStr (LearningProgress.package_name p));
                                   ("topic", VStr (LearningProgress.topic p));
                                   ("completed", VBool (LearningProgress.completed p));
                                   ("score", VFloat (LearningProgress.score p));
                                   ("total_time_seconds",
                                    VInt (LearningProgress.total_time_seconds p))])
                         progress_list));
             ("count", VInt (Z.of_nat (List.length progress_list)))]).

Definition _mark_completed (self : t) (package_name topic : option string)
    (score : option float) (clock : datetime) : result (t * pyval) :=
  if negb (opt_str_truthy package_name) || negb (opt_str_truthy topic) then
    Ok (self, failure _ERR_PKG_TOPIC_REQUIRED)
  else
    let effective_score :=
      match score with
      | Some x => x
      | None => 1%float
      end in
    s <- mark_topic_completed (store self) (unwrap package_name) (unwrap topic)
           effective_score clock ;;
    Ok (mk s,
        VDict [("success", VBool true);
               ("message",
                VStr ("Marked " ++ unwrap package_name ++ "/" ++ unwrap topic
                      ++ " as completed"));
               ("score", VFloat effective_score)]).

Definition _update_progress (self : t) (package_name topic : option string)
    (score : option float) (time_seconds : option Z) (completed : option bool)
    (clock : datetime) : result (t * pyval) :=
  if negb (opt_str_truthy package_name) || negb (opt_str_truthy topic) then
    Ok (self, failure _ERR_PKG_TOPIC_REQUIRED)
  else
    existing <- get_progress (store self) (unwrap package_name) (unwrap topic) ;;
    let total_time :=
      match existing with
      | Some e => LearningProgress.total_time_seconds e
      | None => 0
      end + int_or time_seconds 0 in
    let final_completed :=
      match completed with
      | Some c => c
      | None =>
          match existing with
          | Some e => LearningProgress.completed e
          | None => false
          end
      end in
    let final_score :=
      match score with
      | Some x => x
      | None =>
          match existing with
          | Some e => LearningProgress.score e
          | None => 0%float
          end
      end in
    let progress :=
      LearningProgress.mk None (unwrap package_name) (unwrap topic)
        final_completed final_score None total_time in
    '(s, row_id) <- upsert_progress (store self) progress clock ;;
    Ok (mk s,
        VDict [("success", VBool true); ("row_id", VInt row_id);
               ("total_time_seconds", VInt total_time)]).

Definition stats_dict (stats : Stats.t) : pyval :=
  VDict [("total", VInt (Stats.total stats));
         ("completed", VInt (Stats.completed stats));
         ("avg_score", VFloat (Stats.avg_score stats));
         ("total_time_seconds", VInt (Stats.total_time_seconds stats))].

Definition float_of_int (n : Z) : float :=
  if n <? 0 then PrimFloat.opp (float_of_count (- n)) else float_of_count n.

Definition _get_stats (self : t) (package_name : option string)
  : result (t * pyval) :=
  if negb (opt_str_truthy package_name) then
    Ok (self, failure "package_name required")
  else
    stats <- get_completion_stats (store self) (unwrap package_name) ;;
    Ok (self,
        VDict [("success", VBool true);
               ("stats", stats_dict stats);
               ("completion_percentage",
                if 0 <? Stats.total stats
                then VFloat (PrimFloat.mul
                               (PrimFloat.div (float_of_int (Stats.completed stats))
                                              (float_of_int (Stats.total stats)))
                               100%float)
                else VInt 0)]).

Definition _get_profile (self : t) : result (t * pyval) :=
  '(s, profile) <- get_student_profile (store self) ;;
  Ok (mk s,
      VDict [("success", VBool true);
             ("profile",
              VDict [("mastered_concepts",
                      VList (map VStr (StudentProfile.mastered_concepts profile)));
                     ("weak_concepts",
                      VList (map VStr (StudentProfile.weak_concepts profile)));
                     ("learning_style", VStr (StudentProfile.learning_style profile));
                     ("last_session", VOptStr (StudentProfile.last_session profile))])]).

Definition _update_profile (self : t) (learning_style : option string)
    (clock : datetime) : result (t * pyval) :=
  '(s, profile) <- get_student_profile (store self) ;;
  let profile :=
    match learning_style with
    | Some style =>
        StudentProfile.mk (StudentProfile.id profile)
          (StudentProfile.mastered_concepts profile)
          (StudentProfile.weak_concepts profile) style
          (StudentProfile.last_session profile)
    | None => profile
    end in
  s <- update_student_profile s profile clock ;;
  Ok (mk s, VDict [("success", VBool true); ("message", VStr "Profile updated")]).

Definition _add_mastered_concept (self : t) (concept : option string)
    (clock : datetime) : result (t * pyval) :=
  if negb (opt_str_truthy concept) then Ok (self, failure "concept required")
  else
    s <- add_mastered_concept (store self) (unwrap concept) clock ;;
    Ok (mk s,
        VDict [("success", VBool true);
               ("message", VStr ("Added mastered concept: " ++ unwrap concept))]).

Definition _add_weak_concept (self : t) (concept : option string)
    (clock : datetime) : result (t * pyval) :=
  if negb (opt_str_truthy concept) then Ok (self, failure "concept required")
  else
    s <- add_weak_concept (store self) (unwrap concept) clock ;;
    Ok (mk s,
        VDict [("success", VBool true);
               ("message", VStr ("Added weak concept: " ++ unwrap concept))]).

Definition _reset_progress (self : t) (package_name : option string)
  : result (t * pyval) :=
  '(s, count) <- reset_progress (store self) package_name ;;
  let scope :=
    if opt_str_truthy package_name then "for " ++ unwrap package_name else "all" in
  Ok (mk s,
      VDict [("success", VBool true); ("count", VInt count);
             ("message",
              VStr ("Reset " ++ str_int count ++ " progress records " ++ scope))]).

Definition _get_packages_studied (self : t) : result (t * pyval) :=
  packages <- get_packages_studied (store self) ;;
  Ok (self,
      VDict [("success", VBool true);
             ("packages", VList (map VStr packages));
             ("count", VInt (Z.of_nat (List.length packages)))]).

Definition handler : Type :=
  t -> option string -> option string -> option float -> option Z -> Kwargs
  -> datetime -> result (t * pyval).

(** The [actions] dictionary of [_run], in insertion order. *)
Definition actions : list (string * handler) :=
  [("get_progress", fun self p tp _ _ _ _ => _get_progress self p tp);
   ("get_all_progress", fun self p _ _ _ _ _ => _get_all_progress self p);
   ("mark_completed", fun self p tp sc _ _ clock => _mark_completed self p tp sc clock);
   ("update_progress",
    fun self p tp sc ts kw clock =>
      _update_progress self p tp sc ts (completed kw) clock);
   ("get_stats", fun self p _ _ _ _ _ => _get_stats self p);
   ("get_profile", fun self _ _ _ _ _ _ => _get_profile self);
   ("update_profile",
    fun self _ _ _ _ kw clock => _update_profile self (learning_style kw) clock);
   ("add_mastered",
    fun self _ _ _ _ kw clock => _add_mastered_concept self (concept kw) clock);
   ("add_weak",
    fun self _ _ _ _ kw clock => _add_weak_concept self (concept kw) clock);
   ("reset", fun self p _ _ _ _ _ => _reset_progress self p);
   ("get_packages", fun self _ _ _ _ _ _ => _get_packages_studied self)].

Fixpoint lookup (action : string) (l : list (string * handler)) : option handler :=
  match l with
  | [] => None
  | (k, h) :: l' => if String.eqb action k then Some h else lookup action l'
  end.

(** [str(list(actions.keys()))] *)
Definition repr_keys (l : list (string * handler)) : string :=
  "[" ++ String.concat ", " (map (fun kh => "'" ++ fst kh ++ "'") l) ++ "]".

(** As in [LessonLoaderTool._run], an exception of the handler is caught
    and returned as a failure dictionary. *)
Definition _run (self : t) (action : string) (package_name topic : option string)
    (score : option float) (time_seconds : option Z) (kwargs : Kwargs)
    (clock : datetime) : result (t * pyval) :=
  match lookup action actions with
  | None =>
      Ok (self,
          failure ("Unknown action: " ++ action ++ ". Valid actions: "
                   ++ repr_keys actions))
  | Some h =>
      match h self package_name topic score time_seconds kwargs clock with
      | Ok r => Ok r
      | Raise e => Ok (self, failure (str_exn e))
      end
  end.

End ProgressTrackerTool.

(** ** [validators.py] *)

Module Validators.

(** A Python [str] is the list of its code points; [len] is its length. *)
Definition pystr : Type := list N.

Definition of_string (s : string) : pystr :=
  map N_of_ascii (list_ascii_of_string s).

Definition MAX_PACKAGE_NAME_LENGTH : Z := 100.

Definition in_range (lo hi c : N) : bool := ((lo <=? c) && (c <=? hi))%N.

(** [c.isspace()], which is also the class [\s] of a [str] pattern. *)
Definition isspace (c : N) : bool :=
  (in_range 0x09 0x0D c || in_range 0x1C 0x20 c || (c =? 0x85) || (c =? 0xA0)
   || (c =? 0x1680) || in_range 0x2000 0x200A c || (c =? 0x2028)
   || (c =? 0x2029) || (c =? 0x202F) || (c =? 0x205F) || (c =? 0x3000))%N.

Fixpoint lstrip (s : pystr) : pystr :=
  match s with
  | [] => []
  | c :: s' => if isspace c then lstrip s' else s
  end.

Definition rstrip (s : pystr) : pystr := rev (lstrip (rev s)).

(** [s.strip()] *)
Definition strip (s : pystr) : pystr := rstrip (lstrip s).

(** *** The fragment of [re] the module's patterns are written in *)

Inductive charset : Type :=
| Lit (c : N)                      (* a literal character *)
| Dot                              (* [.] *)
| WhiteSpace                       (* [\s] *)
| Ranges (l : list (N * N)).       (* [[...]] *)

Inductive item : Type :=
| One (cs : charset)
| Many0 (cs : charset)             (* [x*] *)
| Many1 (cs : charset).            (* [x+] *)

Record pattern : Type := mkPattern {
  anchor_start : bool;             (* a leading [^] *)
  body : list item;
  anchor_end : bool                (* a trailing [$] *)
}.

(** Case folding under [re.IGNORECASE] as far as it can reach an ASCII
    letter: the upper-case letters, and the four code points outside ASCII
    that [re] identifies with [i], [s] and [k]. *)
Definition fold_case (c : N) : N :=
  (if in_range 0x41 0x5A c then c + 32
   else if (c =? 0x130) || (c =? 0x131) then 0x69
   else if c =? 0x17F then 0x73
   else if c =? 0x212A then 0x6B
   else c)%N.

Definition cmatch (ignorecase : bool) (cs : charset) (c : N) : bool :=
  match cs with
  | Lit l => if ignorecase then (fold_case c =? fold_case l)%N else (c =? l)%N
  | Dot => negb (c =? 0x0A)%N
  | WhiteSpace => isspace c
  | Ranges l => existsb (fun r => in_range (fst r) (snd r) c) l
  end.

Section Matching.

Variable ignorecase : bool.

Fixpoint many (cs : charset) (k : pystr -> bool) (s : pystr) : bool :=
  k s ||
  match s with
  | [] => false
  | c :: s' => cmatch ignorecase cs c && many cs k s'
  end.

Fixpoint match_items (p : list item) (fin : pystr -> bool) (s : pystr) : bool :=
  match p with
  | [] => fin s
  | One cs :: p' =>
      match s with
      | [] => false
      | c :: s' => cmatch ignorecase cs c && match_items p' fin s'
      end
  | Many0 cs :: p' => many cs (match_items p' fin) s
  | Many1 cs :: p' =>
      match s with
      | [] => false
      | c :: s' => cmatch ignorecase cs c && many cs (match_items p' fin) s'
      end
  end.

(** What may follow a match: anything, or with [$] the end of the string or
    the line feed that ends it. *)
Definition at_end (p : pattern) (rest : pystr) : bool :=
  if anchor_end p then
    match rest with
    | [] => true
    | [c] => (c =? 0x0A)%N
    | _ => false
    end
  else true.

(** [p.match(s)] *)
Definition re_match (p : pattern) (s : pystr) : bool :=
  match_items (body p) (at_end p) s.

Fixpoint search_from (p : pattern) (s : pystr) : bool :=
  re_match p s ||
  match s with
  | [] => false
  | _ :: s' => search_from p s'
  end.

(** [p.search(s)] *)
Definition re_search (p : pattern) (s : pystr) : bool :=
  if anchor_start p then re_match p s else search_from p s.

End Matching.

(** *** Reading a pattern from its source text *)

(** The inside of a bracket expression, after [[]: single characters and
    ranges up to the closing bracket; returns the ranges and what follows. *)
Fixpoint parse_class (fuel : nat) (s : list N) (acc : list (N * N))
  : list (N * N) * list N :=
  match fuel with
  | O => (rev acc, s)
  | S fuel' =>
      match s with
      | [] => (rev acc, [])
      | 0x5D%N :: s' => (rev acc, s')
      | lo :: 0x2D%N :: hi :: s' =>
          if (hi =? 0x5D)%N
          then (rev ((0x2D, 0x2D) :: (lo, lo) :: acc)%N, s')
          else parse_class fuel' s' ((lo, hi) :: acc)
      | c :: s' => parse_class fuel' s' ((c, c) :: acc)
      end
  end.

(** One atom: an escape, a dot, a bracket expression or a literal. *)
Definition parse_atom (s : list N) : option (charset * list N) :=
  match s with
  | [] => None
  | 0x5C%N :: 0x73%N :: s' => Some (WhiteSpace, s')
  | 0x5C%N :: c :: s' => Some (Lit c, s')
  | 0x2E%N :: s' => Some (Dot, s')
  | 0x5B%N :: s' =>
      let '(l, rest) := parse_class (List.length s') s' [] in
      Some (Ranges l, rest)
  | c :: s' => Some (Lit c, s')
  end.

Fixpoint parse_items (fuel : nat) (s : list N) : list item * bool :=
  match fuel with
  | O => ([], false)
  | S fuel' =>
      match s with
      | [0x24%N] => ([], true)
      | _ =>
          match parse_atom s with
          | None => ([], false)
          | Some (cs, 0x2A%N :: rest) =>
              let '(l, e) := parse_items fuel' rest in (Many0 cs :: l, e)
          | Some (cs, 0x2B%N :: rest) =>
              let '(l, e) := parse_items fuel' rest in (Many1 cs :: l, e)
          | Some (cs, rest) =>
              let '(l, e) := parse_items fuel' rest in (One cs :: l, e)
          end
      end
  end.

(** [re.compile(r"...")] *)
Definition re_compile (src : string) : pattern :=
  let s := of_string src in
  match s with
  | 0x5E%N :: s' =>
      let '(l, e) := parse_items (S (List.length s')) s' in mkPattern true l e
  | _ =>
      let '(l, e) := parse_items (S (List.length s)) s in mkPattern false l e
  end.

Definition BLOCKED_PATTERNS : list pattern :=
  map re_compile
    ["rm\s+-rf";
     "rm\s+-r\s+/";
     "mkfs\.";
     "dd\s+if=";
     ":\s*\(\)\s*\{";
     ">\s*/dev/sd";
     "chmod\s+-R\s+777";
     "curl.*\|\s*sh";
     "wget.*\|\s*sh";
     "eval\s*\(";
     "exec\s*\(";
     "__import__";
     "subprocess";
     "os\.system";
     ";\s*rm\s+";
     "&&\s*rm\s+";
     "\|\s*rm\s+"].

Definition VALID_PACKAGE_PATTERN : pattern :=
  re_compile "^[a-zA-Z0-9][a-zA-Z0-9._-]*$".

Definition validate_package_name (package_name : pystr) : bool * option string :=
  if match package_name with [] => true | _ :: _ => false end
     || match strip package_name with [] => true | _ :: _ => false end
  then (false, Some "Package name cannot be empty")
  else
    let package_name := strip package_name in
    if MAX_PACKAGE_NAME_LENGTH <? Z.of_nat (List.length package_name) then
      (false, Some "Package name too long (max 100 characters)")
    else if existsb (fun p => re_search true p package_name) BLOCKED_PATTERNS then
      (false, Some "Package name contains blocked pattern")
    else if negb (re_match false VALID_PACKAGE_PATTERN package_name) then
      (false,
       Some ("Package name must start with alphanumeric and contain only letters, "
             ++ "numbers, dots, hyphens, and underscores"))
    else (true, None).

End Validators.

(** ** Well-formed states and runs, for the statements below *)

Definition progress_key_of (row : ProgressRow.t) : string * string :=
  (ProgressRow.package_name row, ProgressRow.topic row).

(** [UNIQUE(package_name, topic)] on [learning_progress] *)
Definition unique_progress (d : database) : Prop :=
  NoDup (map progress_key_of (rows (learning_progress d))).

(** What the columns of [learning_progress] can hold: a REAL as SQLite keeps
    it (a number, with one zero) and a 64-bit INTEGER. *)
Definition sqlite_real (x : float) : Prop :=
  is_nan x = false /\ sql_real x = x.

Definition well_typed_progress (d : database) : Prop :=
  Forall (fun row => sqlite_real (ProgressRow.score row)
                     /\ fits_int64 (ProgressRow.total_time_seconds row) = true)
         (rows (learning_progress d)).

(** [package_name TEXT NOT NULL UNIQUE] on [lesson_cache] *)
Definition unique_cache (d : database) : Prop :=
  NoDup (map CacheRow.package_name (rows (lesson_cache d))).

(** The concept sets of a profile row exclude each other, and no concept
    is listed twice as weak. *)
Definition concepts_ok (row : ProfileRow.t) : Prop :=
  NoDup (ProfileRow.weak_concepts row) /\
  forall x, In x (ProfileRow.mastered_concepts row) ->
            ~ In x (ProfileRow.weak_concepts row).

Definition profile_ok (d : database) : Prop :=
  match select_profile d with
  | Some row => concepts_ok row
  | None => True
  end.

Inductive concept_op : Type :=
| AddMastered (concept : string)
| AddWeak (concept : string).

Definition run_op (self : SQLiteStore) (op : concept_op * datetime)
  : result SQLiteStore :=
  match fst op with
  | AddMastered x => add_mastered_concept self x (snd op)
  | AddWeak x => add_weak_concept self x (snd op)
  end.

Fixpoint run_ops (self : SQLiteStore) (ops : list (concept_op * datetime))
  : result SQLiteStore :=
  match ops with
  | [] => Ok self
  | op :: ops' => self <- run_op self op ;; run_ops self ops'
  end.

(** The concept lists a reader of the profile sees. *)
Definition mastered_of (self : SQLiteStore) : list string :=
  match select_profile (file self) with
  | Some row => ProfileRow.mastered_concepts row
  | None => []
  end.

Definition weak_of (self : SQLiteStore) : list string :=
  match select_profile (file self) with
  | Some row => ProfileRow.weak_concepts row
  | None => []
  end.

(** ** Sample states *)

Definition sample_clock : datetime := mkDatetime 2024 3 5 7 8 9 0.

Definition later_clock : datetime := mkDatetime 2024 3 5 7 8 9 250000.

(** One topic studied for two minutes and not yet completed. *)
Definition timed_db : database :=
  set_learning_progress empty_database
    (mkTable
       [ProgressRow.mk 1 "docker" "basics" false 0.5%float
          (Some "2024-03-01T10:00:00+00:00") 120]
       1).


(** A store whose file cannot be opened. *)
Definition broken (d : database) (e : exn) : SQLiteStore := mkStore d (Some e).

Definition unavailable : exn := OperationalError "unable to open database file".

(** Two cached lessons: "nginx" expires at [sample_clock], "git" a day
    later. *)
Definition cached_db : database :=
  set_lesson_cache empty_database
    (mkTable
       [CacheRow.mk 1 "nginx" (json_dumps (VDict [("summary", VStr "web server")]))
          "2024-03-04 07:08:09" "2024-03-05T07:08:09+00:00";
        CacheRow.mk 2 "git" (json_dumps (VDict [("summary", VStr "version control")]))
          "2024-03-05 07:00:00" "2024-03-06T07:00:00+00:00"]
       2).

Definition first_report : LearningProgress.t :=
  LearningProgress.mk None "docker" "basics" true 0.9%float None 30.

Definition second_report : LearningProgress.t :=
  LearningProgress.mk None "docker" "basics" false 0.4%float None 45.

(** ** [tools.py]: the cache methods of [LessonLoaderTool] *)

Module LessonLoaderToolCache.

(** [LessonLoaderTool.clear_cache]: a package is cleared by caching an
    empty lesson that has already expired. *)
Definition clear_cache (self : LessonLoaderTool.t) (package_name : option string)
    (clock : datetime) : result (LessonLoaderTool.t * Z) :=
  if opt_str_truthy package_name then
    match cache_lesson (LessonLoaderTool.store self) (unwrap package_name)
            (VDict []) 0 clock with
    | Ok s => Ok (LessonLoaderTool.mk s, 1)
    | Raise _ => Ok (self, 0)
    end
  else
    '(s, n) <- clear_expired_cache (LessonLoaderTool.store self) clock ;;
    Ok (LessonLoaderTool.mk s, n).

(** [LessonLoaderTool.cache_lesson]; [config_ttl] is what
    [get_config().cache_ttl_hours] evaluates to, which may raise. *)
Definition cache_lesson (self : LessonLoaderTool.t) (package_name : string)
    (lesson : pyval) (ttl_hours : option Z) (config_ttl : result Z)
    (clock : datetime) : result (LessonLoaderTool.t * bool) :=
  let attempt :=
    ttl_hours <- match ttl_hours with
                 | Some h => Ok h
                 | None => config_ttl
                 end ;;
    cache_lesson (LessonLoaderTool.store self) package_name lesson ttl_hours clock in
  match attempt with
  | Ok s => Ok (LessonLoaderTool.mk s, true)
  | Raise _ => Ok (self, false)
  end.

End LessonLoaderToolCache.

(** ** [validators.py]: the other validators *)

Module InputValidators.

Import Validators.

Definition MAX_INPUT_LENGTH : Z := 1000.
Definition MAX_QUESTION_LENGTH : Z := 2000.

(** [not s] for a [str] *)
Definition is_empty (s : pystr) : bool :=
  match s with
  | [] => true
  | _ :: _ => false
  end.

Definition validate_input (input_text : pystr) (max_length : Z)
    (allow_empty : bool) : bool * option string :=
  if is_empty input_text || is_empty (strip input_text) then
    if allow_empty then (true, None)
    else (false, Some "Input cannot be empty")
  else
    let input_text := strip input_text in
    if max_length <? Z.of_nat (List.length input_text) then
      (false, Some ("Input too long (max " ++ str_int max_length ++ " characters)"))
    else if existsb (fun p => re_search true p input_text) BLOCKED_PATTERNS then
      (false, Some "Input contains blocked pattern")
    else (true, None).

Definition validate_question (question : pystr) : bool * option string :=
  validate_input question MAX_QUESTION_LENGTH false.

Definition alnum_ranges : list (N * N) :=
  [(0x61, 0x7A); (0x41, 0x5A); (0x30, 0x39)]%N.

(** The code points of [\s], as ranges. *)
Definition whitespace_ranges : list (N * N) :=
  [(0x09, 0x0D); (0x1C, 0x20); (0x85, 0x85); (0xA0, 0xA0); (0x1680, 0x1680);
   (0x2000, 0x200A); (0x2028, 0x2028); (0x2029, 0x2029); (0x202F, 0x202F);
   (0x205F, 0x205F); (0x3000, 0x3000)]%N.

(** [^[a-zA-Z0-9][a-zA-Z0-9\s._-]*$] *)
Definition TOPIC_PATTERN : pattern :=
  mkPattern true
    [One (Ranges alnum_ranges);
     Many0 (Ranges (alnum_ranges ++ whitespace_ranges
                    ++ [(0x2E, 0x2E); (0x5F, 0x5F); (0x2D, 0x2D)]%N))]
    true.

Definition validate_topic (topic : pystr) : bool * option string :=
  if is_empty topic || is_empty (strip topic) then
    (false, Some "Topic cannot be empty")
  else
    let topic := strip topic in
    if 200 <? Z.of_nat (List.length topic) then
      (false, Some "Topic name too long (max 200 characters)")
    else if negb (re_match false TOPIC_PATTERN topic) then
      (false, Some "Topic contains invalid characters")
    else (true, None).

(** [validate_score] on a [float]. *)
Definition validate_score (score : float) : bool * option string :=
  if PrimFloat.ltb score 0%float || PrimFloat.ltb 1%float score then
    (false, Some "Score must be between 0.0 and 1.0")
  else (true, None).

Definition sanitize_input (input_text : option pystr) : pystr :=
  match input_text with
  | None => []
  | Some input_text =>
      if is_empty input_text then []
      else
        let sanitized := strip input_text in
        let sanitized := filter (fun c => negb (c =? 0)%N) sanitized in
        if MAX_INPUT_LENGTH <? Z.of_nat (List.length sanitized)
        then firstn (Z.to_nat MAX_INPUT_LENGTH) sanitized
        else sanitized
  end.

(** [f"{label}: {error}"] *)
Definition labelled (label : string) (error : option string) : string :=
  label ++ ": " ++ match error with
                   | Some e => e
                   | None => "None"
                   end.

Definition errors_of {A : Type} (label : string) (validate : A -> bool * option string)
    (x : option A) : list string :=
  match x with
  | None => []
  | Some v =>
      let '(is_valid, error) := validate v in
      if is_valid then [] else [labelled label error]
  end.

Definition get_validation_errors (package_name topic question : option pystr)
    (score : option float) : list string :=
  (errors_of "Package name" validate_package_name package_name
   ++ errors_of "Topic" validate_topic topic
   ++ errors_of "Question" validate_question question
   ++ errors_of "Score" validate_score score)%list.

Record ValidationResult : Type := mkValidationResult {
  is_valid : bool;
  errors : list string
}.

Definition validate_all (package_name topic question : option pystr)
    (score : option float) : ValidationResult :=
  let errors := get_validation_errors package_name topic question score in
  mkValidationResult (Nat.eqb (List.length errors) 0) errors.

End InputValidators.

(** The characters a package name may be made of, for the statements below. *)
Definition ascii_alnum (c : N) : bool :=
  (Validators.in_range 0x61 0x7A c || Validators.in_range 0x41 0x5A c
   || Validators.in_range 0x30 0x39 c)%N.

Definition name_char (c : N) : bool :=
  (ascii_alnum c || (c =? 0x2E) || (c =? 0x5F) || (c =? 0x2D))%N.

(** [bool(x is None or validate(x)[0])] *)
Definition passes {A : Type} (validate : A -> bool * option string)
    (x : option A) : bool :=
  match x with
  | None => true
  | Some v => fst (validate v)
  end.

(** A string that does not start with white space. *)
Definition no_leading_space (s : Validators.pystr) : Prop :=
  match s with
  | [] => True
  | c :: _ => Validators.isspace c = false
  end.

(** A pattern that is a plain word. *)
Definition word (l : Validators.pystr) : Validators.pattern :=
  Validators.mkPattern false
    (map (fun c => Validators.One (Validators.Lit c)) l) false.

(** The four blocked patterns that are plain words. *)
Definition blocked_words : list string :=
  ["mkfs."; "__import__"; "subprocess"; "os.system"].

(** [l] is read at the start of [n], letter case ignored. *)
Fixpoint starts_with (l n : Validators.pystr) : bool :=
  match l with
  | [] => true
  | x :: l' =>
      match n with
      | [] => false
      | y :: n' =>
          (Validators.fold_case y =? Validators.fold_case x)%N
          && starts_with l' n'
      end
  end.

(** [l] occurs somewhere in [n], letter case ignored. *)
Fixpoint occurs (l n : Validators.pystr) : bool :=
  starts_with l n ||
  match n with
  | [] => false
  | _ :: n' => occurs l n'
  end.

(** A character class no character of a package name belongs to, and a
    pattern that cannot match without such a class. *)
Definition foreign (cs : Validators.charset) : bool :=
  match cs with
  | Validators.WhiteSpace => true
  | Validators.Lit l => negb (name_char (Validators.fold_case l))
  | _ => false
  end.

Definition needs_foreign (p : Validators.pattern) : bool :=
  existsb (fun it => match it with
                     | Validators.One cs | Validators.Many1 cs => foreign cs
                     | Validators.Many0 _ => false
                     end)
    (Validators.body p).

(** The characters a topic may continue with. *)
Definition topic_char (c : N) : bool := name_char c || Validators.isspace c.

(** ** [agent.py]: the methods of [TutorAgent] that reach the store through
    the progress tool; the state they thread is [self.progress_tool] *)

Module TutorAgent.

(** [d.get(key, default)] *)
Definition dict_get (d : pyval) (key : string) (default : pyval) : pyval :=
  match d with
  | VDict l =>
      match find (fun kv => String.eqb (fst kv) key) l with
      | Some kv => snd kv
      | None => default
      end
  | _ => default
  end.

Definition get_progress (progress_tool : ProgressTrackerTool.t)
    (package_name : option string) (clock : datetime)
  : result (ProgressTrackerTool.t * pyval) :=
  if opt_str_truthy package_name then
    ProgressTrackerTool._run progress_tool "get_stats" package_name None None
      None ProgressTrackerTool.no_kwargs clock
  else
    ProgressTrackerTool._run progress_tool "get_all_progress" None None None
      None ProgressTrackerTool.no_kwargs clock.

Definition get_profile (progress_tool : ProgressTrackerTool.t) (clock : datetime)
  : result (ProgressTrackerTool.t * pyval) :=
  ProgressTrackerTool._run progress_tool "get_profile" None None None None
    ProgressTrackerTool.no_kwargs clock.

Definition update_learning_style (progress_tool : ProgressTrackerTool.t)
    (style : string) (clock : datetime)
  : result (ProgressTrackerTool.t * pyval) :=
  let valid_styles := ["visual"; "reading"; "hands-on"] in
  if negb (str_in style valid_styles) then Ok (progress_tool, VBool false)
  else
    '(progress_tool, res) <-
      ProgressTrackerTool._run progress_tool "update_profile" None None None None
        (ProgressTrackerTool.mkKwargs None None (Some style)) clock ;;
    Ok (progress_tool, dict_get res "success" (VBool false)).

Definition mark_completed (progress_tool : ProgressTrackerTool.t)
    (package_name topic : string) (score : float) (clock : datetime)
  : result (ProgressTrackerTool.t * pyval) :=
  if negb (PrimFloat.leb 0%float score && PrimFloat.leb score 1%float) then
    Ok (progress_tool, VBool false)
  else
    '(progress_tool, res) <-
      ProgressTrackerTool._run progress_tool "mark_completed" (Some package_name)
        (Some topic) (Some score) None ProgressTrackerTool.no_kwargs clock ;;
    Ok (progress_tool, dict_get res "success" (VBool false)).

Definition reset_progress (progress_tool : ProgressTrackerTool.t)
    (package_name : option string) (clock : datetime)
  : result (ProgressTrackerTool.t * pyval) :=
  '(progress_tool, res) <-
    ProgressTrackerTool._run progress_tool "reset" package_name None None None
      ProgressTrackerTool.no_kwargs clock ;;
  Ok (progress_tool,
      if truthy (dict_get res "success" VNone)
      then dict_get res "count" (VInt 0)
      else VInt 0).

Definition get_packages_studied (progress_tool : ProgressTrackerTool.t)
    (clock : datetime) : result (ProgressTrackerTool.t * pyval) :=
  '(progress_tool, res) <-
    ProgressTrackerTool._run progress_tool "get_packages" None None None None
      ProgressTrackerTool.no_kwargs clock ;;
  Ok (progress_tool,
      if truthy (dict_get res "success" VNone)
      then dict_get res "packages" (VList [])
      else VList []).

End TutorAgent.

(** * Properties *)

(** ** Timestamps: [isoformat] preserves the order of the clock *)














(** Adding [timedelta(hours=0)] returns the same instant. *)
Lemma add_hours_0 (d : datetime) : valid d -> add_hours d 0 = Ok d.
Proof.
  intros (Hy & Hm & Hd & Hh & Hmi & Hs & Hu).
  unfold MINYEAR, MAXYEAR in *.
  unfold add_hours, timedelta_hours. simpl.
  unfold add_timedelta, normalize_pair.
  rewrite !Z.add_0_r.
  replace ((microsecond d <? 0) || (1000000 <=? microsecond d)) with false
    by (symmetry; apply orb_false_iff; split; [apply Z.ltb_ge|apply Z.leb_gt]; lia).
  replace ((second d <? 0) || (60 <=? second d)) with false
    by (symmetry; apply orb_false_iff; split; [apply Z.ltb_ge|apply Z.leb_gt]; lia).
  replace ((minute d <? 0) || (60 <=? minute d)) with false
    by (symmetry; apply orb_false_iff; split; [apply Z.ltb_ge|apply Z.leb_gt]; lia).
  replace ((hour d <? 0) || (24 <=? hour d)) with false
    by (symmetry; apply orb_false_iff; split; [apply Z.ltb_ge|apply Z.leb_gt]; lia).
  unfold normalize_y_m_d.
  replace ((day d <? 1) || (days_in_month (year d) (month d) <? day d)) with false
    by (symmetry; apply orb_false_iff; split; apply Z.ltb_ge; lia).
  unfold MINYEAR, MAXYEAR.
  replace ((1 <=? year d) && (year d <=? 9999)) with true
    by (symmetry; apply andb_true_iff; split; apply Z.leb_le; lia).
  simpl. destruct d; reflexivity.
Qed.

(** ** Progress rows *)

Lemma find_hd_filter {A : Type} (f : A -> bool) (l : list A) :
  find f l = hd_error (filter f l).
Proof.
  induction l as [|a l IH]; simpl; [reflexivity|].
  destruct (f a); [reflexivity|exact IH].
Qed.

Lemma existsb_filter_nil {A : Type} (f : A -> bool) (l : list A) :
  existsb f l = false -> filter f l = [].
Proof.
  induction l as [|a l IH]; simpl; [reflexivity|].
  destruct (f a); simpl; [discriminate|exact IH].
Qed.

Lemma progress_key_iff (p t : string) (row : ProgressRow.t) :
  progress_key p t row = true <-> progress_key_of row = (p, t).
Proof.
  unfold progress_key, progress_key_of.
  rewrite andb_true_iff, !String.eqb_eq. split.
  - intros [-> ->]. reflexivity.
  - intros H. inversion H. auto.
Qed.


Section Upsert.

Variables (p t : string) (completed : bool) (score : float)
          (last_accessed : string) (total_time_seconds : Z).








End Upsert.

(** What a REAL column gives back is the number that was bound to it. *)
Lemma sql_real_eqb (x : float) :
  is_nan x = false -> PrimFloat.eqb (sql_real x) x = true.
Proof.
  unfold is_nan, sql_real. intros H. apply negb_false_iff in H.
  destruct (PrimFloat.eqb 0 x) eqn:E; [exact E|exact H].
Qed.

Lemma sql_real_idempotent (x : float) : sql_real (sql_real x) = sql_real x.
Proof.
  unfold sql_real. destruct (PrimFloat.eqb 0 x) eqn:E; [reflexivity|].
  rewrite E. reflexivity.
Qed.

Lemma sql_real_is_nan (x : float) : is_nan x = false -> is_nan (sql_real x) = false.
Proof.
  unfold sql_real. destruct (PrimFloat.eqb 0 x); [reflexivity|auto].
Qed.

Lemma sqlite_real_sql_real (x : float) : is_nan x = false -> sqlite_real (sql_real x).
Proof.
  intros H. split; [apply sql_real_is_nan; exact H|apply sql_real_idempotent].
Qed.

(** An [int] that does not fit is refused when it is bound, before anything
    is written. *)
Lemma upsert_progress_overflow (db : database) (progress : LearningProgress.t)
    (clock : datetime) :
  fits_int64 (LearningProgress.total_time_seconds progress) = false ->
  upsert_progress (healthy db) progress clock = Raise int_too_large.
Proof.
  intros H. unfold upsert_progress. cbn [healthy _get_connection fault file bind].
  rewrite H. reflexivity.
Qed.



(** Without assuming uniqueness: the first row a reader finds for the pair
    after an upsert holds the values written. *)
Lemma insert_or_update_progress_find (p t : string) (completed : bool)
    (score : float) (last_accessed : string) (total_time_seconds : Z)
    (tbl : table ProgressRow.t) :
  exists i,
    find (progress_key p t)
      (rows (fst (insert_or_update_progress tbl p t completed score
                    last_accessed total_time_seconds)))
    = Some (ProgressRow.mk i p t completed (sql_real score) (Some last_accessed)
              total_time_seconds).
Proof.
  unfold insert_or_update_progress.
  destruct (existsb (progress_key p t) (rows tbl)) eqn:Ex; cbn [fst rows].
  - induction (rows tbl) as [|a l IH]; simpl in *; [discriminate|].
    destruct (progress_key p t a) eqn:Ea.
    + exists (ProgressRow.id a). simpl.
      apply progress_key_iff in Ea. inversion Ea; subst.
      assert (H : progress_key (ProgressRow.package_name a) (ProgressRow.topic a)
                    (ProgressRow.mk (ProgressRow.id a) (ProgressRow.package_name a)
                       (ProgressRow.topic a) completed (sql_real score)
                       (Some last_accessed) total_time_seconds) = true)
        by (apply progress_key_iff; reflexivity).
      rewrite H. reflexivity.
    + rewrite Ea. simpl in Ex. apply IH. exact Ex.
  - exists (next_rowid ProgressRow.id tbl).
    rewrite find_hd_filter, filter_app, (existsb_filter_nil _ _ Ex). simpl.
    assert (H : progress_key p t
                  (ProgressRow.mk (next_rowid ProgressRow.id tbl) p t completed
                     (sql_real score) (Some last_accessed) total_time_seconds)
                = true)
      by (apply progress_key_iff; reflexivity).
    rewrite H. reflexivity.
Qed.

Lemma upsert_progress_then_get (db : database) (progress : LearningProgress.t)
    (clock : datetime) :
  fits_int64 (LearningProgress.total_time_seconds progress) = true ->
  exists db' i j,
    upsert_progress (healthy db) progress clock = Ok (healthy db', i)
    /\ get_progress (healthy db') (LearningProgress.package_name progress)
                    (LearningProgress.topic progress)
       = Ok (Some (LearningProgress.mk (Some j)
                     (LearningProgress.package_name progress)
                     (LearningProgress.topic progress)
                     (LearningProgress.completed progress)
                     (sql_real (LearningProgress.score progress))
                     (Some (isoformat clock))
                     (LearningProgress.total_time_seconds progress))).
Proof.
  intros Hfit.
  destruct (insert_or_update_progress_find
              (LearningProgress.package_name progress)
              (LearningProgress.topic progress)
              (LearningProgress.completed progress)
              (LearningProgress.score progress)
              (isoformat clock)
              (LearningProgress.total_time_seconds progress)
              (learning_progress db)) as (j & Hj).
  unfold upsert_progress, get_progress.
  cbn [healthy _get_connection fault file bind].
  rewrite Hfit. cbn [negb].
  destruct (insert_or_update_progress _ _ _ _ _ _ _) as [tbl last].
  cbn [fst] in Hj.
  exists (set_learning_progress db tbl).
  cbn [set_learning_progress learning_progress]. rewrite Hj.
  destruct (last =? 0); eexists; exists j; split; reflexivity.
Qed.

Lemma find_some_in {A : Type} (f : A -> bool) (l : list A) (x : A) :
  find f l = Some x -> In x l.
Proof. intros H. apply find_some in H. tauto. Qed.


(** [mark_topic_completed] writes the defaults of a fresh
    [LearningProgress] for every field it is not given: the row it leaves
    has a total time of 0, whatever was accumulated before. *)
Lemma mark_topic_completed_then_get (db : database) (package_name topic : string)
    (score : float) (clock : datetime) :
  exists db' j,
    mark_topic_completed (healthy db) package_name topic score clock
    = Ok (healthy db')
    /\ get_progress (healthy db') package_name topic
       = Ok (Some (LearningProgress.mk (Some j) package_name topic true
                     (sql_real score) (Some (isoformat clock)) 0)).
Proof.
  unfold mark_topic_completed.
  destruct (upsert_progress_then_get db
              (LearningProgress.mk None package_name topic true score None 0)
              clock eq_refl) as (db' & i & j & Eu & Eg).
  exists db', j. rewrite Eu. split; [reflexivity|exact Eg].
Qed.

(** C1: at the sample state, where ("docker", "basics") has accumulated 120
    seconds, marking the topic completed stores completed = true and the
    given score, and the total time read back is 0, not 120. *)
Theorem C1_mark_completed_resets_total_time :
  (exists before,
     get_progress (healthy timed_db) "docker" "basics" = Ok (Some before)
     /\ LearningProgress.total_time_seconds before = 120)
  /\ exists s after,
       mark_topic_completed (healthy timed_db) "docker" "basics" 1%float sample_clock
       = Ok s
       /\ get_progress s "docker" "basics" = Ok (Some after)
       /\ LearningProgress.completed after = true
       /\ LearningProgress.score after = 1%float
       /\ LearningProgress.total_time_seconds after = 0.
Proof.
  split.
  - eexists. split; reflexivity.
  - destruct (mark_topic_completed_then_get timed_db "docker" "basics" 1%float
                sample_clock) as (db' & j & Em & Eg).
    exists (healthy db'). eexists. repeat split; [exact Em|exact Eg| | |];
      reflexivity.
Qed.

(** ** Reset *)

Lemma filter_negb_other {A : Type} (f g : A -> bool) (l : list A) :
  (forall x, g x = true -> f x = false) ->
  filter g (filter (fun x => negb (f x)) l) = filter g l.
Proof.
  intros H. induction l as [|a l IH]; simpl; [reflexivity|].
  destruct (f a) eqn:Ef; simpl.
  - destruct (g a) eqn:Eg; [rewrite (H a Eg) in Ef; discriminate|exact IH].
  - destruct (g a); rewrite IH; reflexivity.
Qed.

Lemma filter_negb_self {A : Type} (f : A -> bool) (l : list A) :
  filter f (filter (fun x => negb (f x)) l) = [].
Proof.
  induction l as [|a l IH]; simpl; [reflexivity|].
  destruct (f a) eqn:Ef; simpl; [exact IH|]. rewrite Ef. exact IH.
Qed.

Lemma filter_all_false {A : Type} (l : list A) :
  filter (fun _ => negb true) l = [].
Proof. induction l; simpl; auto. Qed.

Lemma filter_all_true {A : Type} (l : list A) :
  filter (fun _ => true) l = l.
Proof. induction l; simpl; congruence. Qed.

(** C9: resetting a package deletes exactly its progress rows and returns
    their number; the rows of every other package and the quiz results
    stay as they were. Resetting without a package deletes every progress
    row, returns their number and leaves the quiz results as they were. *)
Theorem C9_reset_scoped (db : database) (A : string) :
  A <> "" ->
  (exists db',
     reset_progress (healthy db) (Some A)
     = Ok (healthy db',
           sql_count (filter (progress_of_package A) (rows (learning_progress db))))
     /\ rows (learning_progress db')
        = filter (fun row => negb (progress_of_package A row))
                 (rows (learning_progress db))
     /\ filter (progress_of_package A) (rows (learning_progress db')) = []
     /\ (forall B, B <> A ->
           filter (progress_of_package B) (rows (learning_progress db'))
           = filter (progress_of_package B) (rows (learning_progress db)))
     /\ quiz_results db' = quiz_results db)
  /\ (exists db',
        reset_progress (healthy db) None
        = Ok (healthy db', sql_count (rows (learning_progress db)))
        /\ rows (learning_progress db') = []
        /\ quiz_results db' = quiz_results db).
Proof.
  intros HA.
  assert (TA : str_truthy A = true) by (destruct A; [contradiction|reflexivity]).
  split.
  - eexists. unfold reset_progress.
    cbn [healthy _get_connection fault file bind commit]. rewrite TA.
    split; [reflexivity|].
    cbn [set_learning_progress learning_progress quiz_results rows].
    repeat split.
    + apply filter_negb_self.
    + intros B HB. apply filter_negb_other.
      intros x Hx. unfold progress_of_package in *.
      apply String.eqb_eq in Hx. apply String.eqb_neq. congruence.
  - eexists. unfold reset_progress.
    cbn [healthy _get_connection fault file bind commit].
    rewrite filter_all_true.
    split; [reflexivity|].
    cbn [set_learning_progress learning_progress quiz_results rows].
    split; [apply filter_all_false|reflexivity].
Qed.

(** ** Completion statistics *)

(** C8: with no progress row for the package the statistics are all zero
    (NULL aggregates are replaced, nothing is divided); and after recording
    ("docker", "basics") completed with score 0.9 and ("docker", "advanced")
    not completed with score 0.5 in a fresh store, the statistics of
    "docker" are total 2, completed 1, average within 1e-9 of 0.7 and total
    time 0. *)
Theorem C8_completion_stats :
  (forall db package_name,
     filter (progress_of_package package_name) (rows (learning_progress db)) = [] ->
     get_completion_stats (healthy db) package_name
     = Ok (Stats.mk 0 0 0%float 0))
  /\ (forall clock1 clock2,
        exists s1 s2 row_id stats,
          mark_topic_completed (healthy empty_database) "docker" "basics"
            0.9%float clock1 = Ok s1
          /\ upsert_progress s1
               (LearningProgress.mk None "docker" "advanced" false 0.5%float None 0)
               clock2 = Ok (s2, row_id)
          /\ get_completion_stats s2 "docker" = Ok stats
          /\ Stats.total stats = 2
          /\ Stats.completed stats = 1
          /\ PrimFloat.leb
               (PrimFloat.abs (PrimFloat.sub (Stats.avg_score stats) 0.7%float))
               1e-9%float = true
          /\ Stats.total_time_seconds stats = 0).
Proof.
  split.
  - intros db package_name Hnone. unfold get_completion_stats.
    cbn [healthy _get_connection fault file bind]. rewrite Hnone. reflexivity.
  - intros clock1 clock2. do 4 eexists.
    split; [reflexivity|]. split; [reflexivity|]. split; [reflexivity|].
    repeat split; vm_compute; reflexivity.
Qed.

(** The scenario's average does not depend on which of the two summations
    the linked SQLite uses. *)
Lemma scenario_average_compensated :
  sql_avg_compensated [0.9%float; 0.5%float] = sql_avg [0.9%float; 0.5%float].
Proof. vm_compute. reflexivity. Qed.

(** ** Lesson cache *)

Lemma leb_negb_ltb (a b : string) : String.leb a b = negb (String.ltb b a).
Proof.
  unfold String.leb, String.ltb. rewrite (String.compare_antisym b a).
  destruct (String.compare a b); reflexivity.
Qed.

Lemma nodup_map_eq {A B : Type} (f : A -> B) (l : list A) (a b : A) :
  NoDup (map f l) -> In a l -> In b l -> f a = f b -> a = b.
Proof.
  induction l as [|x l IH]; simpl; intros Hnd Ha Hb E; [contradiction|].
  inversion Hnd as [|? ? Hnotin Hnd']; subst.
  destruct Ha as [->|Ha], Hb as [->|Hb]; auto.
  - exfalso. apply Hnotin. rewrite E. apply in_map. exact Hb.
  - exfalso. apply Hnotin. rewrite <- E. apply in_map. exact Ha.
Qed.

Lemma find_none_all {A : Type} (f : A -> bool) (l : list A) :
  (forall x, In x l -> f x = false) -> find f l = None.
Proof.
  induction l as [|a l IH]; simpl; intros H; [reflexivity|].
  rewrite (H a) by auto. apply IH. auto.
Qed.

Lemma cache_of_package_iff (p : string) (row : CacheRow.t) :
  cache_of_package p row = true <-> CacheRow.package_name row = p.
Proof. apply String.eqb_eq. Qed.

(** With one row per package, a live row is the row a read finds. *)
Lemma find_live_unique (l : list CacheRow.t) (row : CacheRow.t) (now : string) :
  NoDup (map CacheRow.package_name l) -> In row l ->
  String.ltb now (CacheRow.expires_at row) = true ->
  find (cache_live (CacheRow.package_name row) now) l = Some row.
Proof.
  intros Hnd Hin Hlive.
  induction l as [|a l IH]; simpl in *; [contradiction|].
  destruct (cache_live (CacheRow.package_name row) now a) eqn:Ea.
  - unfold cache_live in Ea. apply andb_true_iff in Ea. destruct Ea as [Ep _].
    apply cache_of_package_iff in Ep. f_equal.
    apply (nodup_map_eq CacheRow.package_name (a :: l)); simpl; auto.
  - destruct Hin as [->|Hin].
    + unfold cache_live in Ea. rewrite Hlive, andb_true_r in Ea.
      unfold cache_of_package in Ea. rewrite String.eqb_refl in Ea. discriminate.
    + inversion Hnd; subst. apply IH; assumption.
Qed.

Lemma in_filter_sub {A : Type} (f : A -> bool) (l : list A) (x : A) :
  In x (filter f l) -> In x l.
Proof. intros H. apply filter_In in H. tauto. Qed.

Lemma nodup_map_filter {A B : Type} (f : A -> B) (g : A -> bool) (l : list A) :
  NoDup (map f l) -> NoDup (map f (filter g l)).
Proof.
  induction l as [|a l IH]; simpl; intros Hnd; [constructor|].
  inversion Hnd as [|? ? Hnotin Hnd']; subst.
  destruct (g a); simpl; [|auto].
  constructor; [|auto].
  intros Hin. apply Hnotin. apply in_map_iff in Hin.
  destruct Hin as (x & Ex & Hx). apply in_map_iff. exists x.
  split; [exact Ex|]. apply (in_filter_sub g). exact Hx.
Qed.

Lemma filter_partition_length {A : Type} (f : A -> bool) (l : list A) :
  List.length l
  = (List.length (filter f l) + List.length (filter (fun x => negb (f x)) l))%nat.
Proof.
  induction l as [|a l IH]; simpl; [reflexivity|].
  destruct (f a); simpl; lia.
Qed.

(** C7: the sweep deletes exactly the rows whose expiry is at or before the
    current time and returns their number N; the M rows whose expiry is
    after it are what remains. A swept package then reads as absent, and a
    remaining one reads as its content for as long as it has not expired. *)
Theorem C7_sweep_counts_expired (db : database) (clock : datetime) :
  unique_cache db ->
  let now := isoformat clock in
  let expired := filter (cache_expired now) (rows (lesson_cache db)) in
  let unexpired :=
    filter (fun row => String.ltb now (CacheRow.expires_at row))
           (rows (lesson_cache db)) in
  exists db',
    clear_expired_cache (healthy db) clock = Ok (healthy db', sql_count expired)
    /\ rows (lesson_cache db') = unexpired
    /\ sql_count (rows (lesson_cache db)) = sql_count expired + sql_count unexpired
    /\ (forall row clock',
          In row expired ->
          get_cached_lesson (healthy db') (CacheRow.package_name row) clock'
          = Ok None)
    /\ (forall row clock',
          In row unexpired ->
          String.ltb (isoformat clock') (CacheRow.expires_at row) = true ->
          get_cached_lesson (healthy db') (CacheRow.package_name row) clock'
          = Ok (Some (json_loads (CacheRow.content row)))).
Proof.
  intros Hu now expired unexpired.
  assert (Hsame : filter (fun row => negb (cache_expired now row))
                    (rows (lesson_cache db)) = unexpired).
  { apply filter_ext. intros row. unfold cache_expired.
    rewrite leb_negb_ltb, negb_involutive. reflexivity. }
  exists (set_lesson_cache db (mkTable unexpired (seq (lesson_cache db)))).
  unfold clear_expired_cache, get_cached_lesson.
  cbn [healthy _get_connection fault file bind commit set_lesson_cache
       lesson_cache rows].
  fold now. rewrite Hsame. fold expired.
  split; [reflexivity|]. split; [reflexivity|]. split; [|split].
  - unfold sql_count, expired. rewrite <- Hsame, <- Nat2Z.inj_add. f_equal.
    apply filter_partition_length.
  - intros row clock' Hin.
    rewrite find_none_all; [reflexivity|].
    intros x Hx. unfold cache_live.
    destruct (cache_of_package (CacheRow.package_name row) x) eqn:Ep;
      [|reflexivity].
    exfalso. apply cache_of_package_iff in Ep.
    assert (x = row).
    { apply (nodup_map_eq CacheRow.package_name (rows (lesson_cache db)));
        auto.
      - apply (in_filter_sub _ _ _ Hx).
      - apply (in_filter_sub _ _ _ Hin). }
    subst x. apply filter_In in Hx. apply filter_In in Hin.
    destruct Hx as [_ Hx], Hin as [_ Hin]. unfold cache_expired in Hin.
    rewrite leb_negb_ltb, Hx in Hin. discriminate.
  - intros row clock' Hin Hlive.
    rewrite (find_live_unique unexpired row (isoformat clock')); auto.
    apply nodup_map_filter. exact Hu.
Qed.



(** ** Student profile *)

Lemma str_in_iff (x : string) (l : list string) : str_in x l = true <-> In x l.
Proof.
  unfold str_in. rewrite existsb_exists. split.
  - intros (y & Hy & E). apply String.eqb_eq in E. subst. exact Hy.
  - intros H. exists x. split; [exact H|apply String.eqb_refl].
Qed.

Lemma str_in_false (x : string) (l : list string) : str_in x l = false <-> ~ In x l.
Proof.
  rewrite <- str_in_iff. destruct (str_in x l); split; intros H;
    try discriminate; try reflexivity; try (intros ?; discriminate).
  exfalso. apply H. reflexivity.
Qed.

Lemma remove_first_subset (x y : string) (l : list string) :
  In y (remove_first x l) -> In y l.
Proof.
  induction l as [|a l IH]; simpl; [auto|].
  destruct (String.eqb x a); simpl; intuition.
Qed.

Lemma remove_first_nodup (x : string) (l : list string) :
  NoDup l -> NoDup (remove_first x l) /\ ~ In x (remove_first x l).
Proof.
  induction l as [|a l IH]; simpl; intros Hnd.
  - split; [constructor|auto].
  - inversion Hnd as [|? ? Hnotin Hnd']; subst.
    destruct (String.eqb x a) eqn:E.
    + apply String.eqb_eq in E. subst. auto.
    + apply String.eqb_neq in E. destruct (IH Hnd') as [IH1 IH2]. split.
      * constructor; [|exact IH1]. intros H. apply Hnotin.
        apply (remove_first_subset x). exact H.
      * simpl. intros [H|H]; [congruence|auto].
Qed.

Lemma select_profile_updated (t : table ProfileRow.t) (row : ProfileRow.t)
    (f : ProfileRow.t -> ProfileRow.t) (d : database) :
  hd_error (rows t) = Some row ->
  select_profile
    (set_student_profile d (update_profile_where_id t (ProfileRow.id row) f))
  = Some (f row).
Proof.
  unfold select_profile, update_profile_where_id.
  cbn [set_student_profile student_profile rows].
  destruct (rows t) as [|a l]; simpl; [discriminate|].
  intros E. inversion E; subst. rewrite Z.eqb_refl. reflexivity.
Qed.

(** Reading the row to update: the stored one, or the default one just
    created when the table was empty. *)
Lemma profile_row_for_update_spec (db : database) :
  profile_ok db ->
  exists db1 row,
    profile_row_for_update (healthy db) = Ok (healthy db1, db1, row)
    /\ select_profile db1 = Some row
    /\ concepts_ok row
    /\ (forall row0, select_profile db = Some row0 -> db1 = db).
Proof.
  unfold profile_ok, profile_row_for_update.
  cbn [healthy _get_connection fault file bind].
  destruct (select_profile db) as [row0|] eqn:Es.
  - intros Hok. exists db, row0. auto.
  - intros _. unfold _create_default_profile.
    cbn [healthy _get_connection fault file bind].
    unfold select_profile in Es |- *.
    cbn [set_student_profile student_profile rows].
    destruct (rows (student_profile db)) as [|a l] eqn:Er; [|discriminate].
    cbn [app hd_error bind commit file fault].
    cbn [set_student_profile student_profile rows hd_error].
    eexists. eexists. split; [reflexivity|]. split; [reflexivity|].
    split; [|discriminate].
    split; simpl; [constructor|auto].
Qed.

Lemma add_mastered_concept_spec (db : database) (x : string) (clock : datetime) :
  profile_ok db ->
  exists db',
    add_mastered_concept (healthy db) x clock = Ok (healthy db')
    /\ profile_ok db'
    /\ In x (mastered_of (healthy db'))
    /\ ~ In x (weak_of (healthy db')).
Proof.
  intros Hok. unfold add_mastered_concept.
  destruct (profile_row_for_update_spec db Hok)
    as (db1 & row & E & Hsel & [Hnd Hdis] & _).
  rewrite E. cbn [bind].
  destruct (str_in x (ProfileRow.mastered_concepts row)) eqn:Em; cbn [negb].
  - exists db1. apply str_in_iff in Em.
    unfold profile_ok, mastered_of, weak_of. cbn [healthy file].
    rewrite Hsel. repeat split; auto.
  - eexists. cbn [commit healthy fault]. split; [reflexivity|].
    unfold profile_ok, mastered_of, weak_of. cbn [healthy file].
    rewrite (select_profile_updated _ row _ _ Hsel).
    cbn [ProfileRow.mastered_concepts ProfileRow.weak_concepts].
    assert (Hfresh : NoDup (if str_in x (ProfileRow.weak_concepts row)
                            then remove_first x (ProfileRow.weak_concepts row)
                            else ProfileRow.weak_concepts row)
                     /\ ~ In x (if str_in x (ProfileRow.weak_concepts row)
                                then remove_first x (ProfileRow.weak_concepts row)
                                else ProfileRow.weak_concepts row)).
    { destruct (str_in x (ProfileRow.weak_concepts row)) eqn:Ew.
      - apply remove_first_nodup. exact Hnd.
      - split; [exact Hnd|apply str_in_false; exact Ew]. }
    destruct Hfresh as [Hnd' Hnot].
    repeat split; auto.
    + intros y Hy Hw. apply in_app_or in Hy. destruct Hy as [Hy|[<-|[]]].
      * apply (Hdis y Hy).
        destruct (str_in x (ProfileRow.weak_concepts row));
          [apply (remove_first_subset x)|]; exact Hw.
      * contradiction.
    + apply in_or_app. right. left. reflexivity.
Qed.

Lemma add_weak_concept_spec (db : database) (x : string) (clock : datetime) :
  profile_ok db ->
  exists db',
    add_weak_concept (healthy db) x clock = Ok (healthy db')
    /\ profile_ok db'
    /\ (In x (mastered_of (healthy db)) -> db' = db)
    /\ (In x (mastered_of (healthy db')) -> In x (mastered_of (healthy db))).
Proof.
  intros Hok. unfold add_weak_concept.
  destruct (profile_row_for_update_spec db Hok)
    as (db1 & row & E & Hsel & [Hnd Hdis] & Hsame).
  rewrite E. cbn [bind].
  destruct (str_in x (ProfileRow.mastered_concepts row)) eqn:Em.
  - rewrite andb_false_r. exists db1. split; [reflexivity|].
    unfold profile_ok, mastered_of. cbn [healthy file]. rewrite Hsel.
    repeat split; auto.
    + destruct (select_profile db) as [row0|] eqn:Es; [|contradiction].
      intros _. apply (Hsame row0). reflexivity.
    + destruct (select_profile db) as [row0|] eqn:Es.
      * rewrite (Hsame row0 eq_refl) in Hsel. congruence.
      * intros _. clear Hsame.
        unfold profile_row_for_update in E.
        cbn [healthy _get_connection fault file bind] in E.
        rewrite Es in E. unfold _create_default_profile in E.
        cbn [healthy _get_connection fault file bind] in E.
        unfold select_profile in Es, E.
        cbn [set_student_profile student_profile rows] in E.
        destruct (rows (student_profile db)); [|discriminate].
        cbn in E. inversion E; subst. simpl in Em. discriminate.
  - rewrite andb_true_r.
    destruct (str_in x (ProfileRow.weak_concepts row)) eqn:Ew; cbn [negb].
    + exists db1. split; [reflexivity|].
      unfold profile_ok, mastered_of. cbn [healthy file]. rewrite Hsel.
      apply str_in_false in Em.
      repeat split; auto; try contradiction.
      destruct (select_profile db) as [row0|] eqn:Es; [|contradiction].
      rewrite (Hsame row0 eq_refl) in Hsel. congruence.
    + eexists. cbn [commit healthy fault]. split; [reflexivity|].
      unfold profile_ok, mastered_of. cbn [healthy file].
      rewrite (select_profile_updated _ row _ _ Hsel).
      cbn [ProfileRow.mastered_concepts ProfileRow.weak_concepts].
      apply str_in_false in Em. apply str_in_false in Ew.
      repeat split.
      * apply NoDup_app; [exact Hnd|repeat constructor; simpl; tauto|].
        intros y Hy [<-|[]]. contradiction.
      * intros y Hy Hw. apply in_app_or in Hw. destruct Hw as [Hw|[<-|[]]].
        -- apply (Hdis y Hy Hw).
        -- contradiction.
      * intros Hin. destruct (select_profile db) as [row0|] eqn:Es;
          [|contradiction].
        rewrite (Hsame row0 eq_refl) in Hsel.
        assert (row0 = row) by congruence. subst. contradiction.
      * intros Hin. contradiction.
Qed.

Lemma run_ops_keeps_profile_ok (ops : list (concept_op * datetime)) (db : database) :
  profile_ok db ->
  exists db', run_ops (healthy db) ops = Ok (healthy db') /\ profile_ok db'.
Proof.
  revert db. induction ops as [|[op clock] ops IH]; intros db Hok.
  - exists db. split; [reflexivity|exact Hok].
  - cbn [run_ops]. unfold run_op. cbn [fst snd].
    destruct op as [x|x].
    + destruct (add_mastered_concept_spec db x clock Hok) as (db1 & E & Hok1 & _).
      rewrite E. cbn [bind]. apply IH. exact Hok1.
    + destruct (add_weak_concept_spec db x clock Hok) as (db1 & E & Hok1 & _).
      rewrite E. cbn [bind]. apply IH. exact Hok1.
Qed.

(** C5: starting from a profile whose concept sets exclude each other (the
    default profile in particular), after any sequence of
    [add_mastered_concept] and [add_weak_concept] no concept is both
    mastered and weak; [add_mastered_concept x] leaves [x] mastered and not
    weak; a following [add_weak_concept x] changes nothing, so [x] stays
    mastered and absent from weak; and [add_weak_concept] of any mastered
    concept returns the store as it was. *)
Theorem C5_concepts_exclusive (db : database) (ops : list (concept_op * datetime)) :
  profile_ok db ->
  exists db',
    run_ops (healthy db) ops = Ok (healthy db')
    /\ (forall x, In x (mastered_of (healthy db')) ->
                  ~ In x (weak_of (healthy db')))
    /\ (forall x clock1 clock2,
          exists db1,
            add_mastered_concept (healthy db') x clock1 = Ok (healthy db1)
            /\ In x (mastered_of (healthy db1))
            /\ ~ In x (weak_of (healthy db1))
            /\ add_weak_concept (healthy db1) x clock2 = Ok (healthy db1))
    /\ (forall x clock,
          In x (mastered_of (healthy db')) ->
          add_weak_concept (healthy db') x clock = Ok (healthy db')).
Proof.
  intros Hok.
  destruct (run_ops_keeps_profile_ok ops db Hok) as (db' & Erun & Hok').
  exists db'. split; [exact Erun|]. split; [|split].
  - intros x. unfold mastered_of, weak_of, profile_ok in *. cbn [healthy file].
    destruct (select_profile db') as [row|]; [|auto].
    destruct Hok' as [_ Hdis]. apply Hdis.
  - intros x clock1 clock2.
    destruct (add_mastered_concept_spec db' x clock1 Hok')
      as (db1 & E1 & Hok1 & Hin & Hnot).
    exists db1. repeat split; auto.
    destruct (add_weak_concept_spec db1 x clock2 Hok1) as (db2 & E2 & _ & Hsame & _).
    rewrite E2, (Hsame Hin). reflexivity.
  - intros x clock Hin.
    destruct (add_weak_concept_spec db' x clock Hok') as (db2 & E2 & _ & Hsame & _).
    rewrite E2, (Hsame Hin). reflexivity.
Qed.

(** ** Storage failures *)

(** The store itself has no handler: each method raises what the
    connection raised. *)
Lemma store_methods_propagate (db : database) (e : exn) :
  let s := broken db e in
  (forall p t, get_progress s p t = Raise e)
  /\ (forall p, get_all_progress s p = Raise e)
  /\ (forall pr clock, upsert_progress s pr clock = Raise e)
  /\ (forall p t x clock, mark_topic_completed s p t x clock = Raise e)
  /\ (forall p, get_completion_stats s p = Raise e)
  /\ (forall q clock, add_quiz_result s q clock = Raise e)
  /\ (forall p, get_quiz_results s p = Raise e)
  /\ get_student_profile s = Raise e
  /\ (forall pr clock, update_student_profile s pr clock = Raise e)
  /\ (forall x clock, add_mastered_concept s x clock = Raise e)
  /\ (forall x clock, add_weak_concept s x clock = Raise e)
  /\ (forall p clock, get_cached_lesson s p clock = Raise e)
  /\ (forall clock, clear_expired_cache s clock = Raise e)
  /\ (forall p, reset_progress s p = Raise e)
  /\ get_packages_studied s = Raise e.
Proof. repeat split. Qed.



(** ** Package names *)

Import Validators.

Lemma validate_package_name_stripped (s : pystr) :
  fst (validate_package_name s) = true ->
  Z.of_nat (List.length (strip s)) <= MAX_PACKAGE_NAME_LENGTH
  /\ existsb (fun p => re_search true p (strip s)) BLOCKED_PATTERNS = false
  /\ re_match false VALID_PACKAGE_PATTERN (strip s) = true
  /\ strip s <> [].
Proof.
  unfold validate_package_name.
  destruct s as [|c s']; [simpl; discriminate|].
  destruct (strip (c :: s')) as [|d r] eqn:Es; [simpl; discriminate|].
  cbn [orb].
  destruct (MAX_PACKAGE_NAME_LENGTH <? Z.of_nat (List.length (d :: r))) eqn:El;
    [simpl; discriminate|].
  destruct (existsb _ BLOCKED_PATTERNS) eqn:Eb; [simpl; discriminate|].
  destruct (re_match false VALID_PACKAGE_PATTERN (d :: r)) eqn:Em;
    [|simpl; discriminate].
  intros _. apply Z.ltb_ge in El. repeat split; auto. discriminate.
Qed.

(** C10, as the code has it: "rm -rf /" is rejected with the
    blocked-pattern message and the empty string with the cannot-be-empty
    message; "docker", "node-js" and "package.name" are accepted with no
    message; and an input is rejected whenever, once its surrounding
    white space is stripped, it is empty, longer than 100 characters, or
    does not match [^[a-zA-Z0-9][a-zA-Z0-9._-]*$]. *)
Theorem C10_validate_package_name :
  validate_package_name (of_string "rm -rf /")
  = (false, Some "Package name contains blocked pattern")
  /\ validate_package_name (of_string "")
     = (false, Some "Package name cannot be empty")
  /\ validate_package_name (of_string "docker") = (true, None)
  /\ validate_package_name (of_string "node-js") = (true, None)
  /\ validate_package_name (of_string "package.name") = (true, None)
  /\ (forall s, strip s = [] -> fst (validate_package_name s) = false)
  /\ (forall s,
        MAX_PACKAGE_NAME_LENGTH < Z.of_nat (List.length (strip s)) ->
        fst (validate_package_name s) = false)
  /\ (forall s,
        re_match false VALID_PACKAGE_PATTERN (strip s) = false ->
        fst (validate_package_name s) = false).
Proof.
  split; [vm_compute; reflexivity|].
  split; [vm_compute; reflexivity|].
  split; [vm_compute; reflexivity|].
  split; [vm_compute; reflexivity|].
  split; [vm_compute; reflexivity|].
  split; [|split]; intros s H;
    destruct (fst (validate_package_name s)) eqn:E; try reflexivity;
    destruct (validate_package_name_stripped s E) as (Hl & _ & Hm & Hne).
  - contradiction.
  - lia.
  - congruence.
Qed.

(** C10 fails as stated: " docker" does not match the pattern and is
    accepted, and a name of 100 letters followed by a space is longer than
    the maximum and is accepted. *)
Lemma C10_unstripped_input_is_accepted :
  re_match false VALID_PACKAGE_PATTERN (of_string " docker") = false
  /\ validate_package_name (of_string " docker") = (true, None)
  /\ MAX_PACKAGE_NAME_LENGTH
     < Z.of_nat (List.length (repeat 97%N 100 ++ of_string " "))
  /\ validate_package_name (repeat 97%N 100 ++ of_string " ")%list = (true, None).
Proof.
  repeat split; vm_compute; reflexivity.
Qed.

(** ** The statements at the sample states *)


Lemma unique_cache_cached_db : unique_cache cached_db.
Proof.
  unfold unique_cache. simpl. repeat constructor; simpl.
  - intros [H|[]]. discriminate H.
  - tauto.
Defined.

Lemma valid_sample_clock : valid sample_clock.
Proof. cbv. repeat split; (discriminate || reflexivity). Defined.


Lemma well_typed_timed_db : well_typed_progress timed_db.
Proof.
  unfold well_typed_progress, timed_db.
  cbn [learning_progress set_learning_progress rows].
  constructor; [|constructor].
  split; [split|]; reflexivity.
Defined.



Lemma C5_witness :
  profile_ok empty_database
  /\ exists db',
       run_ops (healthy empty_database)
         [(AddWeak "pipes", sample_clock); (AddMastered "pipes", later_clock)]
       = Ok (healthy db')
       /\ (forall x, In x (mastered_of (healthy db')) ->
                     ~ In x (weak_of (healthy db')))
       /\ (forall x clock1 clock2,
             exists db1,
               add_mastered_concept (healthy db') x clock1 = Ok (healthy db1)
               /\ In x (mastered_of (healthy db1))
               /\ ~ In x (weak_of (healthy db1))
               /\ add_weak_concept (healthy db1) x clock2 = Ok (healthy db1))
       /\ (forall x clock,
             In x (mastered_of (healthy db')) ->
             add_weak_concept (healthy db') x clock = Ok (healthy db')).
Proof.
  assert (H : profile_ok empty_database) by exact I.
  split; [exact H|].
  exact (C5_concepts_exclusive empty_database
           [(AddWeak "pipes", sample_clock); (AddMastered "pipes", later_clock)] H).
Defined.


Lemma C7_witness :
  unique_cache cached_db
  /\ exists db',
       clear_expired_cache (healthy cached_db) sample_clock = Ok (healthy db', 1)
       /\ get_cached_lesson (healthy db') "nginx" sample_clock = Ok None
       /\ get_cached_lesson (healthy db') "git" sample_clock
          = Ok (Some (VDict [("summary", VStr "version control")])).
Proof.
  split; [exact unique_cache_cached_db|].
  destruct (C7_sweep_counts_expired cached_db sample_clock unique_cache_cached_db)
    as (db' & Esweep & _ & _ & Hgone & Hkept).
  exists db'. split; [exact Esweep|]. split.
  - apply (Hgone (CacheRow.mk 1 "nginx"
                    (json_dumps (VDict [("summary", VStr "web server")]))
                    "2024-03-04 07:08:09" "2024-03-05T07:08:09+00:00")).
    left. reflexivity.
  - apply (Hkept (CacheRow.mk 2 "git"
                    (json_dumps (VDict [("summary", VStr "version control")]))
                    "2024-03-05 07:00:00" "2024-03-06T07:00:00+00:00")).
    + left. reflexivity.
    + reflexivity.
Defined.

Lemma C8_witness :
  filter (progress_of_package "git") (rows (learning_progress timed_db)) = []
  /\ get_completion_stats (healthy timed_db) "git" = Ok (Stats.mk 0 0 0%float 0).
Proof.
  split; [reflexivity|].
  exact (proj1 C8_completion_stats timed_db "git" eq_refl).
Defined.

Lemma C9_witness :
  "docker" <> ""
  /\ exists db',
       reset_progress (healthy timed_db) (Some "docker") = Ok (healthy db', 1)
       /\ rows (learning_progress db') = []
       /\ quiz_results db' = quiz_results timed_db.
Proof.
  assert (H : "docker" <> "") by discriminate.
  split; [exact H|].
  destruct (proj1 (C9_reset_scoped timed_db "docker" H))
    as (db' & Ereset & Erows & _ & _ & Equiz).
  exists db'. split; [exact Ereset|]. split; [exact Erows|exact Equiz].
Defined.

Lemma C10_witness :
  strip (of_string "   ") = []
  /\ re_match false VALID_PACKAGE_PATTERN (strip (of_string "a b")) = false
  /\ fst (validate_package_name (of_string "   ")) = false
  /\ fst (validate_package_name (of_string "a b")) = false.
Proof.
  destruct C10_validate_package_name as (_ & _ & _ & _ & _ & Hempty & _ & Hfmt).
  split; [reflexivity|]. split; [reflexivity|].
  split; [apply Hempty; reflexivity|apply Hfmt; reflexivity].
Defined.


(** ** The uniqueness constraints hold in every state the store reaches *)

Lemma fresh_store_well_formed :
  unique_progress empty_database /\ unique_cache empty_database
  /\ profile_ok empty_database.
Proof. repeat split; constructor. Qed.

Lemma reset_progress_keeps_unique (db : database) (p : option string)
    (s : SQLiteStore) (n : Z) :
  unique_progress db -> reset_progress (healthy db) p = Ok (s, n) ->
  unique_progress (file s).
Proof.
  unfold reset_progress. cbn [healthy _get_connection fault file bind commit].
  intros Hu E. inversion E; subst. unfold unique_progress.
  cbn [file set_learning_progress learning_progress rows].
  apply nodup_map_filter. exact Hu.
Qed.

Lemma clear_expired_cache_keeps_unique (db : database) (clock : datetime)
    (s : SQLiteStore) (n : Z) :
  unique_cache db -> clear_expired_cache (healthy db) clock = Ok (s, n) ->
  unique_cache (file s).
Proof.
  unfold clear_expired_cache. cbn [healthy _get_connection fault file bind commit].
  intros Hu E. inversion E; subst. unfold unique_cache.
  cbn [file set_lesson_cache lesson_cache rows].
  apply nodup_map_filter. exact Hu.
Qed.

Lemma cache_lesson_keeps_unique (db : database) (p : string) (content : pyval)
    (ttl : Z) (clock : datetime) (s : SQLiteStore) :
  unique_cache db -> cache_lesson (healthy db) p content ttl clock = Ok s ->
  unique_cache (file s).
Proof.
  unfold cache_lesson. destruct (add_hours clock ttl) as [expiry|e]; [|discriminate].
  cbn [healthy _get_connection fault file bind commit].
  intros Hu E. inversion E; subst. unfold unique_cache in *.
  cbn [file set_lesson_cache lesson_cache]. unfold insert_or_update_cache.
  cbv zeta.
  destruct (existsb (cache_of_package p) (rows (lesson_cache db))) eqn:Ex;
    cbn [file commit set_lesson_cache lesson_cache rows].
  - rewrite map_map.
    erewrite map_ext; [exact Hu|].
    intros row. destruct (cache_of_package p row); reflexivity.
  - rewrite map_app. simpl.
    apply NoDup_app; [exact Hu|repeat constructor; simpl; tauto|].
    intros k Hk [<-|[]].
    apply in_map_iff in Hk. destruct Hk as (x & Hx & Hin).
    assert (existsb (cache_of_package p) (rows (lesson_cache db)) = true).
    { apply existsb_exists. exists x. split; [exact Hin|].
      apply cache_of_package_iff. exact Hx. }
    congruence.
Qed.

(** ** The progress table holds what SQLite can hold *)

Lemma fresh_store_well_typed : well_typed_progress empty_database.
Proof. constructor. Qed.

Lemma upsert_progress_keeps_well_typed (db : database)
    (progress : LearningProgress.t) (clock : datetime) (s : SQLiteStore) (i : Z) :
  well_typed_progress db ->
  is_nan (LearningProgress.score progress) = false ->
  upsert_progress (healthy db) progress clock = Ok (s, i) ->
  well_typed_progress (file s).
Proof.
  intros Hwt Hnan. unfold upsert_progress.
  cbn [healthy _get_connection fault file bind].
  destruct (fits_int64 (LearningProgress.total_time_seconds progress)) eqn:Hfit;
    cbn [negb]; [|discriminate].
  assert (Hnew : forall tbl n,
             insert_or_update_progress (learning_progress db)
               (LearningProgress.package_name progress)
               (LearningProgress.topic progress)
               (LearningProgress.completed progress)
               (LearningProgress.score progress) (isoformat clock)
               (LearningProgress.total_time_seconds progress) = (tbl, n) ->
             well_typed_progress (set_learning_progress db tbl)).
  { intros tbl n. unfold insert_or_update_progress. cbv zeta.
    unfold well_typed_progress in *.
    destruct (existsb _ (rows (learning_progress db)));
      intros E; injection E as <- _;
      cbn [set_learning_progress learning_progress rows].
    - apply Forall_map. eapply Forall_impl; [|exact Hwt].
      intros row Hrow. cbv beta.
      destruct (progress_key _ _ row); [|exact Hrow].
      cbn [ProgressRow.score ProgressRow.total_time_seconds].
      split; [apply sqlite_real_sql_real; exact Hnan|exact Hfit].
    - apply Forall_app. split; [exact Hwt|].
      constructor; [|constructor].
      cbn [ProgressRow.score ProgressRow.total_time_seconds].
      split; [apply sqlite_real_sql_real; exact Hnan|exact Hfit]. }
  destruct (insert_or_update_progress _ _ _ _ _ _ _) as [tbl n] eqn:Ei.
  specialize (Hnew tbl n eq_refl).
  destruct (n =? 0); [destruct (find _ _)|]; intros E; injection E as <- _;
    exact Hnew.
Qed.

Lemma reset_progress_keeps_well_typed (db : database) (p : option string)
    (s : SQLiteStore) (n : Z) :
  well_typed_progress db -> reset_progress (healthy db) p = Ok (s, n) ->
  well_typed_progress (file s).
Proof.
  unfold reset_progress. cbn [healthy _get_connection fault file bind commit].
  intros Hwt E. unfold well_typed_progress in *.
  inversion E; subst.
  cbn [file commit set_learning_progress learning_progress rows].
  apply Forall_forall. intros row Hin. apply filter_In in Hin.
  rewrite Forall_forall in Hwt. apply Hwt. tauto.
Qed.

(** * Further properties of the store *)

(** ** Listings: [ORDER BY] *)

Section SortBy.

Context {A : Type} (leb : A -> A -> bool).

Hypothesis leb_total : forall x y, leb x y = true \/ leb y x = true.

Lemma insert_by_perm (x : A) (l : list A) : Permutation (insert_by leb x l) (x :: l).
Proof.
  induction l as [|y l IH]; simpl; [apply Permutation_refl|].
  destruct (leb x y); [apply Permutation_refl|].
  apply perm_trans with (y :: x :: l); [|apply perm_swap].
  apply perm_skip. exact IH.
Qed.

Lemma sort_by_perm (l : list A) : Permutation (sort_by leb l) l.
Proof.
  induction l as [|x l IH]; simpl; [apply perm_nil|].
  apply perm_trans with (x :: sort_by leb l); [apply insert_by_perm|].
  apply perm_skip. exact IH.
Qed.

Lemma insert_by_hd (x y : A) (l : list A) :
  leb y x = true -> HdRel (fun a b => leb a b = true) y l ->
  HdRel (fun a b => leb a b = true) y (insert_by leb x l).
Proof.
  intros Hyx Hhd. destruct l as [|z l]; simpl; [constructor; exact Hyx|].
  destruct (leb x z); constructor; [exact Hyx|].
  inversion Hhd; assumption.
Qed.

Lemma insert_by_sorted (x : A) (l : list A) :
  Sorted (fun a b => leb a b = true) l ->
  Sorted (fun a b => leb a b = true) (insert_by leb x l).
Proof.
  induction l as [|y l IH]; simpl; intros Hs.
  - repeat constructor.
  - destruct (leb x y) eqn:E.
    + constructor; [exact Hs|constructor; exact E].
    + inversion Hs as [|? ? Hs' Hhd]; subst.
      constructor; [apply IH; exact Hs'|].
      apply insert_by_hd; [|exact Hhd].
      destruct (leb_total x y) as [H|H]; [congruence|exact H].
Qed.

Lemma sort_by_sorted (l : list A) :
  Sorted (fun a b => leb a b = true) (sort_by leb l).
Proof.
  induction l as [|x l IH]; simpl; [constructor|].
  apply insert_by_sorted. exact IH.
Qed.

End SortBy.

Lemma by_topic_total (a b : ProgressRow.t) :
  by_topic a b = true \/ by_topic b a = true.
Proof. apply String.leb_total. Qed.

Lemma by_package_topic_total (a b : ProgressRow.t) :
  by_package_topic a b = true \/ by_package_topic b a = true.
Proof.
  unfold by_package_topic.
  rewrite (String.compare_antisym (ProgressRow.package_name a)
             (ProgressRow.package_name b)).
  destruct (String.compare (ProgressRow.package_name b)
              (ProgressRow.package_name a)); simpl; auto.
  apply String.leb_total.
Qed.

Lemma string_compare_lt_trans (a b c : string) :
  String.compare a b = Lt -> String.compare b c = Lt -> String.compare a c = Lt.
Proof.
  revert b c. induction a as [|x a IH]; intros [|y b] [|z c]; simpl;
    try discriminate; auto.
  unfold Ascii.compare.
  destruct (N.compare_spec (N_of_ascii x) (N_of_ascii y)) as [E1|L1|G1];
    destruct (N.compare_spec (N_of_ascii y) (N_of_ascii z)) as [E2|L2|G2];
    try discriminate; intros H1 H2.
  - rewrite E1, E2, N.compare_refl. eapply IH; eassumption.
  - rewrite E1. apply N.compare_lt_iff in L2. rewrite L2. reflexivity.
  - rewrite <- E2. apply N.compare_lt_iff in L1. rewrite L1. reflexivity.
  - assert (L : (N_of_ascii x < N_of_ascii z)%N) by lia.
    apply N.compare_lt_iff in L. rewrite L. reflexivity.
Qed.

Lemma string_leb_trans (a b c : string) :
  String.leb a b = true -> String.leb b c = true -> String.leb a c = true.
Proof.
  unfold String.leb.
  destruct (String.compare a b) eqn:Eab; try discriminate;
    destruct (String.compare b c) eqn:Ebc; try discriminate; intros _ _.
  - apply String.compare_eq_iff in Eab. subst. rewrite Ebc. reflexivity.
  - apply String.compare_eq_iff in Eab. subst. rewrite Ebc. reflexivity.
  - apply String.compare_eq_iff in Ebc. subst. rewrite Eab. reflexivity.
  - rewrite (string_compare_lt_trans a b c Eab Ebc). reflexivity.
Qed.

Lemma by_topic_trans :
  Relations_1.Transitive (fun a b => by_topic a b = true).
Proof. intros a b c. apply string_leb_trans. Qed.

Lemma by_package_topic_trans :
  Relations_1.Transitive (fun a b => by_package_topic a b = true).
Proof.
  intros a b c. unfold by_package_topic.
  destruct (String.compare (ProgressRow.package_name a) (ProgressRow.package_name b))
    eqn:Eab; try discriminate;
    destruct (String.compare (ProgressRow.package_name b) (ProgressRow.package_name c))
      eqn:Ebc; try discriminate.
  - apply String.compare_eq_iff in Eab. rewrite Eab, Ebc. apply string_leb_trans.
  - apply String.compare_eq_iff in Eab. rewrite Eab, Ebc. reflexivity.
  - apply String.compare_eq_iff in Ebc. rewrite <- Ebc, Eab. reflexivity.
  - rewrite (string_compare_lt_trans _ _ _ Eab Ebc). reflexivity.
Qed.

(** X1: [get_all_progress] for a named package returns that package's rows,
    each exactly once, sorted by topic; without a package,
    or with the empty name, it returns every row, each exactly once, ordered
    by package and then topic. *)
Theorem X1_get_all_progress_lists_in_order (db : database) (package_name : string) :
  package_name <> "" ->
  (exists listed,
     get_all_progress (healthy db) (Some package_name)
     = Ok (map progress_of_row listed)
     /\ Permutation listed
          (filter (progress_of_package package_name) (rows (learning_progress db)))
     /\ StronglySorted (fun a b => by_topic a b = true) listed)
  /\ (exists listed,
        get_all_progress (healthy db) None = Ok (map progress_of_row listed)
        /\ get_all_progress (healthy db) (Some "") = Ok (map progress_of_row listed)
        /\ Permutation listed (rows (learning_progress db))
        /\ StronglySorted (fun a b => by_package_topic a b = true) listed).
Proof.
  intros Hne.
  assert (T : str_truthy package_name = true)
    by (destruct package_name; [contradiction|reflexivity]).
  split.
  - eexists. unfold get_all_progress.
    cbn [healthy _get_connection fault file bind]. rewrite T.
    split; [reflexivity|]. split.
    + apply sort_by_perm.
    + apply Sorted_StronglySorted; [exact by_topic_trans|].
      apply sort_by_sorted. exact by_topic_total.
  - eexists. unfold get_all_progress.
    cbn [healthy _get_connection fault file bind str_truthy].
    split; [reflexivity|]. split; [reflexivity|]. split.
    + apply sort_by_perm.
    + apply Sorted_StronglySorted; [exact by_package_topic_trans|].
      apply sort_by_sorted. exact by_package_topic_total.
Qed.

Lemma X1_witness :
  "docker" <> ""
  /\ exists listed,
       get_all_progress (healthy timed_db) (Some "docker")
       = Ok (map progress_of_row listed)
       /\ Permutation listed
            (filter (progress_of_package "docker") (rows (learning_progress timed_db)))
       /\ StronglySorted (fun a b => by_topic a b = true) listed.
Proof.
  assert (H : "docker" <> "") by discriminate.
  split; [exact H|].
  exact (proj1 (X1_get_all_progress_lists_in_order timed_db "docker" H)).
Defined.

(** X2: [get_packages_studied] lists exactly the package names that have a
    progress row, each once, in non-decreasing order. *)
Theorem X2_packages_studied_distinct_sorted (db : database) :
  exists packages,
    get_packages_studied (healthy db) = Ok packages
    /\ NoDup packages
    /\ StronglySorted (fun a b => String.leb a b = true) packages
    /\ (forall p, In p packages <->
                  exists row, In row (rows (learning_progress db))
                              /\ ProgressRow.package_name row = p).
Proof.
  eexists. unfold get_packages_studied.
  cbn [healthy _get_connection fault file bind].
  split; [reflexivity|].
  set (names := nodup string_dec
                  (map ProgressRow.package_name (rows (learning_progress db)))).
  assert (Hperm : Permutation (sort_by String.leb names) names)
    by apply sort_by_perm.
  split; [|split].
  - apply (Permutation_NoDup (Permutation_sym Hperm)). apply NoDup_nodup.
  - apply Sorted_StronglySorted; [intros a b c; apply string_leb_trans|].
    apply sort_by_sorted. exact String.leb_total.
  - intros p. split.
    + intros Hin. apply (Permutation_in _ Hperm) in Hin.
      unfold names in Hin. apply nodup_In in Hin. apply in_map_iff in Hin.
      destruct Hin as (row & E & Hrow). exists row. auto.
    + intros (row & Hrow & E).
      apply (Permutation_in _ (Permutation_sym Hperm)).
      unfold names. apply nodup_In. rewrite <- E. apply in_map. exact Hrow.
Qed.

(** ** Row identifiers *)

Lemma max_rowid_ge {R : Type} (rowid : R -> Z) (l : list R) (row : R) :
  In row l -> rowid row <= fold_right Z.max 0 (map rowid l).
Proof.
  induction l as [|a l IH]; simpl; [contradiction|].
  intros [->|Hin]; [lia|]. specialize (IH Hin). lia.
Qed.

Lemma next_rowid_fresh {R : Type} (rowid : R -> Z) (t : table R) :
  seq t < next_rowid rowid t
  /\ forall row, In row (rows t) -> rowid row < next_rowid rowid t.
Proof.
  unfold next_rowid. split; [lia|].
  intros row Hin. pose proof (max_rowid_ge rowid (rows t) row Hin). lia.
Qed.

Lemma next_rowid_pos {R : Type} (rowid : R -> Z) (t : table R) :
  0 < next_rowid rowid t.
Proof.
  unfold next_rowid.
  assert (0 <= fold_right Z.max 0 (map rowid (rows t))).
  { induction (rows t) as [|a l IH]; simpl; lia. }
  lia.
Qed.

(** ** Quiz results *)

Lemma by_timestamp_desc_total (a b : QuizRow.t) :
  by_timestamp_desc a b = true \/ by_timestamp_desc b a = true.
Proof. unfold by_timestamp_desc. apply String.leb_total. Qed.

Lemma by_timestamp_desc_trans :
  Relations_1.Transitive (fun a b => by_timestamp_desc a b = true).
Proof.
  intros a b c Hab Hbc. unfold by_timestamp_desc in *.
  apply (string_leb_trans _ _ _ Hbc Hab).
Qed.

(** X3: [add_quiz_result] appends one row and touches nothing else: the row
    gets an identifier greater than every identifier in the table and the
    store's own timestamp (a timestamp or identifier supplied by the caller
    is ignored); [get_quiz_results] for its package then lists the earlier
    rows of the package and the new one, each once, most recent first, and
    the listing of every other package is unchanged. *)
Theorem X3_quiz_results_append_only (db : database) (quiz : QuizResult.t)
    (clock : datetime) :
  exists db' i listed,
    let added :=
      QuizRow.mk i (QuizResult.package_name quiz) (QuizResult.question quiz)
        (QuizResult.user_answer quiz) (QuizResult.correct quiz)
        (current_timestamp clock) in
    add_quiz_result (healthy db) quiz clock = Ok (healthy db', i)
    /\ (forall row, In row (rows (quiz_results db)) -> QuizRow.id row < i)
    /\ rows (quiz_results db') = (rows (quiz_results db) ++ [added])%list
    /\ learning_progress db' = learning_progress db
    /\ student_profile db' = student_profile db
    /\ lesson_cache db' = lesson_cache db
    /\ get_quiz_results (healthy db') (QuizResult.package_name quiz)
       = Ok (map quiz_of_row listed)
    /\ Permutation listed
         (filter (fun row => String.eqb (QuizRow.package_name row)
                                        (QuizResult.package_name quiz))
                 (rows (quiz_results db)) ++ [added])
    /\ StronglySorted (fun a b => by_timestamp_desc a b = true) listed
    /\ (forall other, other <> QuizResult.package_name quiz ->
          get_quiz_results (healthy db') other = get_quiz_results (healthy db) other).
Proof.
  eexists. eexists. eexists. cbv zeta.
  unfold add_quiz_result, get_quiz_results.
  cbn [healthy _get_connection fault file bind commit set_quiz_results
       quiz_results learning_progress student_profile lesson_cache rows].
  split; [reflexivity|]. split; [apply next_rowid_fresh|].
  split; [reflexivity|]. split; [reflexivity|]. split; [reflexivity|].
  split; [reflexivity|]. split; [reflexivity|]. split; [|split].
  - eapply perm_trans; [apply sort_by_perm|].
    cbn [set_quiz_results quiz_results rows].
    rewrite filter_app. cbn [filter QuizRow.package_name].
    rewrite String.eqb_refl. apply Permutation_refl.
  - apply Sorted_StronglySorted; [exact by_timestamp_desc_trans|].
    apply sort_by_sorted. exact by_timestamp_desc_total.
  - intros other Hother. cbn [set_quiz_results quiz_results rows].
    rewrite filter_app. cbn [filter QuizRow.package_name].
    replace (String.eqb (QuizResult.package_name quiz) other) with false
      by (symmetry; apply String.eqb_neq; congruence).
    rewrite app_nil_r. reflexivity.
Qed.

(** X4: identifiers of progress rows are not reused: after an upsert and
    a reset of all progress, the next upsert returns an identifier greater
    than the one returned before the reset.  Both upserts carry a total
    time that fits a 64-bit INTEGER (the store refuses any other). *)
Theorem X4_progress_ids_not_reused (db : database) (p1 p2 : LearningProgress.t)
    (clock1 clock2 : datetime) :
  fits_int64 (LearningProgress.total_time_seconds p1) = true ->
  fits_int64 (LearningProgress.total_time_seconds p2) = true ->
  exists s1 i1 s2 n s3 i2,
    upsert_progress (healthy db) p1 clock1 = Ok (s1, i1)
    /\ reset_progress s1 None = Ok (s2, n)
    /\ upsert_progress s2 p2 clock2 = Ok (s3, i2)
    /\ i1 < i2.
Proof.
  intros Hfit1 Hfit2.
  unfold upsert_progress at 1.
  cbn [healthy _get_connection fault file bind].
  rewrite Hfit1. cbn [negb].
  destruct (insert_or_update_progress (learning_progress db) _ _ _ _ _ _)
    as [t last] eqn:Et.
  assert (Hbound : (seq (learning_progress db) < seq t /\ 0 < seq t)
                   /\ (last = 0 \/ last = seq t)
                   /\ forall row, In row (rows t) -> ProgressRow.id row <= seq t).
  { unfold insert_or_update_progress in Et.
    destruct (next_rowid_fresh ProgressRow.id (learning_progress db)) as [Hs Hr].
    destruct (existsb _ (rows (learning_progress db))); inversion Et; subst;
      cbn [seq rows];
      (split; [split; [exact Hs|apply next_rowid_pos]|]); (split; [auto|]).
    - intros row Hin. apply in_map_iff in Hin. destruct Hin as (r & E & Hin).
      specialize (Hr r Hin).
      destruct (progress_key _ _ r); subst row; cbn [ProgressRow.id];
        apply Z.lt_le_incl; exact Hr.
    - intros row Hin. apply in_app_or in Hin. destruct Hin as [Hin|[<-|[]]].
      + apply Z.lt_le_incl. exact (Hr row Hin).
      + cbn [ProgressRow.id]. apply Z.le_refl. }
  destruct Hbound as ((Hseq & Hpos) & Hlast & Hids).
  set (conn1 := set_learning_progress db t).
  assert (E1 : exists i1,
             (if last =? 0
              then match find (progress_key (LearningProgress.package_name p1)
                                 (LearningProgress.topic p1))
                           (rows (learning_progress conn1)) with
                   | Some row => Ok (commit (healthy db) conn1, ProgressRow.id row)
                   | None => Ok (commit (healthy db) conn1, 0)
                   end
              else Ok (commit (healthy db) conn1, last))
             = Ok (healthy conn1, i1) /\ i1 <= seq t).
  { destruct (last =? 0) eqn:E0.
    - destruct (find _ _) as [row|] eqn:Ef.
      + exists (ProgressRow.id row). split; [reflexivity|].
        apply find_some in Ef. apply Hids. exact (proj1 Ef).
      + exists 0. split; [reflexivity|lia].
    - exists last. split; [reflexivity|].
      apply Z.eqb_neq in E0. destruct Hlast; [contradiction|lia]. }
  destruct E1 as (i1 & E1 & Hi1).
  exists (healthy conn1), i1.
  exists (healthy (set_learning_progress conn1 (mkTable [] (seq t)))),
         (sql_count (rows t)).
  exists (healthy
            (set_learning_progress conn1
               (mkTable
                  [ProgressRow.mk (Z.max (seq t) 0 + 1)
                     (LearningProgress.package_name p2)
                     (LearningProgress.topic p2)
                     (LearningProgress.completed p2)
                     (sql_real (LearningProgress.score p2))
                     (Some (isoformat clock2))
                     (LearningProgress.total_time_seconds p2)]
                  (Z.max (seq t) 0 + 1)))),
         (Z.max (seq t) 0 + 1).
  split; [exact E1|]. split; [|split].
  - unfold reset_progress.
    cbn [healthy _get_connection fault file bind commit].
    rewrite filter_all_false, filter_all_true. reflexivity.
  - unfold upsert_progress.
    cbn [healthy _get_connection fault file bind commit set_learning_progress
         learning_progress conn1].
    rewrite Hfit2. cbn [negb].
    unfold insert_or_update_progress, next_rowid.
    cbn [rows existsb seq map fold_right app].
    replace (Z.max (seq t) 0 + 1 =? 0) with false
      by (symmetry; apply Z.eqb_neq; lia).
    reflexivity.
  - lia.
Qed.

Lemma X4_witness :
  fits_int64 (LearningProgress.total_time_seconds first_report) = true
  /\ fits_int64 (LearningProgress.total_time_seconds second_report) = true
  /\ exists s1 i1 s2 n s3 i2,
       upsert_progress (healthy timed_db) first_report sample_clock = Ok (s1, i1)
       /\ reset_progress s1 None = Ok (s2, n)
       /\ upsert_progress s2 second_report later_clock = Ok (s3, i2)
       /\ i1 < i2.
Proof.
  split; [reflexivity|]. split; [reflexivity|].
  exact (X4_progress_ids_not_reused timed_db first_report second_report
           sample_clock later_clock eq_refl eq_refl).
Defined.

(** ** The profile row *)

Lemma update_profile_where_id_length (t : table ProfileRow.t) (i : Z)
    (f : ProfileRow.t -> ProfileRow.t) :
  List.length (rows (update_profile_where_id t i f)) = List.length (rows t).
Proof. unfold update_profile_where_id. cbn [rows]. apply length_map. Qed.

Lemma profile_row_for_update_singleton (db : database) :
  (List.length (rows (student_profile db)) <= 1)%nat ->
  exists db1 row,
    profile_row_for_update (healthy db) = Ok (healthy db1, db1, row)
    /\ rows (student_profile db1) = [row].
Proof.
  intros Hlen. unfold profile_row_for_update.
  cbn [healthy _get_connection fault file bind]. unfold select_profile.
  destruct (rows (student_profile db)) as [|row [|row' l]] eqn:Er;
    cbn [hd_error]; [| |simpl in Hlen; lia].
  - unfold _create_default_profile.
    cbn [healthy _get_connection fault file bind]. unfold select_profile.
    cbn [set_student_profile student_profile rows]. rewrite Er.
    cbn [app hd_error bind commit file fault set_student_profile
         student_profile rows healthy].
    eexists. eexists. split; reflexivity.
  - exists db, row. split; [reflexivity|exact Er].
Qed.

(** X5: the profile table holds one row once it has been read or written.
    From a table with at most one row, [get_student_profile] leaves exactly
    one row: the default profile (style "reading", no concepts, no session)
    when the table was empty, the stored one otherwise, with the store
    unchanged; a second read returns the same profile and writes nothing;
    and [add_mastered_concept] and [add_weak_concept] also leave exactly
    one row. *)
Theorem X5_profile_is_singleton (db : database) :
  (List.length (rows (student_profile db)) <= 1)%nat ->
  (exists db' profile,
     get_student_profile (healthy db) = Ok (healthy db', profile)
     /\ List.length (rows (student_profile db')) = 1%nat
     /\ (rows (student_profile db) = [] ->
         StudentProfile.mastered_concepts profile = []
         /\ StudentProfile.weak_concepts profile = []
         /\ StudentProfile.learning_style profile = "reading"
         /\ StudentProfile.last_session profile = None)
     /\ (forall row, rows (student_profile db) = [row] ->
                     db' = db /\ profile = profile_of_row row)
     /\ get_student_profile (healthy db') = Ok (healthy db', profile))
  /\ (forall x clock,
        exists db',
          add_mastered_concept (healthy db) x clock = Ok (healthy db')
          /\ List.length (rows (student_profile db')) = 1%nat)
  /\ (forall x clock,
        exists db',
          add_weak_concept (healthy db) x clock = Ok (healthy db')
          /\ List.length (rows (student_profile db')) = 1%nat).
Proof.
  intros Hlen. split; [|split].
  - unfold get_student_profile.
    cbn [healthy _get_connection fault file bind]. unfold select_profile.
    destruct (rows (student_profile db)) as [|row [|row' l]] eqn:Er;
      cbn [hd_error]; [| |simpl in Hlen; lia].
    + unfold _create_default_profile.
      cbn [healthy _get_connection fault file bind]. unfold select_profile.
      cbn [set_student_profile student_profile rows]. rewrite Er.
      cbn [app hd_error bind commit file fault set_student_profile
           student_profile rows healthy].
      eexists. eexists. split; [reflexivity|].
      cbn [student_profile rows List.length hd_error].
      split; [reflexivity|]. split; [intros _; repeat split|].
      split; [intros row0 H; discriminate H|reflexivity].
    + exists db, (profile_of_row row). rewrite Er. cbn [hd_error].
      split; [reflexivity|]. split; [reflexivity|].
      split; [intros H; discriminate H|].
      split; [|reflexivity].
      intros row0 H. inversion H. split; reflexivity.
  - intros x clock. unfold add_mastered_concept.
    destruct (profile_row_for_update_singleton db Hlen) as (db1 & row & E & Er).
    rewrite E. cbn [bind].
    destruct (negb (str_in x (ProfileRow.mastered_concepts row))).
    + eexists. cbn [commit healthy fault]. split; [reflexivity|].
      cbn [set_student_profile student_profile].
      rewrite update_profile_where_id_length, Er. reflexivity.
    + exists db1. rewrite Er. split; reflexivity.
  - intros x clock. unfold add_weak_concept.
    destruct (profile_row_for_update_singleton db Hlen) as (db1 & row & E & Er).
    rewrite E. cbn [bind].
    destruct (negb (str_in x (ProfileRow.weak_concepts row))
              && negb (str_in x (ProfileRow.mastered_concepts row))).
    + eexists. cbn [commit healthy fault]. split; [reflexivity|].
      cbn [set_student_profile student_profile].
      rewrite update_profile_where_id_length, Er. reflexivity.
    + exists db1. rewrite Er. split; reflexivity.
Qed.

Lemma X5_witness :
  (List.length (rows (student_profile empty_database)) <= 1)%nat
  /\ exists db' profile,
       get_student_profile (healthy empty_database) = Ok (healthy db', profile)
       /\ List.length (rows (student_profile db')) = 1%nat
       /\ get_student_profile (healthy db') = Ok (healthy db', profile).
Proof.
  assert (H : (List.length (rows (student_profile empty_database)) <= 1)%nat)
    by (simpl; lia).
  split; [exact H|].
  destruct (proj1 (X5_profile_is_singleton empty_database H))
    as (db' & profile & E & Hone & _ & _ & Eagain).
  exists db', profile. auto.
Defined.

(** X6: [update_student_profile] replaces the concept lists and the style
    of the existing row and stamps the session time; the identifier and
    session time carried by the argument are ignored, and a following
    [get_student_profile] returns what was written. On an empty table the
    update writes nothing: the table stays empty. *)
Theorem X6_update_profile_round_trip (db : database) (profile : StudentProfile.t)
    (clock : datetime) :
  (forall row rest,
     rows (student_profile db) = row :: rest ->
     exists db',
       update_student_profile (healthy db) profile clock = Ok (healthy db')
       /\ get_student_profile (healthy db')
          = Ok (healthy db',
                StudentProfile.mk (Some (ProfileRow.id row))
                  (StudentProfile.mastered_concepts profile)
                  (StudentProfile.weak_concepts profile)
                  (StudentProfile.learning_style profile)
                  (Some (isoformat clock)))
       /\ List.length (rows (student_profile db'))
          = List.length (rows (student_profile db)))
  /\ (rows (student_profile db) = [] ->
      exists db',
        update_student_profile (healthy db) profile clock = Ok (healthy db')
        /\ rows (student_profile db') = []).
Proof.
  split.
  - intros row rest Er. eexists. unfold update_student_profile.
    cbn [healthy _get_connection fault file bind commit]. unfold select_profile.
    rewrite Er. cbn [hd_error].
    split; [reflexivity|]. split.
    + unfold get_student_profile.
      cbn [healthy _get_connection fault file bind].
      rewrite (select_profile_updated (student_profile db) row _ db)
        by (rewrite Er; reflexivity).
      reflexivity.
    + cbn [set_student_profile student_profile].
      rewrite update_profile_where_id_length, Er. reflexivity.
  - intros Er. eexists. unfold update_student_profile.
    cbn [healthy _get_connection fault file bind commit]. unfold select_profile.
    rewrite Er. cbn [hd_error].
    split; [reflexivity|].
    cbn [set_student_profile student_profile]. exact Er.
Qed.

Lemma X6_witness :
  rows (student_profile empty_database) = []
  /\ exists db',
       update_student_profile (healthy empty_database)
         (StudentProfile.mk None ["pipes"] [] "visual" None) sample_clock
       = Ok (healthy db')
       /\ rows (student_profile db') = [].
Proof.
  split; [reflexivity|].
  exact (proj2 (X6_update_profile_round_trip empty_database
                  (StudentProfile.mk None ["pipes"] [] "visual" None) sample_clock)
           eq_refl).
Defined.

(** ** Writing the lesson cache *)


Lemma find_map_unchanged {A : Type} (g : A -> bool) (u : A -> A) (l : list A) :
  (forall x, g (u x) = g x) -> (forall x, g x = true -> u x = x) ->
  find g (map u l) = find g l.
Proof.
  intros Hg Hu. induction l as [|a l IH]; simpl; [reflexivity|].
  rewrite Hg. destruct (g a) eqn:Ea; [rewrite (Hu a Ea); reflexivity|exact IH].
Qed.

Lemma find_app_miss {A : Type} (g : A -> bool) (l : list A) (x : A) :
  g x = false -> find g (l ++ [x]) = find g l.
Proof.
  intros Hx. induction l as [|a l IH]; simpl; [rewrite Hx; reflexivity|].
  destruct (g a); [reflexivity|exact IH].
Qed.

(** After a write for [p], some row of the package exists and every row of
    the package carries the content written. *)
Lemma insert_or_update_cache_content (t : table CacheRow.t) (p : string)
    (content : json_text) (expires_at current : string) :
  (exists x, In x (rows (insert_or_update_cache t p content expires_at current))
             /\ CacheRow.package_name x = p)
  /\ forall x,
       In x (rows (insert_or_update_cache t p content expires_at current)) ->
       CacheRow.package_name x = p -> CacheRow.content x = content.
Proof.
  unfold insert_or_update_cache. cbv zeta.
  destruct (existsb (cache_of_package p) (rows t)) eqn:Ex; cbn [rows]; split.
  - apply existsb_exists in Ex. destruct Ex as (r & Hin & Hr).
    eexists. split; [apply in_map; exact Hin|].
    rewrite Hr. cbn [CacheRow.package_name].
    apply cache_of_package_iff. exact Hr.
  - intros x Hin Hp. apply in_map_iff in Hin. destruct Hin as (r & Er & _).
    destruct (cache_of_package p r) eqn:Ep; subst x; [reflexivity|].
    apply cache_of_package_iff in Hp. congruence.
  - eexists. split; [apply in_or_app; right; left; reflexivity|reflexivity].
  - intros x Hin Hp. apply in_app_or in Hin. destruct Hin as [Hin|[<-|[]]].
    + exfalso. assert (existsb (cache_of_package p) (rows t) = true).
      { apply existsb_exists. exists x. split; [exact Hin|].
        apply cache_of_package_iff. exact Hp. }
      congruence.
    + reflexivity.
Qed.


(** ** A time-to-live of up to a day *)









(** ** Progress: what a write leaves alone, and what the statistics count *)

(** X9: [upsert_progress] with a total time that fits a 64-bit INTEGER
    changes the rows of its own (package, topic) pair only: a read of any
    other pair returns what it returned before, and the quiz, profile and
    cache tables are untouched.  With any other total time it raises
    [OverflowError] and writes nothing. *)
Theorem X9_upsert_leaves_other_pairs (db : database) (progress : LearningProgress.t)
    (clock : datetime) :
  (fits_int64 (LearningProgress.total_time_seconds progress) = true ->
   exists db' i,
     upsert_progress (healthy db) progress clock = Ok (healthy db', i)
     /\ (forall q u,
           (q, u) <> (LearningProgress.package_name progress,
                      LearningProgress.topic progress) ->
           get_progress (healthy db') q u = get_progress (healthy db) q u)
     /\ quiz_results db' = quiz_results db
     /\ student_profile db' = student_profile db
     /\ lesson_cache db' = lesson_cache db)
  /\ (fits_int64 (LearningProgress.total_time_seconds progress) = false ->
      upsert_progress (healthy db) progress clock
      = Raise (OverflowError "Python int too large to convert to SQLite INTEGER")).
Proof.
  split; [|apply upsert_progress_overflow].
  intros Hfit. unfold upsert_progress.
  cbn [healthy _get_connection fault file bind].
  rewrite Hfit. cbn [negb].
  destruct (insert_or_update_progress _ _ _ _ _ _ _) as [t last] eqn:Et.
  exists (set_learning_progress db t).
  assert (Hres : exists i,
             (if last =? 0
              then match find (progress_key (LearningProgress.package_name progress)
                                 (LearningProgress.topic progress))
                           (rows (learning_progress (set_learning_progress db t)))
                   with
                   | Some row =>
                       Ok (commit (mkStore db None) (set_learning_progress db t),
                           ProgressRow.id row)
                   | None =>
                       Ok (commit (mkStore db None) (set_learning_progress db t), 0)
                   end
              else Ok (commit (mkStore db None) (set_learning_progress db t), last))
             = Ok (mkStore (set_learning_progress db t) None, i)).
  { destruct (last =? 0); [destruct (find _ _)|]; eexists; reflexivity. }
  destruct Hres as (i & Hres). exists i.
  split; [exact Hres|]. split; [|repeat split].
  intros q u Hne. unfold get_progress.
  cbn [healthy _get_connection fault file bind set_learning_progress
       learning_progress].
  assert (Hmiss : forall r,
            progress_key (LearningProgress.package_name progress)
                         (LearningProgress.topic progress) r = true ->
            progress_key q u r = false).
  { intros r Hr. apply progress_key_iff in Hr.
    destruct (progress_key q u r) eqn:E; [|reflexivity].
    apply progress_key_iff in E. congruence. }
  replace (find (progress_key q u) (rows t))
    with (find (progress_key q u) (rows (learning_progress db)));
    [reflexivity|].
  unfold insert_or_update_progress in Et. cbv zeta in Et.
  destruct (existsb _ (rows (learning_progress db))); inversion Et; subst;
    cbn [rows]; symmetry.
  - apply find_map_unchanged.
    + intros r.
      destruct (progress_key (LearningProgress.package_name progress)
                  (LearningProgress.topic progress) r); reflexivity.
    + intros r Hr.
      destruct (progress_key (LearningProgress.package_name progress)
                  (LearningProgress.topic progress) r) eqn:Ek; [|reflexivity].
      rewrite (Hmiss r Ek) in Hr. discriminate.
  - apply find_app_miss. apply Hmiss. apply progress_key_iff. reflexivity.
Qed.

Lemma X9_witness :
  fits_int64 (LearningProgress.total_time_seconds first_report) = true
  /\ exists db' i,
       upsert_progress (healthy cached_db) first_report sample_clock
       = Ok (healthy db', i)
       /\ (forall q u,
             (q, u) <> ("docker", "basics") ->
             get_progress (healthy db') q u = get_progress (healthy cached_db) q u)
       /\ quiz_results db' = quiz_results cached_db
       /\ student_profile db' = student_profile cached_db
       /\ lesson_cache db' = lesson_cache cached_db.
Proof.
  split; [reflexivity|].
  exact (proj1 (X9_upsert_leaves_other_pairs cached_db first_report sample_clock)
           eq_refl).
Defined.

Lemma sum_flags_count (l : list ProgressRow.t) :
  fold_left Z.add (map (fun row => if ProgressRow.completed row then 1 else 0) l) 0
  = sql_count (filter ProgressRow.completed l).
Proof.
  unfold sql_count.
  assert (G : forall acc,
             fold_left Z.add
               (map (fun row => if ProgressRow.completed row then 1 else 0) l) acc
             = acc + Z.of_nat (List.length (filter ProgressRow.completed l))).
  { induction l as [|a l IH]; intros acc; simpl; [lia|].
    rewrite IH. destruct (ProgressRow.completed a); simpl List.length; lia. }
  rewrite G. lia.
Qed.

Lemma int_or_zero (n : Z) : int_or (Some n) 0 = n.
Proof.
  unfold int_or. destruct (n =? 0) eqn:E; [|reflexivity].
  apply Z.eqb_eq in E. congruence.
Qed.

Lemma sql_sum_or_zero (l : list Z) : int_or (sql_sum l) 0 = fold_left Z.add l 0.
Proof. destruct l as [|a l]; [reflexivity|]. unfold sql_sum. apply int_or_zero. Qed.

Lemma fold_left_add_acc (l : list Z) (acc : Z) :
  fold_left Z.add l acc = acc + fold_left Z.add l 0.
Proof.
  revert acc. induction l as [|n l IH]; intros acc; simpl; [lia|].
  rewrite (IH (acc + n)), (IH n). lia.
Qed.

Lemma fold_left_add_nonneg (l : list Z) :
  Forall (fun n => 0 <= n) l -> 0 <= fold_left Z.add l 0.
Proof.
  induction 1 as [|n l Hn _ IH]; simpl; [lia|].
  rewrite fold_left_add_acc. lia.
Qed.

(** On times that are not negative the order of the rows does not matter:
    the sum overflows exactly when the total does. *)
Lemma sum_int64_nonneg (l : list Z) (acc : Z) :
  0 <= acc -> fits_int64 acc = true -> Forall (fun n => 0 <= n) l ->
  sum_int64 acc l
  = if fits_int64 (acc + fold_left Z.add l 0)
    then Ok (acc + fold_left Z.add l 0)
    else Raise integer_overflow.
Proof.
  intros Hacc Hfit Hl. revert acc Hacc Hfit.
  induction Hl as [|n l Hn Hl IH]; intros acc Hacc Hfit; simpl.
  - rewrite Z.add_0_r, Hfit. reflexivity.
  - rewrite (fold_left_add_acc l n).
    pose proof (fold_left_add_nonneg l Hl) as Hsum.
    destruct (fits_int64 (acc + n)) eqn:E.
    + rewrite IH by (lia || exact E). rewrite Z.add_assoc. reflexivity.
    + replace (fits_int64 (acc + (n + fold_left Z.add l 0))) with false;
        [reflexivity|].
      symmetry. unfold fits_int64, INT64_MIN, INT64_MAX in *.
      apply andb_false_iff in E. apply andb_false_iff.
      destruct E as [E|E]; [apply Z.leb_gt in E; lia|].
      right. apply Z.leb_gt in E. apply Z.leb_gt. lia.
Qed.

(** X10: the statistics of a package count its rows: [total] is their
    number, [completed] the number of completed ones, so that
    0 <= completed <= total, and [total_time_seconds] is the sum of their
    times.  The times are not negative; when their sum does not fit a
    64-bit INTEGER the call raises SQLite's "integer overflow" instead. *)
Theorem X10_stats_count_rows (db : database) (package_name : string) :
  let selected :=
    filter (progress_of_package package_name) (rows (learning_progress db)) in
  let time := fold_left Z.add (map ProgressRow.total_time_seconds selected) 0 in
  Forall (fun row => 0 <= ProgressRow.total_time_seconds row) selected ->
  (fits_int64 time = true ->
   exists stats,
     get_completion_stats (healthy db) package_name = Ok stats
     /\ Stats.total stats = sql_count selected
     /\ Stats.completed stats = sql_count (filter ProgressRow.completed selected)
     /\ 0 <= Stats.completed stats <= Stats.total stats
     /\ Stats.total_time_seconds stats = time)
  /\ (fits_int64 time = false ->
      get_completion_stats (healthy db) package_name
      = Raise (OperationalError "integer overflow")).
Proof.
  intros selected time Hnonneg.
  assert (Hsum : sql_sum_int64 (map ProgressRow.total_time_seconds selected)
                 = if fits_int64 time
                   then Ok (sql_sum (map ProgressRow.total_time_seconds selected))
                   else Raise integer_overflow).
  { assert (Hl : Forall (fun n => 0 <= n)
                   (map ProgressRow.total_time_seconds selected)).
    { apply Forall_forall. intros n Hn. apply in_map_iff in Hn.
      destruct Hn as (row & <- & Hin). rewrite Forall_forall in Hnonneg.
      apply Hnonneg. exact Hin. }
    unfold sql_sum_int64, sql_sum. subst time.
    destruct (map ProgressRow.total_time_seconds selected) as [|n l] eqn:El;
      [reflexivity|].
    rewrite (sum_int64_nonneg (n :: l) 0) by (lia || reflexivity || exact Hl).
    rewrite Z.add_0_l. destruct (fits_int64 _); reflexivity. }
  unfold get_completion_stats.
  cbn [healthy _get_connection fault file bind]. fold selected. rewrite Hsum.
  split; intros Hfit; rewrite Hfit; cbn [bind]; [|reflexivity].
  eexists. split; [reflexivity|].
  cbn [Stats.total Stats.completed Stats.total_time_seconds].
  rewrite !sql_sum_or_zero, int_or_zero, sum_flags_count.
  split; [reflexivity|]. split; [reflexivity|]. split; [|reflexivity].
  unfold sql_count. split; [lia|].
  apply inj_le. clear. induction selected as [|a l IH]; simpl; [lia|].
  destruct (ProgressRow.completed a); simpl; lia.
Qed.

Lemma X10_witness :
  Forall (fun row => 0 <= ProgressRow.total_time_seconds row)
    (filter (progress_of_package "docker") (rows (learning_progress timed_db)))
  /\ fits_int64 120 = true
  /\ exists stats,
       get_completion_stats (healthy timed_db) "docker" = Ok stats
       /\ Stats.total stats = 1
       /\ Stats.completed stats = 0
       /\ 0 <= Stats.completed stats <= Stats.total stats
       /\ Stats.total_time_seconds stats = 120.
Proof.
  assert (H : Forall (fun row => 0 <= ProgressRow.total_time_seconds row)
                (filter (progress_of_package "docker")
                   (rows (learning_progress timed_db)))).
  { constructor; [simpl; lia|constructor]. }
  split; [exact H|]. split; [reflexivity|].
  exact (proj1 (X10_stats_count_rows timed_db "docker" H) eq_refl).
Defined.

(** X11: after [reset_progress] of a named package nothing of it can be
    read: every topic of it reads as absent, its listing is empty, its
    statistics are all zero and it is no longer listed as studied. *)
Theorem X11_reset_package_reads_empty (db : database) (A : string) :
  A <> "" ->
  exists db' n,
    reset_progress (healthy db) (Some A) = Ok (healthy db', n)
    /\ (forall topic, get_progress (healthy db') A topic = Ok None)
    /\ get_all_progress (healthy db') (Some A) = Ok []
    /\ get_completion_stats (healthy db') A = Ok (Stats.mk 0 0 0%float 0)
    /\ (forall packages,
          get_packages_studied (healthy db') = Ok packages -> ~ In A packages).
Proof.
  intros HA.
  assert (TA : str_truthy A = true) by (destruct A; [contradiction|reflexivity]).
  eexists. eexists. unfold reset_progress.
  cbn [healthy _get_connection fault file bind commit]. rewrite TA.
  split; [reflexivity|].
  set (kept := filter (fun row => negb (progress_of_package A row))
                 (rows (learning_progress db))).
  assert (Hnone : filter (progress_of_package A) kept = [])
    by apply filter_negb_self.
  split; [|split; [|split]].
  - intros topic. unfold get_progress.
    cbn [healthy _get_connection fault file bind set_learning_progress
         learning_progress rows]. fold kept.
    rewrite find_none_all; [reflexivity|].
    intros x Hx. unfold progress_key.
    destruct (String.eqb (ProgressRow.package_name x) A) eqn:E; [|reflexivity].
    exfalso.
    assert (Hin : In x (filter (progress_of_package A) kept))
      by (apply filter_In; split; [exact Hx|exact E]).
    rewrite Hnone in Hin. exact Hin.
  - unfold get_all_progress.
    cbn [healthy _get_connection fault file bind set_learning_progress
         learning_progress rows]. fold kept. rewrite TA, Hnone. reflexivity.
  - unfold get_completion_stats.
    cbn [healthy _get_connection fault file bind set_learning_progress
         learning_progress rows]. fold kept. rewrite Hnone. reflexivity.
  - intros packages. unfold get_packages_studied.
    cbn [healthy _get_connection fault file bind set_learning_progress
         learning_progress rows]. fold kept.
    intros E. inversion E; subst. intros Hin.
    apply (Permutation_in _ (sort_by_perm String.leb _)) in Hin.
    apply nodup_In in Hin. apply in_map_iff in Hin.
    destruct Hin as (row & Erow & Hrow).
    assert (Hin : In row (filter (progress_of_package A) kept)).
    { apply filter_In. split; [exact Hrow|]. unfold progress_of_package.
      rewrite Erow. apply String.eqb_refl. }
    rewrite Hnone in Hin. exact Hin.
Qed.

Lemma X11_witness :
  "docker" <> ""
  /\ exists db' n,
       reset_progress (healthy timed_db) (Some "docker") = Ok (healthy db', n)
       /\ get_progress (healthy db') "docker" "basics" = Ok None
       /\ get_completion_stats (healthy db') "docker" = Ok (Stats.mk 0 0 0%float 0).
Proof.
  assert (H : "docker" <> "") by discriminate.
  split; [exact H|].
  destruct (X11_reset_package_reads_empty timed_db "docker" H)
    as (db' & n & E & Hget & _ & Hstats & _).
  exists db', n. split; [exact E|]. split; [apply Hget|exact Hstats].
Defined.

(** * Further properties of the tool layer *)

(** ** The loader's cache methods *)

Lemma truthy_string (s : string) : s <> "" -> str_truthy s = true.
Proof. destruct s; [contradiction|reflexivity]. Qed.

Lemma insert_or_update_cache_other (t : table CacheRow.t) (p other : string)
    (content : json_text) (expires_at current now : string) :
  other <> p ->
  find (cache_live other now)
       (rows (insert_or_update_cache t p content expires_at current))
  = find (cache_live other now) (rows t).
Proof.
  intros Hother.
  assert (Hmiss : forall r, CacheRow.package_name r = p ->
                            cache_live other now r = false).
  { intros r Hr. unfold cache_live, cache_of_package. rewrite Hr.
    replace (String.eqb p other) with false
      by (symmetry; apply String.eqb_neq; congruence).
    reflexivity. }
  unfold insert_or_update_cache. cbv zeta.
  destruct (existsb (cache_of_package p) (rows t)); cbn [rows].
  - apply find_map_unchanged.
    + intros r. destruct (cache_of_package p r) eqn:Ep; [|reflexivity].
      apply cache_of_package_iff in Ep.
      rewrite (Hmiss r Ep). apply Hmiss. exact Ep.
    + intros r Hr. destruct (cache_of_package p r) eqn:Ep; [|reflexivity].
      apply cache_of_package_iff in Ep. rewrite (Hmiss r Ep) in Hr.
      discriminate.
  - apply find_app_miss. apply Hmiss. reflexivity.
Qed.

(** X12: [clear_cache] of a named package reports one entry cleared, and
    from then on [_run] for that package is a cache miss whatever the time
    of the read, because the entry left behind holds an empty lesson;
    [_run] for every other package answers as before. *)
Theorem X12_clear_cache_then_miss (db : database) (package_name : string)
    (clock : datetime) :
  package_name <> "" -> valid clock ->
  exists db',
    LessonLoaderToolCache.clear_cache (LessonLoaderTool.mk (healthy db))
      (Some package_name) clock
    = Ok (LessonLoaderTool.mk (healthy db'), 1)
    /\ (forall read,
          LessonLoaderTool._run (LessonLoaderTool.mk (healthy db')) package_name
            false read
          = Ok (VDict [("success", VBool true); ("cache_hit", VBool false);
                       ("lesson", VNone);
                       ("reason", VStr "No valid cache found")]))
    /\ (forall other read,
          other <> package_name ->
          LessonLoaderTool._run (LessonLoaderTool.mk (healthy db')) other false read
          = LessonLoaderTool._run (LessonLoaderTool.mk (healthy db)) other false
              read).
Proof.
  intros Hne Hv. eexists.
  unfold LessonLoaderToolCache.clear_cache.
  cbn [opt_str_truthy unwrap LessonLoaderTool.store].
  rewrite (truthy_string _ Hne).
  unfold cache_lesson. rewrite (add_hours_0 clock Hv).
  cbn [healthy _get_connection fault file bind commit].
  split; [reflexivity|]. split.
  - intros read. unfold LessonLoaderTool._run, get_cached_lesson.
    cbn [LessonLoaderTool.store healthy _get_connection fault file bind
         set_lesson_cache lesson_cache].
    destruct (find _ _) as [row|] eqn:Ef; [|reflexivity].
    apply find_some in Ef. destruct Ef as [Hin Hlive].
    unfold cache_live in Hlive. apply andb_true_iff in Hlive.
    destruct Hlive as [Hp _]. apply cache_of_package_iff in Hp.
    destruct (insert_or_update_cache_content (lesson_cache db) package_name
                (json_dumps (VDict [])) (isoformat clock)
                (current_timestamp clock)) as [_ Hcontent].
    rewrite (Hcontent row Hin Hp). reflexivity.
  - intros other read Hother.
    unfold LessonLoaderTool._run, get_cached_lesson.
    cbn [LessonLoaderTool.store healthy _get_connection fault file bind
         set_lesson_cache lesson_cache].
    rewrite insert_or_update_cache_other by exact Hother. reflexivity.
Qed.

Lemma X12_witness :
  "nginx" <> "" /\ valid sample_clock
  /\ exists db',
       LessonLoaderToolCache.clear_cache (LessonLoaderTool.mk (healthy cached_db))
         (Some "nginx") sample_clock
       = Ok (LessonLoaderTool.mk (healthy db'), 1)
       /\ LessonLoaderTool._run (LessonLoaderTool.mk (healthy db')) "nginx"
            false sample_clock
          = Ok (VDict [("success", VBool true); ("cache_hit", VBool false);
                       ("lesson", VNone);
                       ("reason", VStr "No valid cache found")]).
Proof.
  assert (H : "nginx" <> "") by discriminate.
  split; [exact H|]. split; [exact valid_sample_clock|].
  destruct (X12_clear_cache_then_miss cached_db "nginx" sample_clock H
              valid_sample_clock) as (db' & E & Hmiss & _).
  exists db'. split; [exact E|apply Hmiss].
Defined.

(** X13: [clear_cache] without a package (or with the empty name) is the
    expiry sweep and returns its count; it has no handler of its own, so a
    storage error is raised to the caller, whereas with a package the error
    is swallowed and 0 is returned. *)
Theorem X13_clear_cache_sweeps_or_swallows (db : database) (clock : datetime) :
  (forall name,
     name = None \/ name = Some "" ->
     LessonLoaderToolCache.clear_cache (LessonLoaderTool.mk (healthy db)) name clock
     = ('(s, n) <- clear_expired_cache (healthy db) clock ;;
        Ok (LessonLoaderTool.mk s, n))
     /\ exists db',
          LessonLoaderToolCache.clear_cache (LessonLoaderTool.mk (healthy db))
            name clock
          = Ok (LessonLoaderTool.mk (healthy db'),
                sql_count (filter (cache_expired (isoformat clock))
                             (rows (lesson_cache db)))))
  /\ (forall e,
        LessonLoaderToolCache.clear_cache (LessonLoaderTool.mk (broken db e))
          None clock = Raise e)
  /\ (forall e package_name,
        package_name <> "" -> valid clock ->
        LessonLoaderToolCache.clear_cache (LessonLoaderTool.mk (broken db e))
          (Some package_name) clock
        = Ok (LessonLoaderTool.mk (broken db e), 0)).
Proof.
  split; [|split].
  - intros name [->| ->]; (split; [reflexivity|]); eexists; reflexivity.
  - intros e. reflexivity.
  - intros e package_name Hne Hv.
    unfold LessonLoaderToolCache.clear_cache.
    cbn [opt_str_truthy unwrap LessonLoaderTool.store].
    rewrite (truthy_string _ Hne).
    unfold cache_lesson. rewrite (add_hours_0 clock Hv). reflexivity.
Qed.

Lemma X13_witness :
  "nginx" <> "" /\ valid sample_clock
  /\ LessonLoaderToolCache.clear_cache
       (LessonLoaderTool.mk (broken cached_db unavailable)) (Some "nginx")
       sample_clock
     = Ok (LessonLoaderTool.mk (broken cached_db unavailable), 0).
Proof.
  assert (H : "nginx" <> "") by discriminate.
  split; [exact H|]. split; [exact valid_sample_clock|].
  exact (proj2 (proj2 (X13_clear_cache_sweeps_or_swallows cached_db sample_clock))
           unavailable "nginx" H valid_sample_clock).
Defined.



(** ** The progress tracker's dispatcher *)

(** X15: the actions that only read ("get_progress", "get_all_progress",
    "get_stats", "get_packages") and every unknown action leave the store
    exactly as it was, on a working store and on a failing one. *)
Theorem X15_reading_actions_keep_the_store (self : ProgressTrackerTool.t)
    (action : string) (package_name topic : option string) (score : option float)
    (time_seconds : option Z) (kwargs : ProgressTrackerTool.Kwargs)
    (clock : datetime) :
  ~ In action ["mark_completed"; "update_progress"; "get_profile";
               "update_profile"; "add_mastered"; "add_weak"; "reset"] ->
  exists v,
    ProgressTrackerTool._run self action package_name topic score time_seconds
      kwargs clock
    = Ok (self, v).
Proof.
  intros Hread.
  unfold ProgressTrackerTool._run, ProgressTrackerTool.actions,
    ProgressTrackerTool.lookup.
  repeat (match goal with
          | |- context [String.eqb action ?k] =>
              destruct (String.eqb action k) eqn:?
          end);
    try (eexists; reflexivity);
    try (exfalso; apply Hread;
         match goal with
         | H : String.eqb action _ = true |- _ =>
             apply String.eqb_eq in H; rewrite H; simpl; tauto
         end).
  - unfold ProgressTrackerTool._get_progress.
    destruct (negb (opt_str_truthy package_name) || negb (opt_str_truthy topic));
      [eexists; reflexivity|].
    destruct (get_progress _ _ _) as [[progress|]|e]; eexists; reflexivity.
  - unfold ProgressTrackerTool._get_all_progress.
    destruct (get_all_progress _ _) as [l|e]; eexists; reflexivity.
  - unfold ProgressTrackerTool._get_stats.
    destruct (negb (opt_str_truthy package_name)); [eexists; reflexivity|].
    destruct (get_completion_stats _ _) as [stats|e]; eexists; reflexivity.
  - unfold ProgressTrackerTool._get_packages_studied.
    destruct (get_packages_studied _) as [l|e]; eexists; reflexivity.
Qed.

Lemma X15_witness :
  ~ In "get_stats" ["mark_completed"; "update_progress"; "get_profile";
                    "update_profile"; "add_mastered"; "add_weak"; "reset"]
  /\ exists v,
       ProgressTrackerTool._run (ProgressTrackerTool.mk (healthy timed_db))
         "get_stats" (Some "docker") None None None ProgressTrackerTool.no_kwargs
         sample_clock
       = Ok (ProgressTrackerTool.mk (healthy timed_db), v).
Proof.
  assert (H : ~ In "get_stats" ["mark_completed"; "update_progress"; "get_profile";
                                "update_profile"; "add_mastered"; "add_weak";
                                "reset"]).
  { simpl. intros H. repeat (destruct H as [H|H]; [discriminate H|]). exact H. }
  split; [exact H|].
  exact (X15_reading_actions_keep_the_store
           (ProgressTrackerTool.mk (healthy timed_db)) "get_stats" (Some "docker")
           None None None ProgressTrackerTool.no_kwargs sample_clock H).
Defined.

(** X16: a call that lacks a required argument is refused before the store
    is touched, so the answer is the same on a working and on a failing
    store: the three per-topic actions need a non-empty package and topic,
    "get_stats" a non-empty package, and the two concept actions a
    non-empty concept. *)
Theorem X16_missing_arguments_refused (self : ProgressTrackerTool.t)
    (package_name topic : option string) (score : option float)
    (time_seconds : option Z) (kwargs : ProgressTrackerTool.Kwargs)
    (clock : datetime) :
  (forall action,
     In action ["get_progress"; "mark_completed"; "update_progress"] ->
     opt_str_truthy package_name = false \/ opt_str_truthy topic = false ->
     ProgressTrackerTool._run self action package_name topic score time_seconds
       kwargs clock
     = Ok (self, ProgressTrackerTool.failure "package_name and topic required"))
  /\ (opt_str_truthy package_name = false ->
      ProgressTrackerTool._run self "get_stats" package_name topic score
        time_seconds kwargs clock
      = Ok (self, ProgressTrackerTool.failure "package_name required"))
  /\ (forall action,
        In action ["add_mastered"; "add_weak"] ->
        opt_str_truthy (ProgressTrackerTool.concept kwargs) = false ->
        ProgressTrackerTool._run self action package_name topic score
          time_seconds kwargs clock
        = Ok (self, ProgressTrackerTool.failure "concept required")).
Proof.
  split; [|split].
  - intros action Hin Hmissing.
    assert (Hguard : negb (opt_str_truthy package_name)
                     || negb (opt_str_truthy topic) = true).
    { destruct Hmissing as [-> | ->]; [reflexivity|apply orb_true_r]. }
    simpl in Hin.
    destruct Hin as [<-|[<-|[<-|[]]]];
      unfold ProgressTrackerTool._run; cbn [ProgressTrackerTool.lookup
        ProgressTrackerTool.actions String.eqb Ascii.eqb Bool.eqb];
      unfold ProgressTrackerTool._get_progress,
        ProgressTrackerTool._mark_completed,
        ProgressTrackerTool._update_progress;
      rewrite Hguard; reflexivity.
  - intros Hmissing.
    unfold ProgressTrackerTool._run. cbn [ProgressTrackerTool.lookup
      ProgressTrackerTool.actions String.eqb Ascii.eqb Bool.eqb].
    unfold ProgressTrackerTool._get_stats. rewrite Hmissing. reflexivity.
  - intros action Hin Hmissing. simpl in Hin.
    destruct Hin as [<-|[<-|[]]];
      unfold ProgressTrackerTool._run; cbn [ProgressTrackerTool.lookup
        ProgressTrackerTool.actions String.eqb Ascii.eqb Bool.eqb];
      unfold ProgressTrackerTool._add_mastered_concept,
        ProgressTrackerTool._add_weak_concept;
      rewrite Hmissing; reflexivity.
Qed.

Lemma X16_witness :
  In "update_progress" ["get_progress"; "mark_completed"; "update_progress"]
  /\ (opt_str_truthy (Some "docker") = false \/ opt_str_truthy (Some "") = false)
  /\ ProgressTrackerTool._run
       (ProgressTrackerTool.mk (broken timed_db unavailable)) "update_progress"
       (Some "docker") (Some "") None (Some 30) ProgressTrackerTool.no_kwargs
       sample_clock
     = Ok (ProgressTrackerTool.mk (broken timed_db unavailable),
           ProgressTrackerTool.failure "package_name and topic required").
Proof.
  assert (H1 : In "update_progress"
                 ["get_progress"; "mark_completed"; "update_progress"])
    by (simpl; tauto).
  assert (H2 : opt_str_truthy (Some "docker") = false
               \/ opt_str_truthy (Some "") = false) by (right; reflexivity).
  split; [exact H1|]. split; [exact H2|].
  exact (proj1 (X16_missing_arguments_refused
                  (ProgressTrackerTool.mk (broken timed_db unavailable))
                  (Some "docker") (Some "") None (Some 30)
                  ProgressTrackerTool.no_kwargs sample_clock)
           "update_progress" H1 H2).
Defined.

Lemma update_progress_step (db : database) (p t : string) (score : option float)
    (time_seconds : option Z) (completed : option bool) (clock : datetime)
    (prior : option LearningProgress.t) :
  p <> "" -> t <> "" ->
  get_progress (healthy db) p t = Ok prior ->
  let total :=
    match prior with
    | Some e => LearningProgress.total_time_seconds e
    | None => 0
    end + match time_seconds with Some n => n | None => 0 end in
  fits_int64 total = true ->
  exists db' row_id j,
    ProgressTrackerTool._update_progress (ProgressTrackerTool.mk (healthy db))
      (Some p) (Some t) score time_seconds completed clock
    = Ok (ProgressTrackerTool.mk (healthy db'),
          VDict [("success", VBool true); ("row_id", VInt row_id);
                 ("total_time_seconds", VInt total)])
    /\ get_progress (healthy db') p t
       = Ok (Some (LearningProgress.mk (Some j) p t
                     match completed, prior with
                     | Some c, _ => c
                     | None, Some e => LearningProgress.completed e
                     | None, None => false
                     end
                     (sql_real
                        match score, prior with
                        | Some x, _ => x
                        | None, Some e => LearningProgress.score e
                        | None, None => 0%float
                        end)
                     (Some (isoformat clock)) total)).
Proof.
  intros Hp Ht Hprior total Hfit.
  unfold ProgressTrackerTool._update_progress.
  cbn [opt_str_truthy unwrap ProgressTrackerTool.store].
  rewrite (truthy_string p Hp), (truthy_string t Ht). cbn [negb orb].
  rewrite Hprior. cbn [bind].
  assert (Hinc : int_or time_seconds 0
                 = match time_seconds with Some n => n | None => 0 end).
  { destruct time_seconds as [n|]; [apply int_or_zero|reflexivity]. }
  rewrite Hinc. fold total.
  match goal with
  | |- context [upsert_progress _ ?pr _] =>
      destruct (upsert_progress_then_get db pr clock Hfit)
        as (db' & i & j & Eu & Eg)
  end.
  cbn [LearningProgress.package_name LearningProgress.topic
       LearningProgress.completed LearningProgress.score
       LearningProgress.total_time_seconds] in Eg.
  exists db', i, j. rewrite Eu. cbn [bind]. split; [reflexivity|].
  rewrite Eg. destruct completed, score, prior; reflexivity.
Qed.

Lemma get_progress_well_typed (db : database) (p t : string)
    (e : LearningProgress.t) :
  well_typed_progress db ->
  get_progress (healthy db) p t = Ok (Some e) ->
  sql_real (LearningProgress.score e) = LearningProgress.score e.
Proof.
  intros Hwt. unfold get_progress. cbn [healthy _get_connection fault file bind].
  destruct (find (progress_key p t) (rows (learning_progress db))) as [row|] eqn:Ef;
    [|discriminate].
  intros E. injection E as <-. cbn [progress_of_row LearningProgress.score].
  apply find_some_in in Ef. unfold well_typed_progress in Hwt.
  rewrite Forall_forall in Hwt. destruct (Hwt row Ef) as [[_ Hs] _]. exact Hs.
Qed.

(** X17: time reported through "update_progress" accumulates: two updates
    reporting [t1] and then [t2] seconds, with no score and no completion
    flag, leave the total at the earlier total plus [t1 + t2] (the second
    answer reports that total) and leave completed and score as they were
    (false and 0.0 for a new topic).  The table holds what SQLite can hold
    and both new totals fit a 64-bit INTEGER. *)
Theorem X17_reported_time_accumulates (db : database) (p t : string) (t1 t2 : Z)
    (clock1 clock2 : datetime) (prior : option LearningProgress.t) :
  p <> "" -> t <> "" ->
  well_typed_progress db ->
  get_progress (healthy db) p t = Ok prior ->
  let before :=
    match prior with
    | Some e => LearningProgress.total_time_seconds e
    | None => 0
    end in
  fits_int64 (before + t1) = true ->
  fits_int64 (before + t1 + t2) = true ->
  exists db1 v1 db2 row_id stored,
    ProgressTrackerTool._run (ProgressTrackerTool.mk (healthy db))
      "update_progress" (Some p) (Some t) None (Some t1)
      ProgressTrackerTool.no_kwargs clock1
    = Ok (ProgressTrackerTool.mk (healthy db1), v1)
    /\ ProgressTrackerTool._run (ProgressTrackerTool.mk (healthy db1))
         "update_progress" (Some p) (Some t) None (Some t2)
         ProgressTrackerTool.no_kwargs clock2
       = Ok (ProgressTrackerTool.mk (healthy db2),
             VDict [("success", VBool true); ("row_id", VInt row_id);
                    ("total_time_seconds", VInt (before + t1 + t2))])
    /\ get_progress (healthy db2) p t = Ok (Some stored)
    /\ LearningProgress.total_time_seconds stored = before + t1 + t2
    /\ LearningProgress.completed stored
       = match prior with
         | Some e => LearningProgress.completed e
         | None => false
         end
    /\ LearningProgress.score stored
       = match prior with
         | Some e => LearningProgress.score e
         | None => 0%float
         end.
Proof.
  intros Hp Ht Hwt Hprior before Hfit1 Hfit2.
  destruct (update_progress_step db p t None (Some t1) None clock1 prior Hp Ht
              Hprior Hfit1) as (db1 & id1 & j1 & E1 & G1).
  destruct (update_progress_step db1 p t None (Some t2) None clock2 _ Hp Ht G1
              Hfit2) as (db2 & id2 & j2 & E2 & G2).
  cbn [LearningProgress.total_time_seconds LearningProgress.completed
       LearningProgress.score] in E2, G2.
  exists db1. eexists. exists db2, id2. eexists.
  unfold ProgressTrackerTool._run.
  cbn [ProgressTrackerTool.lookup ProgressTrackerTool.actions String.eqb
       Ascii.eqb Bool.eqb ProgressTrackerTool.completed
       ProgressTrackerTool.no_kwargs].
  rewrite E1, E2.
  split; [reflexivity|]. split; [reflexivity|]. split; [exact G2|].
  cbn [LearningProgress.total_time_seconds LearningProgress.completed
       LearningProgress.score].
  split; [reflexivity|]. split; [destruct prior; reflexivity|].
  rewrite sql_real_idempotent. destruct prior as [e|]; [|reflexivity].
  apply (get_progress_well_typed db p t e Hwt Hprior).
Qed.

Lemma X17_witness :
  "docker" <> "" /\ "basics" <> ""
  /\ well_typed_progress timed_db
  /\ get_progress (healthy timed_db) "docker" "basics"
     = Ok (Some (LearningProgress.mk (Some 1) "docker" "basics" false 0.5%float
                   (Some "2024-03-01T10:00:00+00:00") 120))
  /\ fits_int64 (120 + 30) = true
  /\ fits_int64 (120 + 30 + 45) = true
  /\ exists db1 v1 db2 row_id stored,
       ProgressTrackerTool._run (ProgressTrackerTool.mk (healthy timed_db))
         "update_progress" (Some "docker") (Some "basics") None (Some 30)
         ProgressTrackerTool.no_kwargs sample_clock
       = Ok (ProgressTrackerTool.mk (healthy db1), v1)
       /\ ProgressTrackerTool._run (ProgressTrackerTool.mk (healthy db1))
            "update_progress" (Some "docker") (Some "basics") None (Some 45)
            ProgressTrackerTool.no_kwargs later_clock
          = Ok (ProgressTrackerTool.mk (healthy db2),
                VDict [("success", VBool true); ("row_id", VInt row_id);
                       ("total_time_seconds", VInt (120 + 30 + 45))])
       /\ get_progress (healthy db2) "docker" "basics" = Ok (Some stored)
       /\ LearningProgress.total_time_seconds stored = 120 + 30 + 45
       /\ LearningProgress.completed stored = false
       /\ LearningProgress.score stored = 0.5%float.
Proof.
  assert (H1 : "docker" <> "") by discriminate.
  assert (H2 : "basics" <> "") by discriminate.
  split; [exact H1|]. split; [exact H2|].
  split; [exact well_typed_timed_db|]. split; [reflexivity|].
  split; [reflexivity|]. split; [reflexivity|].
  exact (X17_reported_time_accumulates timed_db "docker" "basics" 30 45
           sample_clock later_clock _ H1 H2 well_typed_timed_db eq_refl
           eq_refl eq_refl).
Defined.

(** X18: "mark_completed" followed by "get_progress" through [_run] shows
    the topic completed with the score given, or 1.0 when none was given,
    the time of the write as last access, and a total time of 0.  A score
    given is a number (not NaN); the score read back is that score as a REAL
    column keeps it, equal to it as a number. *)
Theorem X18_mark_completed_then_get (db : database) (p t : string)
    (score : option float) (clock read : datetime) :
  p <> "" -> t <> "" ->
  (forall x, score = Some x -> is_nan x = false) ->
  let effective_score := match score with Some x => x | None => 1%float end in
  PrimFloat.eqb (sql_real effective_score) effective_score = true
  /\ exists db',
       ProgressTrackerTool._run (ProgressTrackerTool.mk (healthy db))
         "mark_completed" (Some p) (Some t) score None
         ProgressTrackerTool.no_kwargs clock
       = Ok (ProgressTrackerTool.mk (healthy db'),
             VDict [("success", VBool true);
                    ("message",
                     VStr ("Marked " ++ p ++ "/" ++ t ++ " as completed"));
                    ("score", VFloat effective_score)])
       /\ ProgressTrackerTool._run (ProgressTrackerTool.mk (healthy db'))
            "get_progress" (Some p) (Some t) None None
            ProgressTrackerTool.no_kwargs read
          = Ok (ProgressTrackerTool.mk (healthy db'),
                VDict [("success", VBool true);
                       ("progress",
                        VDict [("package_name", VStr p); ("topic", VStr t);
                               ("completed", VBool true);
                               ("score", VFloat (sql_real effective_score));
                               ("last_accessed", VStr (isoformat clock));
                               ("total_time_seconds", VInt 0)])]).
Proof.
  intros Hp Ht Hnan effective_score.
  split.
  { apply sql_real_eqb. subst effective_score.
    destruct score as [x|]; [apply Hnan; reflexivity|reflexivity]. }
  destruct (mark_topic_completed_then_get db p t effective_score clock)
    as (db' & j & Em & Eg).
  exists db'.
  unfold ProgressTrackerTool._run.
  cbn [ProgressTrackerTool.lookup ProgressTrackerTool.actions String.eqb
       Ascii.eqb Bool.eqb].
  unfold ProgressTrackerTool._mark_completed, ProgressTrackerTool._get_progress.
  cbn [opt_str_truthy unwrap ProgressTrackerTool.store].
  rewrite (truthy_string p Hp), (truthy_string t Ht). cbn [negb orb].
  fold effective_score. rewrite Em, Eg. split; reflexivity.
Qed.

Lemma X18_witness :
  "docker" <> "" /\ "basics" <> ""
  /\ (forall x, Some 0.75%float = Some x -> is_nan x = false)
  /\ PrimFloat.eqb (sql_real 0.75%float) 0.75%float = true
  /\ exists db',
       ProgressTrackerTool._run (ProgressTrackerTool.mk (healthy timed_db))
         "mark_completed" (Some "docker") (Some "basics") (Some 0.75%float) None
         ProgressTrackerTool.no_kwargs sample_clock
       = Ok (ProgressTrackerTool.mk (healthy db'),
             VDict [("success", VBool true);
                    ("message", VStr "Marked docker/basics as completed");
                    ("score", VFloat 0.75%float)])
       /\ ProgressTrackerTool._run (ProgressTrackerTool.mk (healthy db'))
            "get_progress" (Some "docker") (Some "basics") None None
            ProgressTrackerTool.no_kwargs later_clock
          = Ok (ProgressTrackerTool.mk (healthy db'),
                VDict [("success", VBool true);
                       ("progress",
                        VDict [("package_name", VStr "docker");
                               ("topic", VStr "basics");
                               ("completed", VBool true);
                               ("score", VFloat 0.75%float);
                               ("last_accessed", VStr "2024-03-05T07:08:09+00:00");
                               ("total_time_seconds", VInt 0)])]).
Proof.
  assert (H1 : "docker" <> "") by discriminate.
  assert (H2 : "basics" <> "") by discriminate.
  assert (H3 : forall x, Some 0.75%float = Some x -> is_nan x = false).
  { intros x E. injection E as <-. reflexivity. }
  split; [exact H1|]. split; [exact H2|]. split; [exact H3|].
  exact (X18_mark_completed_then_get timed_db "docker" "basics" (Some 0.75%float)
           sample_clock later_clock H1 H2 H3).
Defined.

(** * Further properties of the validators *)

Import InputValidators.

(** ** Stripping *)

Lemma lstrip_no_leading_space (s : pystr) : no_leading_space (lstrip s).
Proof.
  induction s as [|c s IH]; simpl; [exact I|].
  destruct (isspace c) eqn:E; [exact IH|exact E].
Qed.

Lemma lstrip_fixed (s : pystr) : no_leading_space s -> lstrip s = s.
Proof. destruct s as [|c s]; simpl; [reflexivity|]. intros ->. reflexivity. Qed.

Lemma lstrip_suffix (s : pystr) : exists w, s = (w ++ lstrip s)%list.
Proof.
  induction s as [|c s [w IH]]; [exists []; reflexivity|]. simpl.
  destruct (isspace c).
  - exists (c :: w). simpl. rewrite <- IH. reflexivity.
  - exists []. reflexivity.
Qed.

Lemma rstrip_prefix (s : pystr) : exists w, s = (rstrip s ++ w)%list.
Proof.
  unfold rstrip. destruct (lstrip_suffix (rev s)) as [w E].
  exists (rev w). rewrite <- rev_app_distr, <- E, rev_involutive. reflexivity.
Qed.

Lemma rev_rstrip_no_leading_space (s : pystr) : no_leading_space (rev (rstrip s)).
Proof. unfold rstrip. rewrite rev_involutive. apply lstrip_no_leading_space. Qed.

Lemma rstrip_fixed (s : pystr) : no_leading_space (rev s) -> rstrip s = s.
Proof.
  intros H. unfold rstrip. rewrite (lstrip_fixed _ H). apply rev_involutive.
Qed.

Lemma strip_no_leading_space (s : pystr) : no_leading_space (strip s).
Proof.
  unfold strip. pose proof (lstrip_no_leading_space s) as H.
  destruct (rstrip_prefix (lstrip s)) as [w E].
  destruct (rstrip (lstrip s)) as [|c r]; [exact I|].
  rewrite E in H. exact H.
Qed.

Lemma strip_no_trailing_space (s : pystr) : no_leading_space (rev (strip s)).
Proof. unfold strip. apply rev_rstrip_no_leading_space. Qed.

Lemma strip_idempotent (s : pystr) : strip (strip s) = strip s.
Proof.
  unfold strip at 1.
  rewrite (lstrip_fixed _ (strip_no_leading_space s)).
  apply rstrip_fixed. apply strip_no_trailing_space.
Qed.

Lemma strip_empty_iff (s : pystr) :
  is_empty s || is_empty (strip s) = is_empty (strip s).
Proof. destruct s; reflexivity. Qed.

(** X19: white space around an input never changes a verdict: each
    validator answers for a stripped input exactly as for the input itself
    ([strip] is idempotent). *)
Theorem X19_validators_ignore_surrounding_space (s : pystr) :
  strip (strip s) = strip s
  /\ validate_package_name (strip s) = validate_package_name s
  /\ (forall max_length allow_empty,
        validate_input (strip s) max_length allow_empty
        = validate_input s max_length allow_empty)
  /\ validate_question (strip s) = validate_question s
  /\ validate_topic (strip s) = validate_topic s.
Proof.
  pose proof (strip_idempotent s) as Hidem.
  assert (Hin : forall max_length allow_empty,
             validate_input (strip s) max_length allow_empty
             = validate_input s max_length allow_empty).
  { intros max_length allow_empty. unfold validate_input.
    rewrite !strip_empty_iff, Hidem. reflexivity. }
  split; [exact Hidem|]. split; [|split; [exact Hin|split]].
  - unfold validate_package_name.
    change (match strip s with [] => true | _ :: _ => false end
            || match strip (strip s) with [] => true | _ :: _ => false end)
      with (is_empty (strip s) || is_empty (strip (strip s))).
    change (match s with [] => true | _ :: _ => false end
            || match strip s with [] => true | _ :: _ => false end)
      with (is_empty s || is_empty (strip s)).
    rewrite !strip_empty_iff, Hidem. reflexivity.
  - apply Hin.
  - unfold validate_topic. rewrite !strip_empty_iff, Hidem. reflexivity.
Qed.

(** ** Sanitising *)

(** X20: whatever it is given, [sanitize_input] returns a string without
    NUL characters and of at most 1000 characters; [None] and the empty
    string give the empty string. *)
Theorem X20_sanitize_input_bounds (input_text : option pystr) :
  ~ In 0%N (sanitize_input input_text)
  /\ Z.of_nat (List.length (sanitize_input input_text)) <= MAX_INPUT_LENGTH
  /\ sanitize_input None = []
  /\ sanitize_input (Some []) = [].
Proof.
  assert (Hnul : forall l, ~ In 0%N (filter (fun c => negb (c =? 0)%N) l)).
  { intros l Hin. apply filter_In in Hin. destruct Hin as [_ Hc].
    rewrite N.eqb_refl in Hc. discriminate Hc. }
  assert (Hmax : MAX_INPUT_LENGTH = 1000) by reflexivity.
  split; [|split; [|split; reflexivity]].
  - destruct input_text as [s|]; [|intros []].
    unfold sanitize_input. destruct (is_empty s); [intros []|]. cbv zeta.
    destruct (MAX_INPUT_LENGTH <? _); [|apply Hnul].
    intros Hin. apply (Hnul (strip s)).
    rewrite <- (firstn_skipn (Z.to_nat MAX_INPUT_LENGTH)).
    apply in_or_app. left. exact Hin.
  - destruct input_text as [s|]; [|rewrite Hmax; simpl; lia].
    unfold sanitize_input. destruct (is_empty s); [rewrite Hmax; simpl; lia|].
    cbv zeta.
    destruct (MAX_INPUT_LENGTH <? _) eqn:E.
    + rewrite length_firstn. lia.
    + apply Z.ltb_ge in E. exact E.
Qed.

(** ** Accepted package names *)

Lemma many_elim (ic : bool) (cs : charset) (k : pystr -> bool) (s : pystr) :
  many ic cs k s = true ->
  exists a b, s = (a ++ b)%list /\ forallb (cmatch ic cs) a = true /\ k b = true.
Proof.
  induction s as [|c s IH]; simpl; intros H.
  - rewrite orb_false_r in H. exists [], []. auto.
  - apply orb_true_iff in H. destruct H as [H|H].
    + exists [], (c :: s). auto.
    + apply andb_true_iff in H. destruct H as [Hc H].
      destruct (IH H) as (a & b & -> & Ha & Hb).
      exists (c :: a), b. simpl. rewrite Hc, Ha. auto.
Qed.

Lemma many_intro (ic : bool) (cs : charset) (k : pystr -> bool) (a b : pystr) :
  forallb (cmatch ic cs) a = true -> k b = true ->
  many ic cs k (a ++ b)%list = true.
Proof.
  intros Ha Hb. induction a as [|c a IH]; simpl.
  - destruct b; simpl; rewrite Hb; reflexivity.
  - simpl in Ha. apply andb_true_iff in Ha. destruct Ha as [Hc Ha].
    rewrite Hc, (IH Ha). apply orb_true_r.
Qed.

Lemma VALID_PACKAGE_PATTERN_eq :
  VALID_PACKAGE_PATTERN
  = mkPattern true
      [One (Ranges alnum_ranges);
       Many0 (Ranges (alnum_ranges ++ [(0x2E, 0x2E); (0x5F, 0x5F); (0x2D, 0x2D)]%N))]
      true.
Proof. reflexivity. Qed.

Lemma cmatch_alnum (ic : bool) (c : N) :
  cmatch ic (Ranges alnum_ranges) c = ascii_alnum c.
Proof.
  unfold ascii_alnum. simpl. rewrite orb_false_r, orb_assoc. reflexivity.
Qed.

Lemma in_range_point (x c : N) : in_range x x c = (c =? x)%N.
Proof.
  unfold in_range.
  destruct (N.leb_spec x c), (N.leb_spec c x), (N.eqb_spec c x);
    simpl; try reflexivity; lia.
Qed.

Lemma cmatch_name_char (ic : bool) (c : N) :
  cmatch ic
    (Ranges (alnum_ranges ++ [(0x2E, 0x2E); (0x5F, 0x5F); (0x2D, 0x2D)]%N)) c
  = name_char c.
Proof.
  unfold name_char, ascii_alnum. simpl.
  rewrite !in_range_point, orb_false_r, !orb_assoc. reflexivity.
Qed.

Lemma forallb_pointwise {A : Type} (f g : A -> bool) (l : list A) :
  (forall x, f x = g x) -> forallb f l = forallb g l.
Proof.
  intros H. induction l as [|x l IH]; simpl; [reflexivity|].
  rewrite H, IH. reflexivity.
Qed.

Lemma isspace_line_feed : isspace 0x0A = true.
Proof. reflexivity. Qed.

Lemma validate_package_name_true (s : pystr) :
  fst (validate_package_name s) = true ->
  is_empty s || is_empty (strip s) = false
  /\ Z.of_nat (List.length (strip s)) <= MAX_PACKAGE_NAME_LENGTH
  /\ existsb (fun p => re_search true p (strip s)) BLOCKED_PATTERNS = false
  /\ re_match false VALID_PACKAGE_PATTERN (strip s) = true
  /\ validate_package_name s = (true, None).
Proof.
  unfold validate_package_name.
  change (match s with [] => true | _ :: _ => false end
          || match strip s with [] => true | _ :: _ => false end)
    with (is_empty s || is_empty (strip s)).
  destruct (is_empty s || is_empty (strip s)); [discriminate|]. cbv zeta.
  destruct (MAX_PACKAGE_NAME_LENGTH <? _) eqn:El; [discriminate|].
  destruct (existsb _ BLOCKED_PATTERNS) eqn:Eb; [discriminate|].
  destruct (re_match false VALID_PACKAGE_PATTERN (strip s)) eqn:Em;
    [|discriminate].
  intros _. apply Z.ltb_ge in El. auto.
Qed.

Lemma valid_name_shape (n : pystr) :
  no_leading_space (rev n) ->
  re_match false VALID_PACKAGE_PATTERN n = true ->
  exists c r, n = c :: r /\ ascii_alnum c = true /\ forallb name_char r = true.
Proof.
  intros Hend. rewrite VALID_PACKAGE_PATTERN_eq. unfold re_match.
  cbn [body match_items]. destruct n as [|c r]; [discriminate|].
  rewrite cmatch_alnum. intros H. apply andb_true_iff in H.
  destruct H as [Hc H]. apply many_elim in H.
  destruct H as (a & b & -> & Ha & Hb).
  exists c, (a ++ b)%list. split; [reflexivity|]. split; [exact Hc|].
  assert (Hb' : b = []).
  { unfold at_end in Hb. cbn [anchor_end] in Hb.
    destruct b as [|x [|y b]]; [reflexivity| |discriminate].
    apply N.eqb_eq in Hb. subst x. exfalso.
    change (c :: a ++ [10%N])%list with ((c :: a) ++ [10%N])%list in Hend.
    rewrite rev_app_distr in Hend. simpl in Hend. discriminate Hend. }
  subst b. rewrite app_nil_r.
  rewrite <- Ha. apply forallb_pointwise. intros x. symmetry. apply cmatch_name_char.
Qed.

(** X21: a package name is accepted only if, once stripped, it is at most
    100 characters long, starts with an ASCII letter or digit and is made
    of ASCII letters, digits, dots, underscores and hyphens; the error
    message is then [None]. *)
Theorem X21_accepted_name_shape (s : pystr) :
  fst (validate_package_name s) = true ->
  snd (validate_package_name s) = None
  /\ Z.of_nat (List.length (strip s)) <= 100
  /\ exists c r,
       strip s = c :: r /\ ascii_alnum c = true /\ forallb name_char r = true.
Proof.
  intros H. apply validate_package_name_true in H.
  destruct H as (_ & Hl & _ & Hm & ->).
  split; [reflexivity|]. split; [exact Hl|].
  apply valid_name_shape; [apply strip_no_trailing_space|exact Hm].
Qed.

Lemma X21_witness :
  fst (validate_package_name (of_string "  lib-foo_2.0 ")) = true
  /\ (snd (validate_package_name (of_string "  lib-foo_2.0 ")) = None
      /\ Z.of_nat (List.length (strip (of_string "  lib-foo_2.0 "))) <= 100
      /\ exists c r,
           strip (of_string "  lib-foo_2.0 ") = c :: r
           /\ ascii_alnum c = true /\ forallb name_char r = true).
Proof.
  split; [vm_compute; reflexivity|].
  apply (X21_accepted_name_shape (of_string "  lib-foo_2.0 ")).
  vm_compute. reflexivity.
Defined.

(** ** Blocked text *)

Lemma isspace_fold_case (c : N) : isspace c = true -> fold_case c = c.
Proof.
  unfold isspace, fold_case, in_range. intros H.
  repeat (apply orb_true_iff in H; destruct H as [H|H]);
    repeat match goal with
    | H : _ && _ = true |- _ => apply andb_true_iff in H; destruct H
    | H : (_ <=? _)%N = true |- _ => apply N.leb_le in H
    | H : (_ =? _)%N = true |- _ => apply N.eqb_eq in H
    end;
    repeat match goal with
    | |- context [(?a <=? ?b)%N] => destruct (N.leb_spec a b); simpl; try lia
    | |- context [(?a =? ?b)%N] => destruct (N.eqb_spec a b); simpl; try lia
    end.
Qed.

Lemma word_matches (l w b : pystr) :
  map fold_case w = map fold_case l ->
  re_match true (word l) (w ++ b)%list = true.
Proof.
  unfold re_match, word. cbn [body]. revert w.
  induction l as [|c l IH]; intros [|x w] H; try discriminate H.
  - reflexivity.
  - simpl in H. injection H as Hx Hw. cbn [map match_items app cmatch].
    rewrite Hx, N.eqb_refl. simpl. apply IH. exact Hw.
Qed.

Lemma search_from_app (ic : bool) (p : pattern) (a s : pystr) :
  re_match ic p s = true -> search_from ic p (a ++ s)%list = true.
Proof.
  intros H. induction a as [|c a IH]; simpl.
  - destruct s; simpl; rewrite H; reflexivity.
  - rewrite IH. apply orb_true_r.
Qed.

Lemma lstrip_app_keep (a w : pystr) :
  no_leading_space w -> w <> [] ->
  exists a', lstrip (a ++ w)%list = (a' ++ w)%list.
Proof.
  intros Hw Hne. induction a as [|c a [a' IH]].
  - exists []. simpl. apply lstrip_fixed. exact Hw.
  - simpl. destruct (isspace c).
    + exists a'. exact IH.
    + exists (c :: a). reflexivity.
Qed.

Lemma rstrip_app_keep (w b : pystr) :
  no_leading_space (rev w) -> w <> [] ->
  exists b', rstrip (w ++ b)%list = (w ++ b')%list.
Proof.
  intros Hw Hne. unfold rstrip. rewrite rev_app_distr.
  destruct (lstrip_app_keep (rev b) (rev w) Hw) as [b' E].
  { intros E. apply Hne. rewrite <- (rev_involutive w), E. reflexivity. }
  exists (rev b'). rewrite E, rev_app_distr, rev_involutive. reflexivity.
Qed.

Lemma strip_app_keep (a w b : pystr) :
  no_leading_space w -> no_leading_space (rev w) -> w <> [] ->
  exists a' b', strip (a ++ w ++ b)%list = (a' ++ w ++ b')%list.
Proof.
  intros Hl Hr Hne. unfold strip.
  destruct (lstrip_app_keep a (w ++ b)%list) as [a' Ea].
  { destruct w; [contradiction|exact Hl]. }
  { destruct w; [contradiction|discriminate]. }
  rewrite Ea, app_assoc.
  destruct (rstrip_app_keep (a' ++ w)%list b) as [b' Eb].
  { rewrite rev_app_distr. destruct (rev w) eqn:E; [|exact Hr].
    exfalso. apply Hne. rewrite <- (rev_involutive w), E. reflexivity. }
  { destruct a'; [exact Hne|discriminate]. }
  exists a', b'. rewrite Eb, app_assoc. reflexivity.
Qed.

Lemma folded_no_leading_space (w l : pystr) :
  map fold_case w = l -> forallb (fun c => negb (isspace c)) l = true ->
  forallb (fun c => negb (isspace c)) w = true.
Proof.
  intros <-. induction w as [|c w IH]; simpl; [reflexivity|].
  intros H. apply andb_true_iff in H. destruct H as [Hc H].
  rewrite (IH H), andb_true_r.
  destruct (isspace c) eqn:E; [|reflexivity].
  rewrite (isspace_fold_case c E), E in Hc. discriminate Hc.
Qed.

Lemma no_space_ends (w : pystr) :
  forallb (fun c => negb (isspace c)) w = true ->
  no_leading_space w /\ no_leading_space (rev w).
Proof.
  intros H. assert (Hall : forall c, In c w -> isspace c = false).
  { intros c Hc. rewrite forallb_forall in H. specialize (H c Hc).
    apply negb_true_iff in H. exact H. }
  split.
  - destruct w as [|c w]; [exact I|]. apply Hall. left. reflexivity.
  - destruct (rev w) as [|c r] eqn:E; [exact I|]. apply Hall.
    apply in_rev. rewrite E. left. reflexivity.
Qed.

Lemma blocked_words_blocked (lit : string) :
  In lit blocked_words -> In (word (of_string lit)) BLOCKED_PATTERNS.
Proof.
  intros [<-|[<-|[<-|[<-|[]]]]]; vm_compute; tauto.
Qed.

Lemma blocked_words_no_space (lit : string) :
  In lit blocked_words ->
  of_string lit <> []
  /\ map fold_case (of_string lit) = of_string lit
  /\ forallb (fun c => negb (isspace c)) (of_string lit) = true.
Proof.
  intros [<-|[<-|[<-|[<-|[]]]]]; (split; [discriminate|split; reflexivity]).
Qed.

Lemma blocked_word_found (lit : string) (a w b : pystr) :
  In lit blocked_words ->
  map fold_case w = of_string lit ->
  is_empty (a ++ w ++ b)%list || is_empty (strip (a ++ w ++ b)%list) = false
  /\ existsb (fun p => re_search true p (strip (a ++ w ++ b)%list))
       BLOCKED_PATTERNS = true.
Proof.
  intros Hlit Hw.
  destruct (blocked_words_no_space lit Hlit) as (Hne & Hfold & Hsp).
  assert (Hwne : w <> []). { intros ->. apply Hne. rewrite <- Hw. reflexivity. }
  destruct (no_space_ends w (folded_no_leading_space w _ Hw Hsp)) as [Hl Hr].
  destruct (strip_app_keep a w b Hl Hr Hwne) as (a' & b' & E).
  split.
  - rewrite strip_empty_iff, E. destruct a'; [|reflexivity].
    destruct w; [contradiction|reflexivity].
  - apply existsb_exists. exists (word (of_string lit)).
    split; [apply blocked_words_blocked; exact Hlit|].
    rewrite E. unfold re_search. cbn [anchor_start word].
    apply search_from_app. apply word_matches. rewrite Hw, Hfold. reflexivity.
Qed.

(** X22: a text that contains [mkfs.], [__import__], [subprocess] or
    [os.system] anywhere, in any mix of upper and lower case, is refused
    as input, as a question and as a package name, whatever surrounds the
    word and whatever length is allowed. *)
Theorem X22_blocked_words_refused (lit : string) (a w b : pystr)
    (max_length : Z) (allow_empty : bool) :
  In lit blocked_words ->
  map fold_case w = of_string lit ->
  fst (validate_input (a ++ w ++ b)%list max_length allow_empty) = false
  /\ fst (validate_question (a ++ w ++ b)%list) = false
  /\ fst (validate_package_name (a ++ w ++ b)%list) = false.
Proof.
  intros Hlit Hw.
  destruct (blocked_word_found lit a w b Hlit Hw) as [He Hb].
  assert (Hin : forall m ae, fst (validate_input (a ++ w ++ b)%list m ae) = false).
  { intros m ae. unfold validate_input. rewrite He. cbv zeta.
    destruct (m <? _); [reflexivity|]. rewrite Hb. reflexivity. }
  split; [apply Hin|]. split; [apply Hin|].
  unfold validate_package_name.
  change (match (a ++ w ++ b)%list with [] => true | _ :: _ => false end
          || match strip (a ++ w ++ b)%list with [] => true | _ :: _ => false end)
    with (is_empty (a ++ w ++ b)%list || is_empty (strip (a ++ w ++ b)%list)).
  rewrite He. cbv zeta.
  destruct (MAX_PACKAGE_NAME_LENGTH <? _); [reflexivity|].
  rewrite Hb. reflexivity.
Qed.

Lemma X22_witness :
  In "subprocess" blocked_words
  /\ map fold_case (of_string "SubProcess") = of_string "subprocess"
  /\ (fst (validate_input
             (of_string "please import " ++ of_string "SubProcess"
              ++ of_string " for me")%list 1000 false) = false
      /\ fst (validate_question
                (of_string "please import " ++ of_string "SubProcess"
                 ++ of_string " for me")%list) = false
      /\ fst (validate_package_name
                (of_string "please import " ++ of_string "SubProcess"
                 ++ of_string " for me")%list) = false).
Proof.
  split; [simpl; tauto|]. split; [reflexivity|].
  apply (X22_blocked_words_refused "subprocess" (of_string "please import ")
           (of_string "SubProcess") (of_string " for me") 1000 false).
  - simpl; tauto.
  - reflexivity.
Defined.

(** ** One validator against another *)

Lemma name_char_topic_char (c : N) :
  name_char c = true ->
  cmatch false
    (Ranges (alnum_ranges ++ whitespace_ranges
             ++ [(0x2E, 0x2E); (0x5F, 0x5F); (0x2D, 0x2D)]%N)) c = true.
Proof.
  rewrite <- (cmatch_name_char false). cbn [cmatch].
  rewrite !existsb_app. intros H. apply orb_true_iff in H.
  destruct H as [H|H]; rewrite H; rewrite ?orb_true_r; reflexivity.
Qed.

Lemma valid_name_is_topic (n : pystr) :
  no_leading_space (rev n) ->
  re_match false VALID_PACKAGE_PATTERN n = true ->
  re_match false TOPIC_PATTERN n = true.
Proof.
  intros Hend Hm.
  destruct (valid_name_shape n Hend Hm) as (c & r & -> & Hc & Hr).
  unfold re_match, TOPIC_PATTERN. cbn [body match_items].
  rewrite cmatch_alnum, Hc. cbn [andb].
  rewrite <- (app_nil_r r). apply many_intro; [|reflexivity].
  apply forallb_forall. intros x Hx. apply name_char_topic_char.
  rewrite forallb_forall in Hr. apply Hr. exact Hx.
Qed.

(** X23: an accepted package name is also accepted as input under any
    limit of at least 100 characters, as a question and as a topic. *)
Theorem X23_package_name_is_valid_elsewhere (s : pystr) (max_length : Z)
    (allow_empty : bool) :
  fst (validate_package_name s) = true ->
  100 <= max_length ->
  validate_input s max_length allow_empty = (true, None)
  /\ validate_question s = (true, None)
  /\ validate_topic s = (true, None).
Proof.
  intros H Hmax. apply validate_package_name_true in H.
  destruct H as (He & Hl & Hb & Hm & _).
  unfold MAX_PACKAGE_NAME_LENGTH in Hl.
  assert (Hin : forall m ae, 100 <= m -> validate_input s m ae = (true, None)).
  { intros m ae Hm'. unfold validate_input. rewrite He. cbv zeta.
    destruct (Z.ltb_spec m (Z.of_nat (List.length (strip s)))); [lia|].
    rewrite Hb. reflexivity. }
  split; [apply Hin; exact Hmax|]. split.
  - apply Hin. unfold MAX_QUESTION_LENGTH. lia.
  - unfold validate_topic. rewrite He. cbv zeta.
    destruct (Z.ltb_spec 200 (Z.of_nat (List.length (strip s)))); [lia|].
    rewrite (valid_name_is_topic _ (strip_no_trailing_space s) Hm).
    reflexivity.
Qed.

Lemma X23_witness :
  fst (validate_package_name (of_string "python3-pip")) = true
  /\ 100 <= MAX_INPUT_LENGTH
  /\ (validate_input (of_string "python3-pip") MAX_INPUT_LENGTH false = (true, None)
      /\ validate_question (of_string "python3-pip") = (true, None)
      /\ validate_topic (of_string "python3-pip") = (true, None)).
Proof.
  split; [vm_compute; reflexivity|]. split; [unfold MAX_INPUT_LENGTH; lia|].
  apply (X23_package_name_is_valid_elsewhere (of_string "python3-pip")
           MAX_INPUT_LENGTH false).
  - vm_compute. reflexivity.
  - unfold MAX_INPUT_LENGTH. lia.
Defined.

(** ** Validating several inputs at once *)

Lemma errors_of_length {A : Type} (label : string)
    (validate : A -> bool * option string) (x : option A) :
  List.length (errors_of label validate x)
  = if passes validate x then 0%nat else 1%nat.
Proof.
  destruct x as [v|]; simpl; [|reflexivity].
  destruct (validate v) as [[|] e]; reflexivity.
Qed.

(** X24: [validate_all] reports valid exactly when every input that was
    supplied passes its own validator; the error list has one entry for each
    supplied input that fails, so it is empty exactly when the result is
    valid, and with nothing supplied the result is valid. *)
Theorem X24_validate_all_agrees (package_name topic question : option pystr)
    (score : option float) :
  let r := validate_all package_name topic question score in
  is_valid r
  = passes validate_package_name package_name && passes validate_topic topic
    && passes validate_question question && passes validate_score score
  /\ List.length (errors r)
     = ((if passes validate_package_name package_name then 0 else 1)
        + (if passes validate_topic topic then 0 else 1)
        + (if passes validate_question question then 0 else 1)
        + (if passes validate_score score then 0 else 1))%nat
  /\ (is_valid r = true <-> errors r = [])
  /\ is_valid (validate_all None None None None) = true.
Proof.
  cbv zeta. unfold validate_all. cbn [is_valid errors].
  assert (Hlen : List.length
                   (get_validation_errors package_name topic question score)
                 = ((if passes validate_package_name package_name then 0 else 1)
                    + (if passes validate_topic topic then 0 else 1)
                    + (if passes validate_question question then 0 else 1)
                    + (if passes validate_score score then 0 else 1))%nat).
  { unfold get_validation_errors. rewrite !length_app, !errors_of_length. lia. }
  split; [|split; [exact Hlen|split; [|reflexivity]]].
  - rewrite Hlen.
    destruct (passes validate_package_name package_name),
             (passes validate_topic topic),
             (passes validate_question question),
             (passes validate_score score); reflexivity.
  - destruct (get_validation_errors package_name topic question score);
      simpl; split; (reflexivity || discriminate).
Qed.

(** ** Exactly which package names are accepted *)

Lemma starts_with_word (l n : pystr) :
  re_match true (word l) n = starts_with l n.
Proof.
  unfold re_match, word. cbn [body]. revert n.
  induction l as [|x l IH]; intros n; [reflexivity|].
  cbn [map match_items starts_with]. destruct n as [|y n]; [reflexivity|].
  cbn [cmatch]. rewrite IH. reflexivity.
Qed.

Lemma occurs_word (l n : pystr) : re_search true (word l) n = occurs l n.
Proof.
  unfold re_search. cbn [anchor_start word].
  induction n as [|y n IH]; cbn [search_from occurs];
    rewrite starts_with_word; [reflexivity|].
  rewrite IH. reflexivity.
Qed.

Lemma starts_with_spec (l n : pystr) :
  starts_with l n = true <->
  exists w b, n = (w ++ b)%list /\ map fold_case w = map fold_case l.
Proof.
  revert n. induction l as [|x l IH]; intros n; simpl.
  - split; [intros _; exists [], n; auto|reflexivity].
  - destruct n as [|y n].
    + split; [discriminate|]. intros (w & b & E & Hw).
      destruct w; [discriminate Hw|discriminate E].
    + rewrite andb_true_iff, N.eqb_eq, IH. split.
      * intros (Hy & w & b & -> & Hw). exists (y :: w), b. simpl.
        rewrite Hy, Hw. auto.
      * intros (w & b & E & Hw). destruct w as [|y' w]; [discriminate Hw|].
        simpl in E, Hw. injection E as -> ->. injection Hw as Hy Hw.
        split; [exact Hy|]. exists w, b. auto.
Qed.

Lemma occurs_spec (l n : pystr) :
  occurs l n = true <->
  exists a w b, n = (a ++ w ++ b)%list /\ map fold_case w = map fold_case l.
Proof.
  induction n as [|y n IH]; cbn [occurs]; rewrite orb_true_iff, starts_with_spec.
  - split.
    + intros [(w & b & E & Hw)|H]; [|discriminate]. exists [], w, b. auto.
    + intros (a & w & b & E & Hw). left. exists w, b.
      destruct a; [auto|discriminate E].
  - rewrite IH. split.
    + intros [(w & b & E & Hw)|(a & w & b & E & Hw)].
      * exists [], w, b. auto.
      * exists (y :: a), w, b. rewrite E. auto.
    + intros (a & w & b & E & Hw). destruct a as [|y' a].
      * left. exists w, b. auto.
      * right. injection E as -> ->. exists a, w, b. auto.
Qed.

Lemma search_from_elim (ic : bool) (p : pattern) (s : pystr) :
  search_from ic p s = true ->
  exists a b, s = (a ++ b)%list /\ re_match ic p b = true.
Proof.
  induction s as [|c s IH]; simpl; intros H.
  - rewrite orb_false_r in H. exists [], []. auto.
  - apply orb_true_iff in H. destruct H as [H|H].
    + exists [], (c :: s). auto.
    + destruct (IH H) as (a & b & -> & Hb). exists (c :: a), b. auto.
Qed.

Lemma match_items_uses (ic : bool) (cs : charset) (fin : pystr -> bool)
    (p : list item) (s : pystr) :
  match_items ic p fin s = true ->
  In (One cs) p \/ In (Many1 cs) p ->
  exists c, In c s /\ cmatch ic cs c = true.
Proof.
  revert s. induction p as [|it p IH]; intros s Hm Hin.
  - destruct Hin as [[]|[]].
  - assert (Htail : forall s', match_items ic p fin s' = true ->
                      In (One cs) p \/ In (Many1 cs) p ->
                      exists c, In c s' /\ cmatch ic cs c = true)
      by (intros s'; apply IH).
    destruct it as [cs0|cs0|cs0]; cbn [match_items] in Hm.
    + destruct s as [|c s]; [discriminate|].
      apply andb_true_iff in Hm. destruct Hm as [Hc Hm].
      destruct Hin as [[E|Hin]|[E|Hin]]; try discriminate E.
      * injection E as ->. exists c. split; [left; reflexivity|exact Hc].
      * destruct (Htail s Hm (or_introl Hin)) as (c' & Hc' & Hx).
        exists c'. split; [right; exact Hc'|exact Hx].
      * destruct (Htail s Hm (or_intror Hin)) as (c' & Hc' & Hx).
        exists c'. split; [right; exact Hc'|exact Hx].
    + apply many_elim in Hm. destruct Hm as (a & b & -> & _ & Hb).
      assert (Hin' : In (One cs) p \/ In (Many1 cs) p).
      { destruct Hin as [[E|Hin]|[E|Hin]]; try discriminate E; auto. }
      destruct (Htail b Hb Hin') as (c' & Hc' & Hx).
      exists c'. split; [apply in_or_app; right; exact Hc'|exact Hx].
    + destruct s as [|c s]; [discriminate|].
      apply andb_true_iff in Hm. destruct Hm as [Hc Hm].
      apply many_elim in Hm. destruct Hm as (a & b & -> & _ & Hb).
      destruct Hin as [[E|Hin]|[E|Hin]]; try discriminate E.
      * destruct (Htail b Hb (or_introl Hin)) as (c' & Hc' & Hx).
        exists c'. split; [right; apply in_or_app; right; exact Hc'|exact Hx].
      * injection E as ->. exists c. split; [left; reflexivity|exact Hc].
      * destruct (Htail b Hb (or_intror Hin)) as (c' & Hc' & Hx).
        exists c'. split; [right; apply in_or_app; right; exact Hc'|exact Hx].
Qed.

Lemma re_search_uses (ic : bool) (cs : charset) (p : pattern) (s : pystr) :
  re_search ic p s = true ->
  In (One cs) (body p) \/ In (Many1 cs) (body p) ->
  exists c, In c s /\ cmatch ic cs c = true.
Proof.
  unfold re_search. intros H Hin. destruct (anchor_start p).
  - exact (match_items_uses ic cs _ _ _ H Hin).
  - apply search_from_elim in H. destruct H as (a & b & -> & Hb).
    destruct (match_items_uses ic cs _ _ _ Hb Hin) as (c & Hc & Hx).
    exists c. split; [apply in_or_app; right; exact Hc|exact Hx].
Qed.

Lemma name_char_cases (c : N) :
  name_char c = true ->
  (0x61 <= c <= 0x7A \/ 0x41 <= c <= 0x5A \/ 0x30 <= c <= 0x39
   \/ c = 0x2E \/ c = 0x5F \/ c = 0x2D)%N.
Proof.
  unfold name_char, ascii_alnum, in_range. intros H.
  repeat (apply orb_true_iff in H; destruct H as [H|H]);
    repeat match goal with
    | H : _ && _ = true |- _ => apply andb_true_iff in H; destruct H
    | H : (_ <=? _)%N = true |- _ => apply N.leb_le in H
    | H : (_ =? _)%N = true |- _ => apply N.eqb_eq in H
    end; lia.
Qed.

Ltac decide_comparisons :=
  repeat match goal with
  | |- context [(?a <=? ?b)%N] => destruct (N.leb_spec a b); try lia
  | |- context [(?a =? ?b)%N] => destruct (N.eqb_spec a b); try lia
  end; try reflexivity.

Lemma name_char_not_space (c : N) : name_char c = true -> isspace c = false.
Proof.
  intros H. apply name_char_cases in H. unfold isspace, in_range.
  decide_comparisons.
Qed.

Lemma name_char_fold_case (c : N) :
  name_char c = true -> name_char (fold_case c) = true.
Proof.
  intros H. apply name_char_cases in H.
  assert (E : (fold_case c = c + 32 /\ 0x41 <= c <= 0x5A
               \/ fold_case c = c /\ ~ (0x41 <= c <= 0x5A))%N).
  { unfold fold_case, in_range.
    destruct (N.leb_spec 0x41 c), (N.leb_spec c 0x5A); cbn [andb];
      [left; split; [reflexivity|lia]|right..];
      (split; [|lia]); decide_comparisons. }
  destruct E as [[-> Hr]|[-> Hr]]; unfold name_char, ascii_alnum, in_range;
    decide_comparisons.
Qed.

Lemma foreign_not_name (cs : charset) (c : N) :
  foreign cs = true -> name_char c = true -> cmatch true cs c = false.
Proof.
  intros Hf Hc. destruct cs as [l| | |l]; try discriminate Hf; cbn [cmatch].
  - cbn [foreign] in Hf. apply negb_true_iff in Hf.
    destruct (N.eqb_spec (fold_case c) (fold_case l)) as [E|]; [|reflexivity].
    rewrite <- E, (name_char_fold_case c Hc) in Hf. discriminate Hf.
  - apply name_char_not_space. exact Hc.
Qed.

Lemma needs_foreign_not_name (p : pattern) (n : pystr) :
  needs_foreign p = true -> re_search true p n = true ->
  forallb name_char n = false.
Proof.
  unfold needs_foreign. intros Hp Hs. apply existsb_exists in Hp.
  destruct Hp as (it & Hin & Hf).
  assert (H : exists cs, foreign cs = true
                         /\ (In (One cs) (body p) \/ In (Many1 cs) (body p))).
  { destruct it as [cs|cs|cs]; [|discriminate Hf|]; exists cs; auto. }
  destruct H as (cs & Hcs & Hin').
  destruct (re_search_uses true cs p n Hs Hin') as (c & Hc & Hx).
  destruct (forallb name_char n) eqn:E; [|reflexivity].
  rewrite forallb_forall in E.
  rewrite (foreign_not_name cs c Hcs (E c Hc)) in Hx. discriminate Hx.
Qed.

Lemma blocked_patterns_classified :
  Forall (fun p => needs_foreign p = true
                   \/ exists lit, In lit blocked_words /\ p = word (of_string lit))
    BLOCKED_PATTERNS.
Proof.
  unfold BLOCKED_PATTERNS. cbn [map].
  repeat (apply Forall_cons;
          [first
             [ left; vm_compute; reflexivity
             | right; exists "mkfs."; split; [simpl; tauto|reflexivity]
             | right; exists "__import__"; split; [simpl; tauto|reflexivity]
             | right; exists "subprocess"; split; [simpl; tauto|reflexivity]
             | right; exists "os.system"; split; [simpl; tauto|reflexivity] ]|]).
  apply Forall_nil.
Qed.

Lemma re_match_valid_name (c : N) (r : pystr) :
  no_leading_space (rev (c :: r)) ->
  re_match false VALID_PACKAGE_PATTERN (c :: r)
  = ascii_alnum c && forallb name_char r.
Proof.
  intros Hend.
  destruct (re_match false VALID_PACKAGE_PATTERN (c :: r)) eqn:E.
  - destruct (valid_name_shape _ Hend E) as (c' & r' & Ecr & Hc & Hr).
    injection Ecr as <- <-. rewrite Hc, Hr. reflexivity.
  - destruct (ascii_alnum c) eqn:Hc; [|reflexivity].
    destruct (forallb name_char r) eqn:Hr; [|reflexivity].
    rewrite <- E. cbn [andb]. rewrite VALID_PACKAGE_PATTERN_eq. unfold re_match.
    cbn [body match_items]. rewrite cmatch_alnum, Hc. cbn [andb].
    rewrite <- (app_nil_r r). apply many_intro; [|reflexivity].
    rewrite <- Hr. apply forallb_pointwise. apply cmatch_name_char.
Qed.

Lemma ascii_alnum_name_char (c : N) : ascii_alnum c = true -> name_char c = true.
Proof. unfold name_char. intros ->. reflexivity. Qed.

(** X25: exactly which package names [validate_package_name] accepts: those
    whose stripped form is not empty, starts with an ASCII letter or digit,
    continues with ASCII letters, digits, dots, underscores and hyphens, is
    at most 100 characters long and contains none of [mkfs.], [__import__],
    [subprocess] and [os.system] in any letter case.  The thirteen other
    blocked patterns never decide: each needs a character that no such name
    has. *)
Theorem X25_accepted_names_exactly (s : pystr) :
  fst (validate_package_name s)
  = match strip s with
    | [] => false
    | c :: r =>
        ascii_alnum c && forallb name_char r
        && (Z.of_nat (List.length (strip s)) <=? 100)
        && negb (existsb (fun lit => occurs (of_string lit) (strip s))
                   blocked_words)
    end.
Proof.
  pose proof (strip_no_trailing_space s) as Hend.
  unfold validate_package_name.
  change (match s with [] => true | _ :: _ => false end
          || match strip s with [] => true | _ :: _ => false end)
    with (is_empty s || is_empty (strip s)).
  rewrite strip_empty_iff.
  destruct (strip s) as [|c r] eqn:En; [reflexivity|].
  cbn [is_empty]. cbv zeta. unfold MAX_PACKAGE_NAME_LENGTH.
  destruct (Z.ltb_spec 100 (Z.of_nat (List.length (c :: r)))) as [Hl|Hl].
  { destruct (Z.leb_spec (Z.of_nat (List.length (c :: r))) 100); [lia|].
    rewrite andb_false_r. reflexivity. }
  destruct (Z.leb_spec (Z.of_nat (List.length (c :: r))) 100); [|lia].
  rewrite andb_true_r.
  destruct (existsb (fun p => re_search true p (c :: r)) BLOCKED_PATTERNS) eqn:Eb.
  - cbn [fst]. apply existsb_exists in Eb. destruct Eb as (p & Hp & Hs).
    pose proof blocked_patterns_classified as Hcl.
    rewrite Forall_forall in Hcl.
    destruct (Hcl p Hp) as [Hf|(lit & Hlit & ->)].
    + pose proof (needs_foreign_not_name p _ Hf Hs) as Hn. cbn [forallb] in Hn.
      destruct (ascii_alnum c) eqn:Hc; [|reflexivity].
      rewrite (ascii_alnum_name_char c Hc) in Hn. cbn [andb] in Hn.
      rewrite Hn. reflexivity.
    + rewrite occurs_word in Hs.
      assert (Ho : existsb (fun lit => occurs (of_string lit) (c :: r))
                     blocked_words = true).
      { apply existsb_exists. exists lit. auto. }
      rewrite Ho. rewrite andb_false_r. reflexivity.
  - assert (Ho : existsb (fun lit => occurs (of_string lit) (c :: r))
                   blocked_words = false).
    { destruct (existsb _ blocked_words) eqn:Ho; [|reflexivity].
      apply existsb_exists in Ho. destruct Ho as (lit & Hlit & Ho).
      rewrite <- occurs_word in Ho. rewrite <- Eb. symmetry.
      apply existsb_exists. exists (word (of_string lit)).
      split; [apply blocked_words_blocked; exact Hlit|exact Ho]. }
    rewrite Ho. cbn [negb]. rewrite andb_true_r.
    rewrite <- (re_match_valid_name c r Hend).
    destruct (re_match false VALID_PACKAGE_PATTERN (c :: r)); reflexivity.
Qed.

(** ** Exactly which topics are accepted *)

Lemma cmatch_whitespace (ic : bool) (c : N) :
  cmatch ic (Ranges whitespace_ranges) c = isspace c.
Proof.
  unfold isspace. simpl. rewrite !in_range_point, orb_false_r, !orb_assoc.
  reflexivity.
Qed.

Lemma cmatch_topic_char (ic : bool) (c : N) :
  cmatch ic
    (Ranges (alnum_ranges ++ whitespace_ranges
             ++ [(0x2E, 0x2E); (0x5F, 0x5F); (0x2D, 0x2D)]%N)) c
  = topic_char c.
Proof.
  unfold topic_char. rewrite <- (cmatch_name_char ic), <- (cmatch_whitespace ic).
  cbn [cmatch]. rewrite !existsb_app.
  destruct (existsb _ alnum_ranges), (existsb _ whitespace_ranges);
    cbn [orb]; rewrite ?orb_true_r, ?orb_false_r; reflexivity.
Qed.

Lemma re_match_topic (c : N) (r : pystr) :
  no_leading_space (rev (c :: r)) ->
  re_match false TOPIC_PATTERN (c :: r)
  = ascii_alnum c && forallb topic_char r.
Proof.
  intros Hend. unfold re_match, TOPIC_PATTERN. cbn [body match_items].
  rewrite cmatch_alnum. destruct (ascii_alnum c); [|reflexivity]. cbn [andb].
  match goal with |- many _ ?cs ?k r = _ => destruct (many false cs k r) eqn:E end.
  - apply many_elim in E. destruct E as (a & b & -> & Ha & Hb).
    assert (Hb' : b = []).
    { unfold at_end in Hb. cbn [anchor_end] in Hb.
      destruct b as [|x [|y b]]; [reflexivity| |discriminate].
      apply N.eqb_eq in Hb. subst x. exfalso.
      change (c :: a ++ [10%N])%list with ((c :: a) ++ [10%N])%list in Hend.
      rewrite rev_app_distr in Hend. simpl in Hend. discriminate Hend. }
    subst b. rewrite app_nil_r. rewrite <- Ha. symmetry.
    apply forallb_pointwise. intros x. symmetry. apply cmatch_topic_char.
  - destruct (forallb topic_char r) eqn:Hr; [|reflexivity].
    rewrite <- E. rewrite <- (app_nil_r r).
    apply many_intro; [|reflexivity].
    rewrite <- Hr. apply forallb_pointwise. apply cmatch_topic_char.
Qed.

(** X26: exactly which topics [validate_topic] accepts: those whose
    stripped form is not empty, is at most 200 characters long, starts with
    an ASCII letter or digit and continues with ASCII letters, digits, dots,
    underscores, hyphens and white space.  The blocked patterns are not
    consulted. *)
Theorem X26_accepted_topics_exactly (s : pystr) :
  fst (validate_topic s)
  = match strip s with
    | [] => false
    | c :: r =>
        (Z.of_nat (List.length (strip s)) <=? 200)
        && ascii_alnum c && forallb topic_char r
    end.
Proof.
  pose proof (strip_no_trailing_space s) as Hend.
  unfold validate_topic. rewrite strip_empty_iff.
  destruct (strip s) as [|c r] eqn:En; [reflexivity|].
  cbn [is_empty]. cbv zeta.
  destruct (Z.ltb_spec 200 (Z.of_nat (List.length (c :: r)))) as [Hl|Hl];
    destruct (Z.leb_spec (Z.of_nat (List.length (c :: r))) 200); try lia;
    [reflexivity|].
  cbn [andb]. rewrite <- (re_match_topic c r Hend).
  destruct (re_match false TOPIC_PATTERN (c :: r)); reflexivity.
Qed.

(** * The agent's progress methods *)

Lemma truthy_string_false (s : string) : str_truthy s = false -> s = "".
Proof. destruct s; [reflexivity|discriminate]. Qed.

Lemma SFeqb_refl_not_nan (x : spec_float) :
  x <> S754_nan -> SFeqb x x = true.
Proof.
  intros Hx. destruct x as [s|s| |s m e]; try reflexivity; try congruence;
    unfold SFeqb, SFcompare.
  - destruct s; reflexivity.
  - change (PosDef.Pos.compare_cont Eq m m) with (Pos.compare m m).
    destruct s; rewrite Z.compare_refl, Pos.compare_refl; reflexivity.
Qed.

Lemma leb_zero_is_nan (x : float) :
  PrimFloat.leb 0%float x = true -> is_nan x = false.
Proof.
  unfold is_nan. rewrite FloatAxioms.leb_spec, FloatAxioms.eqb_spec.
  intros H.
  rewrite SFeqb_refl_not_nan; [reflexivity|].
  intros E. rewrite E in H. discriminate H.
Qed.

(** X27: [TutorAgent.mark_completed] never raises.  On a working store it
    returns [True] exactly when the score lies in [0, 1] and package and
    topic are not empty; the topic then reads back completed with that
    score as a REAL column keeps it (equal to it as a number; a negative
    zero reads back as 0.0), and otherwise the store is left as it was.  A
    score that is not a number is not in [0, 1].  On a failing store it
    returns [False]. *)
Theorem X27_agent_mark_completed (db : database) (package_name topic : string)
    (score : float) (clock : datetime) :
  let accepted :=
    PrimFloat.leb 0%float score && PrimFloat.leb score 1%float
    && str_truthy package_name && str_truthy topic in
  (exists db',
     TutorAgent.mark_completed (ProgressTrackerTool.mk (healthy db)) package_name
       topic score clock
     = Ok (ProgressTrackerTool.mk (healthy db'), VBool accepted)
     /\ (accepted = true ->
         is_nan score = false
         /\ PrimFloat.eqb (sql_real score) score = true
         /\ exists j,
              get_progress (healthy db') package_name topic
              = Ok (Some (LearningProgress.mk (Some j) package_name topic true
                            (sql_real score) (Some (isoformat clock)) 0)))
     /\ (accepted = false -> db' = db))
  /\ (forall e,
        TutorAgent.mark_completed (ProgressTrackerTool.mk (broken db e))
          package_name topic score clock
        = Ok (ProgressTrackerTool.mk (broken db e), VBool false)).
Proof.
  intros accepted. subst accepted. unfold TutorAgent.mark_completed.
  destruct (PrimFloat.leb 0%float score) eqn:Hlo; cbn [negb andb].
  2:{ split; [exists db; split; [reflexivity|split; [discriminate|reflexivity]]|reflexivity]. }
  destruct (PrimFloat.leb score 1%float); cbn [negb andb].
  2:{ split; [exists db; split; [reflexivity|split; [discriminate|reflexivity]]|reflexivity]. }
  unfold ProgressTrackerTool._run.
  cbn [ProgressTrackerTool.lookup ProgressTrackerTool.actions String.eqb
       Ascii.eqb Bool.eqb].
  unfold ProgressTrackerTool._mark_completed.
  cbn [opt_str_truthy unwrap ProgressTrackerTool.store].
  destruct (str_truthy package_name) eqn:Hp; cbn [negb orb andb].
  2:{ split; [exists db; split; [reflexivity|split; [discriminate|reflexivity]]|reflexivity]. }
  destruct (str_truthy topic) eqn:Ht; cbn [negb orb andb].
  2:{ split; [exists db; split; [reflexivity|split; [discriminate|reflexivity]]|reflexivity]. }
  split.
  - destruct (mark_topic_completed_then_get db package_name topic score clock)
      as (db' & j & Em & Eg).
    exists db'. rewrite Em. cbn [bind]. split; [reflexivity|]. split.
    + intros _. pose proof (leb_zero_is_nan score Hlo) as Hn.
      split; [exact Hn|]. split; [apply sql_real_eqb; exact Hn|].
      exists j. exact Eg.
    + discriminate.
  - intros e. unfold mark_topic_completed, upsert_progress, broken.
    cbn [_get_connection fault bind]. reflexivity.
Qed.

Lemma X27_witness :
  PrimFloat.leb 0%float neg_zero && PrimFloat.leb neg_zero 1%float
  && str_truthy "docker" && str_truthy "basics" = true
  /\ exists db',
       TutorAgent.mark_completed (ProgressTrackerTool.mk (healthy timed_db))
         "docker" "basics" neg_zero sample_clock
       = Ok (ProgressTrackerTool.mk (healthy db'), VBool true)
       /\ is_nan neg_zero = false
       /\ PrimFloat.eqb 0%float neg_zero = true
       /\ exists j,
            get_progress (healthy db') "docker" "basics"
            = Ok (Some (LearningProgress.mk (Some j) "docker" "basics" true
                          0%float (Some "2024-03-05T07:08:09+00:00") 0)).
Proof.
  split; [reflexivity|].
  destruct (proj1 (X27_agent_mark_completed timed_db "docker" "basics" neg_zero
                     sample_clock)) as (db' & E & Hacc & _).
  exists db'. split; [exact E|]. exact (Hacc eq_refl).
Defined.

(** X28: [TutorAgent.reset_progress] and [TutorAgent.get_packages_studied]
    never raise: on a working store they return what the store reports (the
    number of rows deleted, the packages studied) and leave the store as
    the store method leaves it; on a failing store they return 0 and the
    empty list. *)
Theorem X28_agent_reset_and_packages (db : database)
    (package_name : option string) (clock : datetime) :
  (exists db' count,
     reset_progress (healthy db) package_name = Ok (healthy db', count)
     /\ TutorAgent.reset_progress (ProgressTrackerTool.mk (healthy db))
          package_name clock
        = Ok (ProgressTrackerTool.mk (healthy db'), VInt count))
  /\ (exists packages,
        get_packages_studied (healthy db) = Ok packages
        /\ TutorAgent.get_packages_studied (ProgressTrackerTool.mk (healthy db))
             clock
           = Ok (ProgressTrackerTool.mk (healthy db), VList (map VStr packages)))
  /\ (forall e,
        TutorAgent.reset_progress (ProgressTrackerTool.mk (broken db e))
          package_name clock
        = Ok (ProgressTrackerTool.mk (broken db e), VInt 0)
        /\ TutorAgent.get_packages_studied (ProgressTrackerTool.mk (broken db e))
             clock
           = Ok (ProgressTrackerTool.mk (broken db e), VList [])).
Proof.
  unfold TutorAgent.reset_progress, TutorAgent.get_packages_studied,
    ProgressTrackerTool._run.
  cbn [ProgressTrackerTool.lookup ProgressTrackerTool.actions String.eqb
       Ascii.eqb Bool.eqb].
  unfold ProgressTrackerTool._reset_progress,
    ProgressTrackerTool._get_packages_studied.
  cbn [ProgressTrackerTool.store].
  split; [|split].
  - destruct (reset_progress (healthy db) package_name) as [[s count]|e] eqn:E.
    + assert (Hs : exists db', s = healthy db').
      { unfold reset_progress in E.
        cbn [healthy _get_connection fault file bind] in E.
        destruct (opt_str_truthy package_name); injection E as <- _;
          eexists; reflexivity. }
      destruct Hs as [db' ->]. exists db', count. split; reflexivity.
    + exfalso. unfold reset_progress in E.
      cbn [healthy _get_connection fault file bind] in E.
      destruct (opt_str_truthy package_name); discriminate E.
  - unfold get_packages_studied.
    cbn [healthy _get_connection fault file bind].
    eexists. split; reflexivity.
  - intros e. unfold reset_progress, get_packages_studied, broken.
    cbn [_get_connection fault bind]. split; reflexivity.
Qed.

Lemma get_student_profile_row (db : database) :
  exists db0 row,
    get_student_profile (healthy db) = Ok (healthy db0, profile_of_row row)
    /\ select_profile db0 = Some row.
Proof.
  unfold get_student_profile. cbn [healthy _get_connection fault file bind].
  destruct (select_profile db) as [row|] eqn:Es.
  - exists db, row. auto.
  - unfold _create_default_profile.
    cbn [healthy _get_connection fault file bind]. cbv zeta.
    unfold select_profile in Es |- *.
    cbn [set_student_profile student_profile rows].
    destruct (rows (student_profile db)) as [|a l] eqn:Er; [|discriminate Es].
    cbn [app hd_error]. eexists. eexists. split; reflexivity.
Qed.

Lemma str_in_styles (style : string) :
  In style ["visual"; "reading"; "hands-on"] ->
  str_in style ["visual"; "reading"; "hands-on"] = true.
Proof.
  intros H. unfold str_in. apply existsb_exists. exists style.
  split; [exact H|apply String.eqb_refl].
Qed.

(** X29: [TutorAgent.update_learning_style] accepts the three styles
    "visual", "reading" and "hands-on" only.  Any other style returns
    [False] and leaves the store as it was.  An accepted style on a working
    store returns [True]; the profile then read has that style, and the
    concept lists of the profile read before.  On a failing store
    [False] is returned. *)
Theorem X29_agent_update_learning_style (db : database) (style : string)
    (clock : datetime) :
  (~ In style ["visual"; "reading"; "hands-on"] ->
   forall tool,
     TutorAgent.update_learning_style tool style clock = Ok (tool, VBool false))
  /\ (In style ["visual"; "reading"; "hands-on"] ->
      (exists db0 before db' after,
         get_student_profile (healthy db) = Ok (healthy db0, before)
         /\ TutorAgent.update_learning_style (ProgressTrackerTool.mk (healthy db))
              style clock
            = Ok (ProgressTrackerTool.mk (healthy db'), VBool true)
         /\ get_student_profile (healthy db') = Ok (healthy db', after)
         /\ StudentProfile.learning_style after = style
         /\ StudentProfile.mastered_concepts after
            = StudentProfile.mastered_concepts before
         /\ StudentProfile.weak_concepts after
            = StudentProfile.weak_concepts before
         /\ StudentProfile.last_session after = Some (isoformat clock))
      /\ forall e,
           TutorAgent.update_learning_style
             (ProgressTrackerTool.mk (broken db e)) style clock
           = Ok (ProgressTrackerTool.mk (broken db e), VBool false)).
Proof.
  split.
  - intros Hn tool. unfold TutorAgent.update_learning_style. cbv zeta.
    destruct (str_in style ["visual"; "reading"; "hands-on"]) eqn:E;
      [|reflexivity].
    exfalso. apply Hn. unfold str_in in E. apply existsb_exists in E.
    destruct E as (x & Hx & Ex). apply String.eqb_eq in Ex. subst x. exact Hx.
  - intros Hin. unfold TutorAgent.update_learning_style. cbv zeta.
    rewrite (str_in_styles style Hin). cbn [negb].
    unfold ProgressTrackerTool._run.
    cbn [ProgressTrackerTool.lookup ProgressTrackerTool.actions String.eqb
         Ascii.eqb Bool.eqb].
    unfold ProgressTrackerTool._update_profile.
    cbn [ProgressTrackerTool.store ProgressTrackerTool.learning_style].
    split.
    + destruct (get_student_profile_row db) as (db0 & row & Eg & Es).
      exists db0, (profile_of_row row). rewrite Eg. cbn [bind].
      unfold update_student_profile.
      cbn [healthy _get_connection fault file bind commit]. rewrite Es.
      eexists. eexists. split; [reflexivity|]. split; [reflexivity|].
      unfold get_student_profile.
      cbn [healthy _get_connection fault file bind].
      rewrite (select_profile_updated (student_profile db0) row _ db0)
        by exact Es.
      split; [reflexivity|]. repeat split.
    + intros e. unfold get_student_profile, broken.
      cbn [_get_connection fault bind]. reflexivity.
Qed.

Lemma X29_witness :
  In "visual" ["visual"; "reading"; "hands-on"]
  /\ (exists db0 before db' after,
        get_student_profile (healthy empty_database) = Ok (healthy db0, before)
        /\ TutorAgent.update_learning_style
             (ProgressTrackerTool.mk (healthy empty_database)) "visual"
             sample_clock
           = Ok (ProgressTrackerTool.mk (healthy db'), VBool true)
        /\ get_student_profile (healthy db') = Ok (healthy db', after)
        /\ StudentProfile.learning_style after = "visual"
        /\ StudentProfile.mastered_concepts after
           = StudentProfile.mastered_concepts before
        /\ StudentProfile.weak_concepts after
           = StudentProfile.weak_concepts before
        /\ StudentProfile.last_session after = Some (isoformat sample_clock)).
Proof.
  assert (H : In "visual" ["visual"; "reading"; "hands-on"]) by (simpl; tauto).
  split; [exact H|].
  exact (proj1 (proj2 (X29_agent_update_learning_style empty_database "visual"
                         sample_clock) H)).
Defined.
